(** * The rastermap activity loader

    A shallow embedding of [src/rastermap/io.py]: the key-resolution pass
    [_load_dict], the extension dispatch and post-validation of
    [load_activity], and the sibling lookups [_load_iscell] and
    [_load_stat].

    Python is modelled as it runs: local names that are assigned only on
    some paths are unbound until then, exceptions are values of an error
    monad, and [print] / [warnings.warn] are events of a writer log. *)

From Stdlib Require Import List String Ascii Bool Arith PeanoNat Lia.
From Stdlib Require Import DecimalString.
Import ListNotations.
Local Open Scope string_scope.
Local Open Scope list_scope.
Local Open Scope nat_scope.

(** ** Python exceptions, output events, and the evaluation monad *)
Module Py.

(** The exception classes that the loader or the libraries under it raise. *)
Inductive exn_class : Set :=
| Exception
| ValueError
| IndexError
| AxisError
| KeyError
| AttributeError
| TypeError
| NameError
| UnboundLocalError
| RuntimeError
| NotImplementedError
| ImportError
| OSError
| FileNotFoundError
| EOFError
| UnpicklingError.

Definition exn_class_eqb (c d : exn_class) : bool :=
  match c, d with
  | Exception, Exception | ValueError, ValueError | IndexError, IndexError
  | AxisError, AxisError | KeyError, KeyError | AttributeError, AttributeError
  | TypeError, TypeError | NameError, NameError
  | UnboundLocalError, UnboundLocalError | RuntimeError, RuntimeError
  | NotImplementedError, NotImplementedError | ImportError, ImportError
  | OSError, OSError | FileNotFoundError, FileNotFoundError
  | EOFError, EOFError | UnpicklingError, UnpicklingError => true
  | _, _ => false
  end.

(** [issubclass c d]: Python's class hierarchy restricted to [exn_class].
    numpy's [AxisError] derives from both [ValueError] and [IndexError]. *)
Definition issubclass (c d : exn_class) : bool :=
  exn_class_eqb c d ||
  match c, d with
  | _, Exception => true
  | AxisError, ValueError => true
  | AxisError, IndexError => true
  | UnboundLocalError, NameError => true
  | NotImplementedError, RuntimeError => true
  | FileNotFoundError, OSError => true
  | _, _ => false
  end.

(** A raised exception: its class and its message.  For errors raised by
    the interpreter or by numpy the message is a short description. *)
Record exn : Set := Raise { exn_cls : exn_class; exn_msg : string }.

(** [except (c1, c2, ...)] matches an exception whose class derives from
    one of the listed classes. *)
Definition except_matches (handled : list exn_class) (e : exn) : bool :=
  existsb (issubclass (exn_cls e)) handled.

Inductive event : Set :=
| Stdout (s : string)
| Warning (s : string).

(** A computation yields the events it emitted and either the exception it
    raised or its value. *)
Definition M (A : Type) : Type := list event * (exn + A).

Definition ret {A} (a : A) : M A := ([], inr a).

Definition bind {A B} (m : M A) (k : A -> M B) : M B :=
  match m with
  | (l1, inl e) => (l1, inl e)
  | (l1, inr a) => let (l2, r) := k a in (l1 ++ l2, r)
  end.

Definition raise {A} (c : exn_class) (msg : string) : M A :=
  ([], inl (Raise c msg)).

Definition lift {A} (r : exn + A) : M A := ([], r).

Definition print (s : string) : M unit := ([Stdout s], inr tt).

Definition warn (s : string) : M unit := ([Warning s], inr tt).

(** [try: m  except handled: h] *)
Definition try_except {A} (m : M A) (handled : list exn_class) (h : M A) : M A :=
  match m with
  | (l1, inl e) =>
      if except_matches handled e then let (l2, r) := h in (l1 ++ l2, r)
      else (l1, inl e)
  | ok => ok
  end.

(** A local name of a function body: unbound until first assigned. *)
Inductive var (A : Type) : Type :=
| Unbound
| Bound (a : A).
Arguments Unbound {A}.
Arguments Bound {A} a.

(** Reading a local name. *)
Definition read {A} (name : string) (v : var A) : M A :=
  match v with
  | Unbound => raise UnboundLocalError name
  | Bound a => ret a
  end.

Definition raised {A} (m : M A) : Prop := exists e, snd m = inl e.

#[global] Arguments bind {A B} m k : simpl never.
#[global] Arguments ret {A} a : simpl never.
#[global] Arguments raise {A} c msg : simpl never.

End Py.

Import Py.

Declare Scope py_scope.
Delimit Scope py_scope with py.
Notation "x <- m ;; k" := (Py.bind m (fun x => k))
  (at level 61, m at next level, right associativity) : py_scope.
Notation "m ;;; k" := (Py.bind m (fun _ => k))
  (at level 61, right associativity) : py_scope.
Notation "' pat <- m ;; k" := (Py.bind m (fun x => match x with pat => k end))
  (at level 61, pat pattern, m at next level, right associativity) : py_scope.
Local Open Scope py_scope.

(** ** numpy arrays

    An [ndarray] is its shape and its elements in row-major (C) order.
    The element type is a parameter: numeric elements come with the
    operations of [Scalar], object arrays hold Python dictionaries. *)
Module Np.

Record ndarray (A : Type) : Type := mk_ndarray { shape : list nat; data : list A }.
Arguments mk_ndarray {A} shape data.
Arguments shape {A} _.
Arguments data {A} _.

(** The arithmetic numpy applies elementwise.  [s_square] is [x ** 2],
    [s_root] is [x ** 0.5], [s_truth] is the conversion [astype("bool")]. *)
Class Scalar (E : Type) : Type := {
  s_zero : E;
  s_add : E -> E -> E;
  s_mul : E -> E -> E;
  s_square : E -> E;
  s_root : E -> E;
  s_truth : E -> bool
}.

(** Equality of two shape tuples. *)
Fixpoint shape_eqb (s1 s2 : list nat) : bool :=
  match s1, s2 with
  | [], [] => true
  | n1 :: r1, n2 :: r2 => (n1 =? n2) && shape_eqb r1 r2
  | _, _ => false
  end.

Section Arrays.
Context {A : Type}.

Definition ndim (a : ndarray A) : nat := List.length (shape a).

Definition prod (s : list nat) : nat := fold_right Nat.mul 1 s.

Definition size (a : ndarray A) : nat := prod (shape a).

(** The arrays numpy can build: as many elements as the shape says. *)
Definition well_formed (a : ndarray A) : Prop := List.length (data a) = size a.

(** [a.shape[0]] *)
Definition shape_first (a : ndarray A) : M nat :=
  match shape a with
  | [] => raise IndexError "tuple index out of range"
  | n :: _ => ret n
  end.

(** [a.shape[-1]] *)
Definition shape_last (a : ndarray A) : M nat :=
  match rev (shape a) with
  | [] => raise IndexError "tuple index out of range"
  | n :: _ => ret n
  end.

(** [a.shape[1]] *)
Definition shape_second (a : ndarray A) : M nat :=
  match shape a with
  | _ :: n :: _ => ret n
  | _ => raise IndexError "tuple index out of range"
  end.

(** [l] cut into [n] consecutive blocks of [k] elements. *)
Fixpoint chunks (n k : nat) (l : list A) : list (list A) :=
  match n with
  | 0 => []
  | S n' => firstn k l :: chunks n' k (skipn k l)
  end.

(** [a.item()]: the single element of an array of size 1. *)
Definition item (a : ndarray A) : M A :=
  match data a with
  | [x] => ret x
  | _ => raise ValueError "can only convert an array of size 1 to a Python scalar"
  end.

(** [np.stack((a, b), axis=1)] for two arrays; [b] is given by its shape
    and elements so that a non-array operand (shape [()]) can be passed. *)
Definition stack_axis1 (a b : ndarray A) : M (ndarray A) :=
  if negb (shape_eqb (shape a) (shape b))
  then raise ValueError "all input arrays must have the same shape"
  else match shape a with
       | [] => raise AxisError "axis 1 is out of bounds for array of dimension 1"
       | n :: rest =>
           let k := prod rest in
           ret (mk_ndarray (n :: 2 :: rest)
                  (List.concat (map (fun p => fst p ++ snd p)
                             (combine (chunks n k (data a)) (chunks n k (data b))))))
       end.

(** The columns of a list of rows of width [c]. *)
Fixpoint columns (c : nat) (rows : list (list A)) : list (list A) :=
  match c with
  | 0 => []
  | S c' => flat_map (firstn 1) rows :: columns c' (map (skipn 1) rows)
  end.

(** [a.T] of a 2-D array (other ranks are not transposed by the loader). *)
Definition transpose (a : ndarray A) : ndarray A :=
  match shape a with
  | [r; c] => mk_ndarray [c; r] (List.concat (columns c (chunks r c (data a))))
  | _ => a
  end.

(** [a.reshape(a.shape[0], -1)] *)
Definition reshape_rows (a : ndarray A) : M (ndarray A) :=
  match shape a with
  | [] => raise IndexError "tuple index out of range"
  | n :: _ =>
      if (n =? 0) || negb (size a mod n =? 0)
      then raise ValueError "cannot reshape array"
      else ret (mk_ndarray [n; size a / n] (data a))
  end.

(** [a[:, j]] *)
Definition take_column (j : nat) (a : ndarray A) : M (ndarray A) :=
  match shape a with
  | n :: c :: rest =>
      if j <? c
      then let k := prod rest in
           ret (mk_ndarray (n :: rest)
                  (List.concat (map (fun row => firstn k (skipn (j * k) row))
                             (chunks n (c * k) (data a)))))
      else raise IndexError "index is out of bounds for axis 1"
  | _ => raise IndexError "too many indices for array"
  end.

(** [np.array(items)] for a list of arrays: equal shapes stack along a new
    leading axis; ragged input is rejected (numpy 1.24 and later). *)
Definition array_of_list (items : list (ndarray A)) : M (ndarray A) :=
  match items with
  | [] => ret (mk_ndarray [0] [])
  | a :: rest =>
      if forallb (fun b => shape_eqb (shape b) (shape a)) rest
      then ret (mk_ndarray (List.length items :: shape a) (List.concat (map data items)))
      else raise ValueError "setting an array element with a sequence"
  end.

End Arrays.

Definition astype {A B} (f : A -> B) (a : ndarray A) : ndarray B :=
  mk_ndarray (shape a) (map f (data a)).

Section Numeric.
Context {E : Type} `{Scalar E}.

Fixpoint zip_with (f : E -> E -> E) (l1 l2 : list E) : list E :=
  match l1, l2 with
  | x :: l1', y :: l2' => f x y :: zip_with f l1' l2'
  | _, _ => []
  end.

(** [a ** 2] and [a ** 0.5] *)
Definition square (a : ndarray E) : ndarray E := astype s_square a.
Definition root (a : ndarray E) : ndarray E := astype s_root a.

(** [a.sum(axis=0)]; numpy accepts axis 0 on a 0-d array and returns its
    only element. *)
Definition sum_axis0 (a : ndarray E) : M (ndarray E) :=
  match shape a with
  | [] => ret a
  | n :: rest =>
      let k := prod rest in
      ret (mk_ndarray rest
             (match chunks n k (data a) with
              | [] => repeat s_zero k
              | r :: rows => fold_left (zip_with s_add) rows r
              end))
  end.

(** Broadcasting of two shapes of equal rank, outermost axis first, applied
    to the elements: axes agree, or one of them has length 1. *)
Fixpoint broadcast_mul (s1 s2 : list nat) (d1 d2 : list E) : option (list E) :=
  match s1, s2 with
  | [], [] => Some (zip_with s_mul d1 d2)
  | n1 :: r1, n2 :: r2 =>
      let k1 := prod r1 in
      let k2 := prod r2 in
      let blocks :=
        if n1 =? n2 then Some (combine (chunks n1 k1 d1) (chunks n2 k2 d2))
        else if n1 =? 1 then Some (map (fun c2 => (d1, c2)) (chunks n2 k2 d2))
        else if n2 =? 1 then Some (map (fun c1 => (c1, d2)) (chunks n1 k1 d1))
        else None in
      match blocks with
      | None => None
      | Some bs =>
          fold_right (fun p acc =>
                        match broadcast_mul r1 r2 (fst p) (snd p), acc with
                        | Some x, Some xs => Some (x ++ xs)
                        | _, _ => None
                        end) (Some []) bs
      end
  | _, _ => None
  end.

(** The shape of a broadcast result. *)
Fixpoint broadcast_shape (s1 s2 : list nat) : option (list nat) :=
  match s1, s2 with
  | [], [] => Some []
  | n1 :: r1, n2 :: r2 =>
      match broadcast_shape r1 r2 with
      | None => None
      | Some r =>
          if n1 =? n2 then Some (n1 :: r)
          else if n1 =? 1 then Some (n2 :: r)
          else if n2 =? 1 then Some (n1 :: r)
          else None
      end
  | _, _ => None
  end.

(** A shape padded on the left with axes of length 1 up to rank [r]. *)
Definition pad_shape (r : nat) (s : list nat) : list nat :=
  repeat 1 (r - List.length s) ++ s.

(** [a * b] *)
Definition multiply (a b : ndarray E) : M (ndarray E) :=
  let r := Nat.max (ndim a) (ndim b) in
  let s1 := pad_shape r (shape a) in
  let s2 := pad_shape r (shape b) in
  match broadcast_shape s1 s2, broadcast_mul s1 s2 (data a) (data b) with
  | Some s, Some d => ret (mk_ndarray s d)
  | _, _ => raise ValueError "operands could not be broadcast together"
  end.

End Numeric.

End Np.

Import Np.

(** ** Path handling ([posixpath]) *)
Module OsPath.

(** [p.rfind(c)], with positions counted from [i]. *)
Fixpoint rfind_from (c : ascii) (p : string) (i : nat) : option nat :=
  match p with
  | EmptyString => None
  | String a r =>
      match rfind_from c r (S i) with
      | Some j => Some j
      | None => if Ascii.eqb a c then Some i else None
      end
  end.

Definition rfind (c : ascii) (p : string) : option nat := rfind_from c p 0.

(** [p[i:]] *)
Fixpoint drop (i : nat) (p : string) : string :=
  match i, p with
  | 0, _ => p
  | S i', String _ r => drop i' r
  | S _, EmptyString => EmptyString
  end.

(** [p[:i]] *)
Fixpoint take (i : nat) (p : string) : string :=
  match i, p with
  | S i', String a r => String a (take i' r)
  | _, _ => EmptyString
  end.

(** Every character of [p] is [c]. *)
Fixpoint all_char (c : ascii) (p : string) : bool :=
  match p with
  | EmptyString => true
  | String a r => Ascii.eqb a c && all_char c r
  end.

(** [p.rstrip(c)] *)
Fixpoint rstrip (c : ascii) (p : string) : string :=
  match p with
  | EmptyString => EmptyString
  | String a r =>
      match rstrip c r with
      | EmptyString => if Ascii.eqb a c then EmptyString else String a EmptyString
      | r' => String a r'
      end
  end.

(** [p.endswith(c)] *)
Fixpoint ends_with (c : ascii) (p : string) : bool :=
  match p with
  | EmptyString => false
  | String a EmptyString => Ascii.eqb a c
  | String _ r => ends_with c r
  end.

(** [os.path.splitext(p)]: the extension starts at the last dot of the last
    path component, unless that component has only leading dots before it. *)
Definition splitext (p : string) : string * string :=
  let filenameIndex := match rfind "/" p with Some s => S s | None => 0 end in
  match rfind "." p with
  | Some dotIndex =>
      if (filenameIndex <=? dotIndex)
         && negb (all_char "." (take (dotIndex - filenameIndex) (drop filenameIndex p)))
      then (take dotIndex p, drop dotIndex p)
      else (p, EmptyString)
  | None => (p, EmptyString)
  end.

(** [os.path.split(p)] *)
Definition split (p : string) : string * string :=
  let i := match rfind "/" p with Some s => S s | None => 0 end in
  let head := take i p in
  let tail := drop i p in
  (if negb (String.eqb head "") && negb (all_char "/" head) then rstrip "/" head else head,
   tail).

(** [os.path.join(a, b)] *)
Definition join (a b : string) : string :=
  if String.prefix "/" b then b
  else if String.eqb a "" || ends_with "/" a then String.append a b
  else String.append a (String.append "/" b).

End OsPath.

(** ** The loader, [src/rastermap/io.py] *)
Module Io.

Section Loader.
Context {E : Type} `{Scalar E}.

(** A value stored under a key, or held by a local name: [None] or a
    numeric array. *)
Inductive pyval : Type :=
| PNone
| PArr (a : ndarray E).

(** A mapping from names to values, in iteration order. *)
Definition dict : Type := list (string * pyval).

(** [d.keys()] *)
Definition keys_of {V : Type} (d : list (string * V)) : list string := map fst d.

(** [dat[key]] *)
Fixpoint getitem (dat : dict) (key : string) : M pyval :=
  match dat with
  | [] => raise KeyError key
  | (k, v) :: rest => if String.eqb k key then ret v else getitem rest key
  end.

Definition is_none (v : pyval) : bool :=
  match v with
  | PNone => true
  | PArr _ => false
  end.

(** [a and b]: the right operand is evaluated only when the left one holds. *)
Definition and_also (a : bool) (b : M bool) : M bool :=
  if a then b else ret false.

(** [v.shape] and [v.ndim] need an array. *)
Definition as_array (v : pyval) (attr : string) : M (ndarray E) :=
  match v with
  | PNone => raise AttributeError (String.append "'NoneType' object has no attribute " attr)
  | PArr a => ret a
  end.

(** The local names of [_load_dict].  [U], [V] and [Sv] are assigned only
    inside the key loop (lines 17-28). *)
Record locals : Type := mk_locals {
  l_X : pyval;
  l_Usv : pyval;
  l_Vsv : pyval;
  l_U : var pyval;
  l_V : var pyval;
  l_Sv : var pyval;
  l_xpos : pyval;
  l_ypos : pyval;
  l_xy : pyval;
  l_other_keys : list string
}.

(** Line 10-11. *)
Definition initial_locals : locals :=
  mk_locals PNone PNone PNone Unbound Unbound Unbound PNone PNone PNone [].

Definition set_X (st : locals) (v : pyval) : locals :=
  mk_locals v (l_Usv st) (l_Vsv st) (l_U st) (l_V st) (l_Sv st)
            (l_xpos st) (l_ypos st) (l_xy st) (l_other_keys st).
Definition set_Usv (st : locals) (v : pyval) : locals :=
  mk_locals (l_X st) v (l_Vsv st) (l_U st) (l_V st) (l_Sv st)
            (l_xpos st) (l_ypos st) (l_xy st) (l_other_keys st).
Definition set_Vsv (st : locals) (v : pyval) : locals :=
  mk_locals (l_X st) (l_Usv st) v (l_U st) (l_V st) (l_Sv st)
            (l_xpos st) (l_ypos st) (l_xy st) (l_other_keys st).
Definition set_U (st : locals) (v : pyval) : locals :=
  mk_locals (l_X st) (l_Usv st) (l_Vsv st) (Bound v) (l_V st) (l_Sv st)
            (l_xpos st) (l_ypos st) (l_xy st) (l_other_keys st).
Definition set_V (st : locals) (v : pyval) : locals :=
  mk_locals (l_X st) (l_Usv st) (l_Vsv st) (l_U st) (Bound v) (l_Sv st)
            (l_xpos st) (l_ypos st) (l_xy st) (l_other_keys st).
Definition set_Sv (st : locals) (v : pyval) : locals :=
  mk_locals (l_X st) (l_Usv st) (l_Vsv st) (l_U st) (l_V st) (Bound v)
            (l_xpos st) (l_ypos st) (l_xy st) (l_other_keys st).
Definition set_xpos (st : locals) (v : pyval) : locals :=
  mk_locals (l_X st) (l_Usv st) (l_Vsv st) (l_U st) (l_V st) (l_Sv st)
            v (l_ypos st) (l_xy st) (l_other_keys st).
Definition set_ypos (st : locals) (v : pyval) : locals :=
  mk_locals (l_X st) (l_Usv st) (l_Vsv st) (l_U st) (l_V st) (l_Sv st)
            (l_xpos st) v (l_xy st) (l_other_keys st).
Definition set_xy (st : locals) (v : pyval) : locals :=
  mk_locals (l_X st) (l_Usv st) (l_Vsv st) (l_U st) (l_V st) (l_Sv st)
            (l_xpos st) (l_ypos st) v (l_other_keys st).
Definition append_other_key (st : locals) (key : string) : locals :=
  mk_locals (l_X st) (l_Usv st) (l_Vsv st) (l_U st) (l_V st) (l_Sv st)
            (l_xpos st) (l_ypos st) (l_xy st) (l_other_keys st ++ [key]).

(** One iteration of the key loop, lines 13-42. *)
Definition assign_key (dat : dict) (st : locals) (key : string) : M locals :=
  if String.eqb key "Usv" then v <- getitem dat "Usv" ;; ret (set_Usv st v)
  else if String.eqb key "Vsv" then v <- getitem dat "Vsv" ;; ret (set_Vsv st v)
  else if String.eqb key "U" then v <- getitem dat "U" ;; ret (set_U st v)
  else if String.eqb key "U0" then v <- getitem dat "U0" ;; ret (set_U st v)
  else if String.eqb key "V" then v <- getitem dat "V" ;; ret (set_V st v)
  else if String.eqb key "V0" then v <- getitem dat "V0" ;; ret (set_V st v)
  else if String.eqb key "Sv" then v <- getitem dat "Sv" ;; ret (set_Sv st v)
  else if String.eqb key "sv" then v <- getitem dat "sv" ;; ret (set_Sv st v)
  else if String.eqb key "X" then v <- getitem dat "X" ;; ret (set_X st v)
  else if String.eqb key "spks" then v <- getitem dat "spks" ;; ret (set_X st v)
  else if String.eqb key "xpos" then v <- getitem dat "xpos" ;; ret (set_xpos st v)
  else if String.eqb key "ypos" then v <- getitem dat "ypos" ;; ret (set_ypos st v)
  else if String.eqb key "xy" then v <- getitem dat "xy" ;; ret (set_xy st v)
  else if String.eqb key "xyz" then v <- getitem dat "xyz" ;; ret (set_xy st v)
  else ret (append_other_key st key).

(** The key loop, line 12. *)
Fixpoint for_keys (dat : dict) (keys : list string) (st : locals) : M locals :=
  match keys with
  | [] => ret st
  | key :: rest => st' <- assign_key dat st key ;; for_keys dat rest st'
  end.

(** [(v**2).sum(axis=0)**0.5], lines 47 and 52. *)
Definition column_norms (v : pyval) : M pyval :=
  match v with
  | PNone => raise TypeError "unsupported operand type(s) for ** or pow()"
  | PArr a => s <- sum_axis0 (square a) ;; ret (PArr (root s))
  end.

(** [u * s], lines 56 and 58. *)
Definition times (u s : pyval) : M pyval :=
  match u, s with
  | PArr a, PArr b => r <- multiply a b ;; ret (PArr r)
  | _, _ => raise TypeError "unsupported operand type(s) for *"
  end.

(** Lines 45-58: the singular values are derived from the scaled factor of
    the other side, then the unscaled factors are scaled. *)
Definition derive_factors (st : locals) : M locals :=
  c1 <- and_also (is_none (l_Usv st))
          (u <- read "U" (l_U st) ;;
           and_also (negb (is_none u))
             (s <- read "Sv" (l_Sv st) ;; ret (is_none s))) ;;
  st1 <- (if c1 then
            if negb (is_none (l_Vsv st))
            then s <- column_norms (l_Vsv st) ;; ret (set_Sv st s)
            else raise ValueError "no Sv scaling for PCs available"
          else
            c2 <- and_also (is_none (l_Vsv st))
                    (v <- read "V" (l_V st) ;;
                     and_also (negb (is_none v))
                       (s <- read "Sv" (l_Sv st) ;; ret (is_none s))) ;;
            if c2 then
              if negb (is_none (l_Usv st))
              then s <- column_norms (l_Usv st) ;; ret (set_Sv st s)
              else raise ValueError "no Sv scaling for PCs available"
            else ret st) ;;
  c3 <- and_also (is_none (l_Usv st1))
          (u <- read "U" (l_U st1) ;;
           and_also (negb (is_none u))
             (s <- read "Sv" (l_Sv st1) ;; ret (negb (is_none s)))) ;;
  st2 <- (if c3 then
            u <- read "U" (l_U st1) ;;
            s <- read "Sv" (l_Sv st1) ;;
            r <- times u s ;;
            ret (set_Usv st1 r)
          else ret st1) ;;
  c4 <- and_also (is_none (l_Vsv st2))
          (v <- read "V" (l_V st2) ;;
           and_also (negb (is_none v))
             (s <- read "Sv" (l_Sv st2) ;; ret (negb (is_none s)))) ;;
  if c4 then
    v <- read "V" (l_V st2) ;;
    s <- read "Sv" (l_Sv st2) ;;
    r <- times v s ;;
    ret (set_Vsv st2 r)
  else ret st2.

(** Lines 60-65. *)
Definition validate_factors (st : locals) : M unit :=
  u <- as_array (l_Usv st) "'shape'" ;;
  ku <- shape_last u ;;
  v <- as_array (l_Vsv st) "'shape'" ;;
  kv <- shape_last v ;;
  if negb (ku =? kv)
  then raise ValueError "Usv and Vsv must have the same number of components"
  else if 3 <? ndim u
  then raise ValueError "Usv cannot have more than 3 dimensions"
  else if negb (ndim v =? 2)
  then raise ValueError "Vsv must have 2 dimensions"
  else ret tt.

(** An operand of [np.stack]: [None] becomes a 0-d object array. *)
Definition stack_operand (v : pyval) : ndarray E :=
  match v with
  | PNone => mk_ndarray [] []
  | PArr a => a
  end.

(** Lines 67-82: the coordinates are built, oriented, and kept only when
    they have one row per unit. *)
Definition resolve_xy (st : locals) : M pyval :=
  xy1 <- (if negb (is_none (l_xpos st)) && is_none (l_xy st)
          then c <- stack_axis1 (stack_operand (l_xpos st)) (stack_operand (l_ypos st)) ;;
               ret (PArr c)
          else ret (l_xy st)) ;;
  match xy1 with
  | PNone => ret PNone
  | PArr c1 =>
      xy2 <- (if negb (ndim c1 =? 2)
              then print "cannot use xy from file: x and y positions of neurons must be 2-dimensional" ;;;
                   ret PNone
              else n0 <- shape_first c1 ;;
                   if (n0 =? 2) || (n0 =? 3) then ret (PArr (transpose c1))
                   else ret (PArr c1)) ;;
      match xy2 with
      | PNone => ret PNone
      | PArr c2 =>
          differs <- and_also (negb (is_none (l_X st)))
                       (x <- as_array (l_X st) "'shape'" ;;
                        nx <- shape_first x ;;
                        nc <- shape_first c2 ;;
                        ret (negb (nx =? nc))) ;;
          xy3 <- (if differs then ret PNone
                  else u <- as_array (l_Usv st) "'shape'" ;;
                       nu <- shape_first u ;;
                       nc <- shape_first c2 ;;
                       if negb (nu =? nc) then ret PNone else ret (PArr c2)) ;;
          if is_none xy3
          then print "cannot use xy from file: x and y positions of neurons are not same size as activity" ;;;
               ret PNone
          else ret xy3
      end
  end.

(** [_load_dict(dat, keys)], lines 9-84. *)
Definition _load_dict (dat : dict) (keys : list string)
  : M (pyval * pyval * pyval * pyval) :=
  st <- for_keys dat keys initial_locals ;;
  st' <- (if is_none (l_X st)
          then st1 <- derive_factors st ;; validate_factors st1 ;;; ret st1
          else ret st) ;;
  xy <- resolve_xy st' ;;
  ret (l_X st', l_Usv st', l_Vsv st', xy).

(** *** Files

    What the readers under the loader hand back.  [np.load] yields a
    numeric array, a 0-d object array wrapping a dictionary, an object
    array of per-unit records (suite2p's [stat.npy]), or an archive of
    named arrays. *)
Definition record : Type := list (string * ndarray E).

Inductive npobj : Type :=
| NpArray (a : ndarray E)
| NpDict (d : dict)
| NpRecords (a : ndarray record)
| NpzFile (members : list (string * ndarray E)).

(** The readers are outside this repository; a [world] fixes what each call
    returns or raises for a given path. *)
Record world : Type := mk_world {
  sio_loadmat : string -> exn + dict;
  mat73_installed : bool;
  mat73_loadmat : string -> exn + dict;
  np_load : string -> bool -> exn + npobj
}.

Definition dict_of_record (r : record) : dict :=
  map (fun kv => (fst kv, PArr (snd kv))) r.

(** The name [X] of [load_activity] holds the mapping returned by the
    reader until a payload is picked out of it. *)
Inductive obj : Type :=
| OVal (v : pyval)
| ODict (d : dict).

(** The local names of [load_activity]; [xy] is assigned only by the
    calls of [_load_dict] (lines 108, 114, 118). *)
Record frame : Type := mk_frame {
  f_X : obj;
  f_Usv : pyval;
  f_Vsv : pyval;
  f_xy : var pyval
}.

Definition frame_of_dict (r : pyval * pyval * pyval * pyval) : frame :=
  match r with
  | (X, Usv, Vsv, xy) => mk_frame (OVal X) Usv Vsv (Bound xy)
  end.

Definition reserved_keys : list string :=
  ["__header__"; "__version__"; "__globals__"].

Definition is_reserved (key : string) : bool :=
  existsb (String.eqb key) reserved_keys.

(** [X[key]], line 96. *)
Definition subscript (X : obj) (key : string) : M obj :=
  match X with
  | ODict d => v <- getitem d key ;; ret (OVal v)
  | OVal (PArr _) =>
      raise IndexError "only integers, slices, ellipsis, newaxis and integer or boolean arrays are valid indices"
  | OVal PNone => raise TypeError "'NoneType' object is not subscriptable"
  end.

(** Lines 94-96: the loop runs over the keys of the mapping that was read,
    and rebinds [X] at each key that is not reserved. *)
Fixpoint pick_payload (keys : list string) (X : obj) : M obj :=
  match keys with
  | [] => ret X
  | key :: rest =>
      X' <- (if negb (is_reserved key) then subscript X key else ret X) ;;
      pick_payload rest X'
  end.

(** Lines 91-108.  Both readers return a dictionary, so the two
    [isinstance(X, dict)] tests hold; [import mat73] binds a local name,
    which stays unbound when the import fails. *)
Definition load_mat (w : world) (filename : string) : M frame :=
  try_except
    (X <- lift (sio_loadmat w filename) ;;
     X' <- pick_payload (keys_of X) (ODict X) ;;
     ret (mk_frame X' PNone PNone Unbound))
    [NotImplementedError]
    ((if mat73_installed w then ret tt else print "please 'pip install mat73'") ;;;
     X <- (if mat73_installed w then lift (mat73_loadmat w filename)
           else raise UnboundLocalError "mat73") ;;
     r <- _load_dict X (filter (fun key => negb (is_reserved key)) (keys_of X)) ;;
     ret (frame_of_dict r)).

(** [X.item()], lines 111-112: the dictionary held by an object array of
    size 1, or the array itself when its single item is a number. *)
Definition item_dict (X : npobj) : M (dict + ndarray E) :=
  match X with
  | NpArray a => _ <- item a ;; ret (inr a)
  | NpDict d => ret (inl d)
  | NpRecords a => r <- item a ;; ret (inl (dict_of_record r))
  | NpzFile _ => raise AttributeError "'NpzFile' object has no attribute 'item'"
  end.

(** Lines 110-114. *)
Definition load_npy (w : world) (filename : string) : M frame :=
  X <- lift (np_load w filename true) ;;
  it <- item_dict X ;;
  match it with
  | inl dat => r <- _load_dict dat (keys_of dat) ;; ret (frame_of_dict r)
  | inr a => ret (mk_frame (OVal (PArr a)) PNone PNone Unbound)
  end.

(** [dat.files], line 117, together with the archive as a mapping. *)
Definition files (dat : npobj) : M (list string * dict) :=
  match dat with
  | NpzFile members => ret (keys_of members, dict_of_record members)
  | _ => raise AttributeError "'numpy.ndarray' object has no attribute 'files'"
  end.

(** Lines 116-118. *)
Definition load_npz (w : world) (filename : string) : M frame :=
  dat <- lift (np_load w filename true) ;;
  '(keys, d) <- files dat ;;
  r <- _load_dict d keys ;;
  ret (frame_of_dict r).

Definition nat_to_string (n : nat) : string :=
  NilEmpty.string_of_uint (Nat.to_uint n).

(** The f-string of line 144 (its closing parenthesis is missing in the
    source too). *)
Definition flatten_notice (d0 d1 d2 : nat) : string :=
  String.append "activity matrix has third dimension of size "
    (String.append (nat_to_string d2)
      (String.append ", flattening matrix to size ("
        (String.append (nat_to_string d0)
          (String.append ", " (nat_to_string (d1 * d2)))))).

Definition flatten_warning : string :=
  "WARNING: 3D array provided (n>3), rastermap requires 2D array, will flatten to 2D".

(** Lines 125-146, for an [X] that is not [None]. *)
Definition check_activity (X : obj) : M pyval :=
  match X with
  | ODict _ => raise AttributeError "'dict' object has no attribute 'ndim'"
  | OVal PNone => raise AttributeError "'NoneType' object has no attribute 'ndim'"
  | OVal (PArr a) =>
      (if ndim a =? 1
       then raise ValueError "ERROR: 1D array provided, but rastermap requires 2D array"
       else if 3 <? ndim a
       then raise ValueError "ERROR: nD array provided (n>3), but rastermap requires 2D array"
       else if ndim a =? 3
       then warn flatten_warning
       else ret tt) ;;;
      n <- shape_first a ;;
      (if n <? 10
       then raise ValueError "ERROR: matrix with fewer than 10 neurons provided"
       else ret tt) ;;;
      if List.length (shape a) =? 3
      then d2 <- shape_last a ;;
           d0 <- shape_first a ;;
           d1 <- shape_second a ;;
           print (flatten_notice d0 d1 d2) ;;;
           r <- reshape_rows a ;;
           ret (PArr r)
      else ret (PArr a)
  end.

Definition obj_is_none (X : obj) : bool :=
  match X with
  | OVal PNone => true
  | _ => false
  end.

(** Lines 122-148: the bare [return] of line 123 yields [None], line 148
    the 4-tuple. *)
Definition validate_and_return (fr : frame)
  : M (option (pyval * pyval * pyval * pyval)) :=
  if obj_is_none (f_X fr) && (is_none (f_Usv fr) || is_none (f_Vsv fr))
  then ret None
  else
    X <- (if negb (obj_is_none (f_X fr)) then check_activity (f_X fr) else ret PNone) ;;
    xy <- read "xy" (f_xy fr) ;;
    ret (Some (X, f_Usv fr, f_Vsv fr, xy)).

(** [load_activity(filename)], lines 86-148. *)
Definition load_activity (w : world) (filename : string)
  : M (option (pyval * pyval * pyval * pyval)) :=
  let ext := snd (OsPath.splitext filename) in
  print (String.append "Loading " filename) ;;;
  fr <- (if String.eqb ext ".mat" then load_mat w filename
         else if String.eqb ext ".npy" then load_npy w filename
         else if String.eqb ext ".npz" then load_npz w filename
         else raise Exception "Invalid file type") ;;
  validate_and_return fr.

(** The files whose content reaches [_load_dict]: an archive, a pickled
    dictionary, or a version 7.3 [.mat] file read by [mat73]. *)
Inductive reads_mapping (w : world) (filename : string) : dict -> list string -> Prop :=
| from_npz (members : record) :
    snd (OsPath.splitext filename) = ".npz" ->
    np_load w filename true = inr (NpzFile members) ->
    reads_mapping w filename (dict_of_record members) (keys_of members)
| from_npy (d : dict) :
    snd (OsPath.splitext filename) = ".npy" ->
    np_load w filename true = inr (NpDict d) ->
    reads_mapping w filename d (keys_of d)
| from_mat73 (d : dict) (e : exn) :
    snd (OsPath.splitext filename) = ".mat" ->
    sio_loadmat w filename = inl e ->
    issubclass (exn_cls e) NotImplementedError = true ->
    mat73_installed w = true ->
    mat73_loadmat w filename = inr d ->
    reads_mapping w filename d (filter (fun key => negb (is_reserved key)) (keys_of d)).

(** *** Sibling lookups *)

Definition handled_errors : list exn_class :=
  [ValueError; OSError; RuntimeError; TypeError; NameError].

(** [iscell[:, j]], lines 155-156.  The archive case follows Python 3.12
    and later, where the index [(slice, j)] is hashable and the lookup
    fails with [KeyError]; before 3.12 hashing the slice fails first, with
    a [TypeError]. *)
Definition column (j : nat) (iscell : npobj) : M npobj :=
  match iscell with
  | NpArray a => c <- take_column j a ;; ret (NpArray c)
  | NpRecords a => c <- take_column j a ;; ret (NpRecords c)
  | NpDict _ => raise IndexError "too many indices for array"
  | NpzFile _ => raise KeyError "is not a file in the archive"
  end.

(** [.astype("bool")]: a number is true unless it is zero, a dictionary
    unless it is empty. *)
Definition astype_bool (o : npobj) : M (ndarray bool) :=
  match o with
  | NpArray a => ret (astype s_truth a)
  | NpRecords a =>
      ret (astype (fun r : record => match r with [] => false | _ => true end) a)
  | NpDict d => ret (mk_ndarray [] [match d with [] => false | _ => true end])
  | NpzFile _ => raise AttributeError "'NpzFile' object has no attribute 'astype'"
  end.

(** [_load_iscell(filename)], lines 150-160. *)
Definition _load_iscell (w : world) (filename : string)
  : M (option (ndarray bool) * option string) :=
  let basename := fst (OsPath.split filename) in
  try_except
    (let file_iscell := OsPath.join basename "iscell.npy" in
     iscell <- lift (np_load w file_iscell false) ;;
     probcell <- column 1 iscell ;;
     c0 <- column 0 iscell ;;
     mask <- astype_bool c0 ;;
     ret (Some mask, Some file_iscell))
    handled_errors
    (ret (None, None)).

(** What [for s in stat] yields. *)
Inductive element : Type :=
| ERecord (r : record)
| EArray
| EName (name : string).

(** Iteration over the loaded object, line 167. *)
Definition iterate (stat : npobj) : M (list element) :=
  match stat with
  | NpArray a =>
      match shape a with
      | [] => raise TypeError "iteration over a 0-d array"
      | n :: _ => ret (repeat EArray n)
      end
  | NpDict _ => raise TypeError "iteration over a 0-d array"
  | NpRecords a =>
      match shape a with
      | [] => raise TypeError "iteration over a 0-d array"
      | [_] => ret (map ERecord (data a))
      | n :: _ => ret (repeat EArray n)
      end
  | NpzFile members => ret (map EName (keys_of members))
  end.

(** [s["med"]], line 167. *)
Definition med (s : element) : M (ndarray E) :=
  match s with
  | ERecord r =>
      match find (fun kv => String.eqb (fst kv) "med") r with
      | Some kv => ret (snd kv)
      | None => raise KeyError "med"
      end
  | EArray =>
      raise IndexError "only integers, slices, ellipsis, newaxis and integer or boolean arrays are valid indices"
  | EName _ => raise TypeError "string indices must be integers"
  end.

(** A list comprehension: the elements are evaluated in order. *)
Fixpoint comprehension {A B : Type} (f : A -> M B) (l : list A) : M (list B) :=
  match l with
  | [] => ret []
  | a :: rest => b <- f a ;; bs <- comprehension f rest ;; ret (b :: bs)
  end.

(** [_load_stat(filename)], lines 162-171. *)
Definition _load_stat (w : world) (filename : string)
  : M (option (ndarray E) * option string) :=
  let basename := fst (OsPath.split filename) in
  try_except
    (let file_stat := OsPath.join basename "stat.npy" in
     stat <- lift (np_load w file_stat true) ;;
     items <- iterate stat ;;
     meds <- comprehension med items ;;
     xy <- array_of_list meds ;;
     ret (Some xy, Some file_stat))
    handled_errors
    (ret (None, None)).

End Loader.

End Io.

Import Io.

(** ** Sample files

    Concrete arrays over [nat] and worlds holding one file each; the
    general statements below are instantiated on them. *)
Module Sample.

#[global] Instance nat_scalar : Scalar nat := {
  s_zero := 0;
  s_add := Nat.add;
  s_mul := Nat.mul;
  s_square := fun x => x * x;
  s_root := Nat.sqrt;
  s_truth := fun x => negb (x =? 0)
}.

(** The array of the given shape holding 1, 2, 3, ... *)
Definition matrix (sh : list nat) : ndarray nat := mk_ndarray sh (seq 1 (prod sh)).

Definition no_such_file {A : Type} : exn + A :=
  inl (Raise FileNotFoundError "No such file or directory").

(** No file can be read. *)
Definition empty_world : @world nat :=
  mk_world (fun _ => no_such_file) false (fun _ => no_such_file)
           (fun _ _ => no_such_file).

(** [np.load] finds an archive with the given members. *)
Definition npz_world (members : @record nat) : @world nat :=
  mk_world (fun _ => no_such_file) false (fun _ => no_such_file)
           (fun _ _ => inr (NpzFile members)).

(** [np.load] finds the given array. *)
Definition npy_world (a : ndarray nat) : @world nat :=
  mk_world (fun _ => no_such_file) false (fun _ => no_such_file)
           (fun _ _ => inr (NpArray a)).

(** [np.load] finds a pickled dictionary. *)
Definition pickle_world (d : @dict nat) : @world nat :=
  mk_world (fun _ => no_such_file) false (fun _ => no_such_file)
           (fun _ _ => inr (NpDict d)).

(** [np.load] finds suite2p's per-unit records. *)
Definition stat_world (stat : ndarray (@record nat)) : @world nat :=
  mk_world (fun _ => no_such_file) false (fun _ => no_such_file)
           (fun _ _ => inr (NpRecords stat)).

(** [scipy.io.loadmat] meets a version 7.3 file; [mat73] is not installed. *)
Definition mat73_missing_world : @world nat :=
  mk_world (fun _ => inl (Raise NotImplementedError "Please use HDF reader for matlab v7.3 files"))
           false (fun _ => no_such_file) (fun _ _ => no_such_file).

(** [scipy.io.loadmat] meets a version 7.3 file, which [mat73] reads. *)
Definition mat73_world (d : @dict nat) : @world nat :=
  mk_world (fun _ => inl (Raise NotImplementedError "Please use HDF reader for matlab v7.3 files"))
           true (fun _ => inr d) (fun _ _ => no_such_file).

(** [scipy.io.loadmat] finds the given variables. *)
Definition mat_world (vars : @record nat) : @world nat :=
  mk_world (fun _ => inr (("__header__", PNone) :: ("__version__", PNone)
                          :: ("__globals__", PNone) :: dict_of_record vars))
           false (fun _ => no_such_file) (fun _ _ => no_such_file).

(** [np.load] finds an array at every path but the two given ones. *)
Definition elsewhere_world (missing1 missing2 : string) : @world nat :=
  mk_world (fun _ => no_such_file) false (fun _ => no_such_file)
           (fun path _ => if String.eqb path missing1 || String.eqb path missing2
                          then no_such_file
                          else inr (NpArray (matrix [3; 2]))).

End Sample.

(** ** What the key loop leaves in each name

    A proof device: the names of [_load_dict] that the loop assigns, the
    keys that feed each of them, and the value the last such key stores. *)
Inductive slot : Set :=
| SlotUsv | SlotVsv | SlotU | SlotV | SlotSv | SlotX | SlotXpos | SlotYpos | SlotXy.

Definition slot_names (s : slot) : list string :=
  match s with
  | SlotUsv => ["Usv"]
  | SlotVsv => ["Vsv"]
  | SlotU => ["U"; "U0"]
  | SlotV => ["V"; "V0"]
  | SlotSv => ["Sv"; "sv"]
  | SlotX => ["X"; "spks"]
  | SlotXpos => ["xpos"]
  | SlotYpos => ["ypos"]
  | SlotXy => ["xy"; "xyz"]
  end.

Definition slot_value {E : Type} (s : slot) (st : @locals E) : var (@pyval E) :=
  match s with
  | SlotUsv => Bound (l_Usv st)
  | SlotVsv => Bound (l_Vsv st)
  | SlotU => l_U st
  | SlotV => l_V st
  | SlotSv => l_Sv st
  | SlotX => Bound (l_X st)
  | SlotXpos => Bound (l_xpos st)
  | SlotYpos => Bound (l_ypos st)
  | SlotXy => Bound (l_xy st)
  end.

Fixpoint last_assigned {E : Type} (dat : @dict E) (names keys : list string)
  (init : var (@pyval E)) : var (@pyval E) :=
  match keys with
  | [] => init
  | key :: rest =>
      last_assigned dat names rest
        (if existsb (String.eqb key) names
         then match snd (getitem dat key) with
              | inr v => Bound v
              | inl _ => init
              end
         else init)
  end.

(** The first line [load_activity] prints. *)
Definition loading (filename : string) : event :=
  Stdout (String.append "Loading " filename).

(** numpy's message for an array indexed with a string. *)
Definition not_subscriptable : string :=
  "only integers, slices, ellipsis, newaxis and integer or boolean arrays are valid indices".

(** The two notices of lines 72 and 82. *)
Definition xy_rank_notice : string :=
  "cannot use xy from file: x and y positions of neurons must be 2-dimensional".

Definition xy_size_notice : string :=
  "cannot use xy from file: x and y positions of neurons are not same size as activity".

(** Lines 74-75 on 2-D coordinates: two or three rows are read as one
    column per unit. *)
Definition orient {E : Type} (c : ndarray E) : ndarray E :=
  match shape c with
  | r :: _ => if (r =? 2) || (r =? 3) then transpose c else c
  | [] => c
  end.

(** Lines 76-82 on coordinates [c] that are 2-D and oriented. *)
Definition rows_agree {E : Type} (st : @locals E) (c : ndarray E) : M (@pyval E) :=
  differs <- and_also (negb (is_none (l_X st)))
               (x <- as_array (l_X st) "'shape'" ;;
                nx <- shape_first x ;;
                nc <- shape_first c ;;
                ret (negb (nx =? nc))) ;;
  xy3 <- (if differs then ret PNone
          else u <- as_array (l_Usv st) "'shape'" ;;
               nu <- shape_first u ;;
               nc <- shape_first c ;;
               if negb (nu =? nc) then ret PNone else ret (PArr c)) ;;
  if is_none xy3 then print xy_size_notice ;;; ret PNone else ret xy3.

(** Every row of a row-major [(N, k)] array multiplied, entry by entry,
    with a vector of length [k]. *)
Definition scale_columns {E : Type} `{Scalar E} (N k : nat) (d s : list E) : list E :=
  List.concat (map (fun row => zip_with s_mul row s) (chunks N k d)).

(** The keys the loop of lines 12-42 knows. *)
Definition recognised (key : string) : bool :=
  existsb (String.eqb key)
    ["Usv"; "Vsv"; "U"; "U0"; "V"; "V0"; "Sv"; "sv"; "X"; "spks";
     "xpos"; "ypos"; "xy"; "xyz"].

(** A state of [_load_dict] with another list of unrecognised keys. *)
Definition with_other_keys {E : Type} (st : @locals E) (o : list string) : @locals E :=
  mk_locals (l_X st) (l_Usv st) (l_Vsv st) (l_U st) (l_V st) (l_Sv st)
            (l_xpos st) (l_ypos st) (l_xy st) o.

(** The same computation, its final state carrying the list [o]. *)
Definition rebase {E : Type} (m : M (@locals E)) (o : list string) : M (@locals E) :=
  match m with
  | (l, inl e) => (l, inl e)
  | (l, inr s) => (l, inr (with_other_keys s o))
  end.

(** Lines 44-84: what [_load_dict] does once the key loop has ended. *)
Definition after_keys {E : Type} `{Scalar E} (st : @locals E)
  : M (@pyval E * @pyval E * @pyval E * @pyval E) :=
  st' <- (if is_none (l_X st)
          then st1 <- derive_factors st ;; validate_factors st1 ;;; ret st1
          else ret st) ;;
  xy <- resolve_xy st' ;;
  ret (l_X st', l_Usv st', l_Vsv st', xy).

(** A computation that prints nothing. *)
Definition silent {A : Type} (m : M A) : Prop := fst m = [].

(** ** Laws of the evaluation monad *)
Section MonadFacts.
Context {A B : Type}.

Lemma bind_ret (a : A) (k : A -> M B) : Py.bind (ret a) k = k a.
Proof. unfold Py.bind, ret. destruct (k a). reflexivity. Qed.

Lemma bind_inr (m : M A) (k : A -> M B) (l : list event) (b : B) :
  Py.bind m k = (l, inr b) ->
  exists l1 a l2, m = (l1, inr a) /\ k a = (l2, inr b) /\ l = l1 ++ l2.
Proof.
  unfold Py.bind. destruct m as [l1 [e | a]]; [discriminate |].
  destruct (k a) as [l2 r] eqn:Hk. intros Heq. inversion Heq; subst.
  exists l1, a, l2. auto.
Qed.

Lemma bind_map (m : M A) (f : A -> B) {C : Type} (k : B -> M C) :
  Py.bind (Py.bind m (fun a => ret (f a))) k = Py.bind m (fun a => k (f a)).
Proof.
  unfold Py.bind, ret. destruct m as [l [e | a]]; [reflexivity |].
  destruct (k (f a)). now rewrite app_nil_r.
Qed.

Lemma lift_value (a : A) : lift (inr a) = ret a.
Proof. reflexivity. Qed.

Lemma bind_error (e : exn) (k : A -> M B) :
  Py.bind (lift (inl e)) k = lift (inl e).
Proof. reflexivity. Qed.

Lemma try_except_value (m : M A) handled (h : M A) l a :
  m = (l, inr a) -> try_except m handled h = (l, inr a).
Proof. now intros ->. Qed.

Lemma try_except_handled (m : M A) handled (h : M A) l e :
  m = (l, inl e) -> except_matches handled e = true ->
  try_except m handled h = (l ++ fst h, snd h).
Proof. intros -> Hm. unfold try_except. rewrite Hm. now destruct h. Qed.

Lemma try_except_propagates (m : M A) handled (h : M A) l e :
  m = (l, inl e) -> except_matches handled e = false ->
  try_except m handled h = (l, inl e).
Proof. intros -> Hm. unfold try_except. now rewrite Hm. Qed.

Lemma try_except_escapes (m : M A) handled (a : A) l e :
  try_except m handled (ret a) = (l, inl e) -> except_matches handled e = false.
Proof.
  unfold try_except. destruct m as [l1 [e1 | a1]]; [| discriminate].
  destruct (except_matches handled e1) eqn:Hm; [discriminate |].
  intros Heq. now inversion Heq; subst.
Qed.

Lemma bind_snd_value (m : M A) (k : A -> M B) (b : B) :
  snd (Py.bind m k) = inr b -> exists l a, m = (l, inr a) /\ snd (k a) = inr b.
Proof.
  unfold Py.bind. destruct m as [l [e | a]]; [discriminate |].
  destruct (k a) as [l2 r] eqn:Hk. simpl. intros ->. exists l, a.
  rewrite Hk. auto.
Qed.

Lemma bind_raised_l (m : M A) (k : A -> M B) : raised m -> raised (Py.bind m k).
Proof.
  intros [e He]. destruct m as [l [e' | a]]; simpl in He; [| discriminate].
  exists e'. reflexivity.
Qed.

Lemma bind_raised_r (m : M A) (k : A -> M B) (l : list event) (a : A) :
  m = (l, inr a) -> raised (k a) -> raised (Py.bind m k).
Proof.
  intros -> [e He]. exists e. unfold Py.bind.
  destruct (k a) as [l2 r]. exact He.
Qed.

End MonadFacts.

Lemma bind_raise {A B : Type} (c : exn_class) (msg : string) (k : A -> M B) :
  Py.bind (raise c msg) k = raise c msg.
Proof. reflexivity. Qed.

Section KeyLoop.
Context {E : Type} `{Scalar E}.
Implicit Types (dat : @dict E) (st : @locals E) (keys : list string).

Lemma getitem_cases dat key :
  (exists v, getitem dat key = ret v) \/ getitem dat key = raise KeyError key.
Proof.
  induction dat as [| [k v] rest IH]; simpl; [now right |].
  destruct (String.eqb k key); [left; now exists v | exact IH].
Qed.

Ltac split_key key :=
  repeat match goal with
  | |- context [String.eqb ?k ?lit] =>
      constr_eq k key; destruct (String.eqb_spec k lit); [subst k |]
  end.

Lemma assign_key_slot dat st key l st1 (s : slot) :
  assign_key dat st key = (l, inr st1) ->
  l = [] /\
  slot_value s st1 =
    if existsb (String.eqb key) (slot_names s)
    then match snd (getitem dat key) with
         | inr v => Bound v
         | inl _ => slot_value s st
         end
    else slot_value s st.
Proof.
  unfold assign_key. split_key key;
    try (match goal with
         | |- context [getitem dat ?k] =>
             destruct (getitem_cases dat k) as [[v Hv] | Hv]; rewrite Hv
         end;
         [rewrite bind_ret | simpl; discriminate]);
    intros Heq; inversion Heq; subst; (split; [reflexivity |]);
    destruct s; simpl; try reflexivity.
  all: repeat match goal with
       | Hne : ?k <> ?lit |- context [String.eqb ?k ?lit] =>
           rewrite (proj2 (String.eqb_neq k lit) Hne)
       end; reflexivity.
Qed.

Lemma for_keys_slot dat keys : forall st l st' (s : slot),
  for_keys dat keys st = (l, inr st') ->
  l = [] /\
  slot_value s st' = last_assigned dat (slot_names s) keys (slot_value s st).
Proof.
  induction keys as [| key rest IH]; intros st l st' s Hrun; simpl in *.
  - inversion Hrun; subst. auto.
  - apply bind_inr in Hrun as (l1 & st1 & l2 & H1 & H2 & ->).
    destruct (assign_key_slot _ _ _ _ _ s H1) as [-> Hs1].
    destruct (IH _ _ _ s H2) as [-> Hs2].
    split; [reflexivity |]. rewrite Hs2, Hs1.
    destruct (existsb (String.eqb key) (slot_names s)); [| reflexivity].
    destruct (snd (getitem dat key)); reflexivity.
Qed.


Lemma existsb_eqb_In (key : string) (names : list string) :
  existsb (String.eqb key) names = true <-> In key names.
Proof.
  rewrite existsb_exists. split.
  - intros (n & Hin & Heq). apply String.eqb_eq in Heq. now subst.
  - intros Hin. exists key. split; [exact Hin | apply String.eqb_refl].
Qed.

Lemma last_assigned_absent dat names keys init :
  (forall n, In n names -> ~ In n keys) ->
  last_assigned dat names keys init = init.
Proof.
  revert init. induction keys as [| key rest IH]; intros init Habs; simpl.
  - reflexivity.
  - destruct (existsb (String.eqb key) names) eqn:Hex.
    + apply existsb_eqb_In in Hex. exfalso. apply (Habs key Hex). now left.
    + apply IH. intros n Hn Hin. apply (Habs n Hn). now right.
Qed.

(** When [n] is the only name of the slot among the keys, the slot ends up
    holding [dat[n]]. *)
Lemma last_assigned_only dat names keys init n v :
  In n names -> In n keys ->
  (forall m, In m names -> m <> n -> ~ In m keys) ->
  getitem dat n = ret v ->
  last_assigned dat names keys init = Bound v.
Proof.
  intros Hn Hin Hothers Hget. revert init Hin Hothers.
  induction keys as [| key rest IH]; intros init Hin Hothers; [contradiction |].
  simpl. destruct (in_dec string_dec n rest) as [Hrest | Hrest].
  - apply IH; [exact Hrest |].
    intros m Hm Hne Hmr. apply (Hothers m Hm Hne). now right.
  - destruct Hin as [-> | Hin]; [| contradiction].
    rewrite (proj2 (existsb_eqb_In n names) Hn), Hget. simpl.
    apply last_assigned_absent. intros m Hm Hmr.
    destruct (string_dec m n) as [-> | Hne]; [contradiction |].
    apply (Hothers m Hm Hne). now right.
Qed.

Lemma assign_key_succeeds dat st key :
  (exists v, getitem dat key = ret v) ->
  exists st1, assign_key dat st key = ret st1.
Proof.
  intros [v Hv]. unfold assign_key. split_key key;
    try rewrite Hv; try rewrite bind_ret; eexists; reflexivity.
Qed.

(** The loop runs to its end when every key is in the mapping. *)
Lemma for_keys_succeeds dat keys : forall st,
  (forall k, In k keys -> exists v, getitem dat k = ret v) ->
  exists st', for_keys dat keys st = ret st'.
Proof.
  induction keys as [| key rest IH]; intros st Hall; simpl.
  - now exists st.
  - destruct (assign_key_succeeds dat st key (Hall key (or_introl eq_refl)))
      as [st1 H1].
    rewrite H1, bind_ret. apply IH. intros k Hk. apply Hall. now right.
Qed.

Lemma getitem_keys_of dat key :
  In key (keys_of dat) -> exists v, getitem dat key = ret v.
Proof.
  induction dat as [| [k v] rest IH]; simpl; [contradiction |].
  intros Hin. destruct (String.eqb_spec k key) as [-> | Hne].
  - now exists v.
  - destruct Hin as [Heq | Hin]; [contradiction | now apply IH].
Qed.

Lemma keys_of_dict_of_record (members : @record E) :
  keys_of (dict_of_record members) = keys_of members.
Proof.
  unfold keys_of, dict_of_record. rewrite map_map. reflexivity.
Qed.

(** A name none of whose keys occurs keeps its initial state. *)
Lemma slot_absent dat keys st (s : slot) :
  for_keys dat keys initial_locals = ret st ->
  (forall n, In n (slot_names s) -> ~ In n keys) ->
  slot_value s st = slot_value s initial_locals.
Proof.
  intros Hrun Habs. destruct (for_keys_slot _ _ _ _ _ s Hrun) as [_ ->].
  now apply last_assigned_absent.
Qed.

(** A name fed by exactly one of its keys holds the value under that key. *)
Lemma slot_only dat keys st (s : slot) n v :
  for_keys dat keys initial_locals = ret st ->
  In n (slot_names s) -> In n keys ->
  (forall m, In m (slot_names s) -> m <> n -> ~ In m keys) ->
  getitem dat n = ret v ->
  slot_value s st = Bound v.
Proof.
  intros Hrun Hn Hin Hothers Hget.
  destruct (for_keys_slot _ _ _ _ _ s Hrun) as [_ ->].
  now apply last_assigned_only with (n := n).
Qed.

End KeyLoop.

Section Dispatch.
Context {E : Type} `{Scalar E}.
Implicit Types (w : @world E) (filename : string).

(** [X] is left alone by the payload loop when every key is reserved. *)
Lemma pick_payload_reserved keys (X : @obj E) :
  filter (fun key => negb (is_reserved key)) keys = [] ->
  pick_payload keys X = ret X.
Proof.
  induction keys as [| key rest IH]; simpl; [reflexivity |].
  destruct (is_reserved key); simpl; [| discriminate].
  intros Hf. rewrite bind_ret. now apply IH.
Qed.

(** With one key that is not reserved, [X] becomes the value under it. *)
Lemma pick_payload_single keys (d : @dict E) name v :
  filter (fun key => negb (is_reserved key)) keys = [name] ->
  getitem d name = ret v ->
  pick_payload keys (ODict d) = ret (OVal v).
Proof.
  intros Hf Hget. induction keys as [| key rest IH]; simpl in *; [discriminate |].
  destruct (is_reserved key); simpl in *.
  - rewrite bind_ret. now apply IH.
  - inversion Hf; subst. rewrite Hget, !bind_ret.
    now apply pick_payload_reserved.
Qed.

(** The post-validation lets a 2-D array with ten rows or more through as
    it is, and silently. *)
Lemma check_activity_2d (a : ndarray E) N T :
  shape a = [N; T] -> 10 <= N ->
  check_activity (OVal (PArr a)) = ret (PArr a).
Proof.
  intros Hs HN. unfold check_activity, ndim, shape_first. rewrite Hs. simpl.
  rewrite !bind_ret.
  destruct (Nat.ltb_spec N 10); [lia |]. now rewrite bind_ret.
Qed.

(** A 3-D array with ten rows or more is announced and flattened. *)
Lemma check_activity_3d (a : ndarray E) N T C :
  shape a = [N; T; C] -> 10 <= N ->
  check_activity (OVal (PArr a)) =
    ([Warning flatten_warning; Stdout (flatten_notice N T C)],
     inr (PArr (mk_ndarray [N; T * C] (data a)))).
Proof.
  intros Hs HN. unfold check_activity, ndim, shape_first, shape_last, shape_second,
    reshape_rows, size.
  assert (Hrows : (N <? 10) = false) by (apply Nat.ltb_ge; lia).
  assert (Hpos : (N =? 0) = false) by (apply Nat.eqb_neq; lia).
  rewrite Hs. cbn [List.length Nat.eqb rev app prod fold_right].
  change (3 <? 3) with false. cbv iota.
  replace (N * (T * (C * 1))) with ((T * C) * N) by lia.
  rewrite Nat.Div0.mod_mul, Nat.div_mul by lia.
  rewrite !bind_ret, Hrows, Hpos. reflexivity.
Qed.

(** The rejections of lines 125-140. *)
Lemma check_activity_rejects (a : ndarray E) :
  (ndim a = 1 ->
   check_activity (OVal (PArr a)) =
     raise ValueError "ERROR: 1D array provided, but rastermap requires 2D array") /\
  (3 < ndim a ->
   check_activity (OVal (PArr a)) =
     raise ValueError "ERROR: nD array provided (n>3), but rastermap requires 2D array") /\
  (forall N T, shape a = [N; T] -> N < 10 ->
   check_activity (OVal (PArr a)) =
     raise ValueError "ERROR: matrix with fewer than 10 neurons provided") /\
  (forall N T C, shape a = [N; T; C] -> N < 10 ->
   check_activity (OVal (PArr a)) =
     ([Warning flatten_warning],
      inl (Raise ValueError "ERROR: matrix with fewer than 10 neurons provided"))).
Proof.
  unfold check_activity. repeat split.
  - intros ->. reflexivity.
  - intros Hn. destruct (Nat.eqb_spec (ndim a) 1); [lia |].
    apply Nat.ltb_lt in Hn. now rewrite Hn.
  - intros N T Hs HN. unfold ndim, shape_first. rewrite Hs.
    cbn [List.length Nat.eqb]. change (3 <? 2) with false. cbv iota.
    apply Nat.ltb_lt in HN. rewrite !bind_ret, HN. reflexivity.
  - intros N T C Hs HN. unfold ndim, shape_first. rewrite Hs.
    cbn [List.length Nat.eqb]. change (3 <? 3) with false. cbv iota.
    apply Nat.ltb_lt in HN. rewrite bind_ret, HN. reflexivity.
Qed.

(** The comprehension of line 167 over records that all have a [med]. *)
Lemma comprehension_med (rs : list (@record E)) (meds : list (ndarray E)) :
  Forall2 (fun r m => med (ERecord r) = ret m) rs meds ->
  comprehension med (map ERecord rs) = ret meds.
Proof.
  induction 1 as [| r m rs' meds' Hm _ IH]; cbn [map comprehension]; [reflexivity |].
  now rewrite Hm, bind_ret, IH, !bind_ret.
Qed.

(** [np.array] of arrays of one shape stacks them along a new first axis. *)
Lemma array_of_list_uniform {A : Type} (items : list (ndarray A)) (sh : list nat) :
  items <> [] ->
  (forall m, In m items -> shape m = sh) ->
  array_of_list items =
    ret (mk_ndarray (List.length items :: sh) (List.concat (map data items))).
Proof.
  destruct items as [| a rest]; [congruence |]. intros _ Hsh.
  unfold array_of_list.
  assert (Hall : forallb (fun b => shape_eqb (shape b) (shape a)) rest = true).
  { apply forallb_forall. intros b Hb.
    rewrite (Hsh b (or_intror Hb)), (Hsh a (or_introl eq_refl)).
    clear. induction sh as [| n r IH]; simpl; [reflexivity |].
    now rewrite Nat.eqb_refl. }
  rewrite Hall, (Hsh a (or_introl eq_refl)). reflexivity.
Qed.

Lemma item_not_single {A : Type} (a : ndarray A) N T :
  shape a = [N; T] -> 10 <= N -> well_formed a ->
  item a = raise ValueError "can only convert an array of size 1 to a Python scalar".
Proof.
  unfold well_formed, size, item. intros -> HN Hwf.
  destruct (data a) as [| x [| y rest]]; try reflexivity.
  exfalso. cbn [prod fold_right List.length] in Hwf.
  rewrite Nat.mul_1_r in Hwf. symmetry in Hwf.
  apply Nat.eq_mul_1 in Hwf. lia.
Qed.

End Dispatch.

Section Mapping.
Context {E : Type} `{Scalar E}.
Implicit Types (w : @world E) (filename : string) (dat : @dict E).

Lemma load_activity_mapping w filename dat keys :
  reads_mapping w filename dat keys ->
  load_activity w filename =
    (print (String.append "Loading " filename) ;;;
     r <- _load_dict dat keys ;;
     validate_and_return (frame_of_dict r)).
Proof.
  intros Hr. unfold load_activity.
  destruct Hr as [members Hext Hload | d Hext Hload | d e Hext Hsio Hsub Hinst Hload];
    rewrite Hext; cbn [String.eqb Ascii.eqb Bool.eqb].
  - unfold load_npz. rewrite Hload, lift_value, bind_ret. unfold files.
    rewrite bind_ret, bind_map. reflexivity.
  - unfold load_npy. rewrite Hload, lift_value, bind_ret. unfold item_dict.
    rewrite bind_ret, bind_map. reflexivity.
  - unfold load_mat. rewrite Hsio, Hinst, Hload, lift_value, bind_error.
    erewrite try_except_handled;
      [| reflexivity | unfold except_matches; cbn [existsb exn_cls]; now rewrite Hsub].
    rewrite !bind_ret. cbn [app].
    destruct (Py.bind (_load_dict d _) _) as [l r] eqn:Hb.
    cbn [fst snd]. rewrite <- Hb, bind_map. reflexivity.
Qed.

Lemma reads_mapping_keys w filename dat keys :
  reads_mapping w filename dat keys ->
  forall k, In k keys -> exists v, getitem dat k = ret v.
Proof.
  intros Hr k Hk. apply getitem_keys_of.
  destruct Hr as [members _ _ | d _ _ | d e _ _ _ _ _].
  - now rewrite keys_of_dict_of_record.
  - exact Hk.
  - apply filter_In in Hk. tauto.
Qed.

End Mapping.

(** ** Silent computations: the parts of the loader that print nothing *)

Section Silence.
Context {E : Type} `{Scalar E}.

Lemma silent_ret {A : Type} (a : A) : silent (ret a).
Proof. reflexivity. Qed.

Lemma silent_raise {A : Type} c msg : silent (@raise A c msg).
Proof. reflexivity. Qed.

Lemma silent_bind {A B : Type} (m : M A) (k : A -> M B) :
  silent m -> (forall a, silent (k a)) -> silent (Py.bind m k).
Proof.
  unfold silent, Py.bind. destruct m as [l [e | a]]; simpl; intros ->; [reflexivity |].
  intros Hk. specialize (Hk a). destruct (k a). exact Hk.
Qed.

Lemma silent_read {A : Type} name (v : var A) : silent (read name v).
Proof. destruct v; reflexivity. Qed.

Lemma silent_and_also a b : silent b -> silent (and_also a b).
Proof. destruct a; [auto | reflexivity]. Qed.

Lemma silent_value {A : Type} (m : M A) l r : silent m -> m = (l, r) -> l = [].
Proof. unfold silent. now intros Hs ->. Qed.

Lemma silent_multiply (a b : ndarray E) : silent (multiply a b).
Proof.
  unfold multiply. destruct (broadcast_shape _ _); [| reflexivity].
  destruct (broadcast_mul _ _ _ _); reflexivity.
Qed.

Lemma silent_sum_axis0 (a : ndarray E) : silent (sum_axis0 a).
Proof. unfold sum_axis0. destruct (shape a); reflexivity. Qed.

Lemma silent_column_norms (v : @pyval E) : silent (column_norms v).
Proof.
  destruct v; [reflexivity |]. apply silent_bind; [apply silent_sum_axis0 |].
  intros; apply silent_ret.
Qed.

Lemma silent_times (u s : @pyval E) : silent (times u s).
Proof.
  destruct u, s; try reflexivity. apply silent_bind; [apply silent_multiply |].
  intros; apply silent_ret.
Qed.

Ltac silence :=
  repeat first
    [ apply silent_ret | apply silent_raise | apply silent_read
    | apply silent_column_norms | apply silent_times
    | apply silent_and_also
    | apply silent_bind; [| intros ?]
    | match goal with
      | |- silent (if ?c then _ else _) => destruct c
      end ].

(** Lines 45-58 print nothing. *)
Lemma silent_derive_factors (st : @locals E) : silent (derive_factors st).
Proof. unfold derive_factors. silence. Qed.

End Silence.

Section Factors.
Context {E : Type} `{Scalar E}.
Implicit Types (st : @locals E) (dat : @dict E).

(** What the three checks of lines 60-65 let through. *)
Lemma validate_factors_value st l :
  validate_factors st = (l, inr tt) ->
  exists u v k, l_Usv st = PArr u /\ l_Vsv st = PArr v /\
    shape_last u = ret k /\ shape_last v = ret k /\
    ndim u <= 3 /\ ndim v = 2.
Proof.
  unfold validate_factors.
  destruct (l_Usv st) as [| u]; [discriminate |].
  destruct (l_Vsv st) as [| v]; cbn [as_array]; rewrite bind_ret.
  - unfold shape_last. destruct (rev (shape u)); [discriminate |].
    rewrite bind_ret. discriminate.
  - unfold shape_last.
    destruct (rev (shape u)) as [| ku ru] eqn:Hru; [discriminate |].
    rewrite !bind_ret.
    destruct (rev (shape v)) as [| kv rv] eqn:Hrv; [discriminate |].
    rewrite bind_ret.
    destruct (Nat.eqb_spec ku kv) as [-> | Hne]; cbn [negb]; [| discriminate].
    destruct (Nat.ltb_spec 3 (ndim u)); [discriminate |].
    destruct (Nat.eqb_spec (ndim v) 2); cbn [negb]; [| discriminate].
    intros _. exists u, v, kv. rewrite Hru, Hrv. auto 10.
Qed.

(** Lines 60-65 raise as soon as one factor is missing. *)
Lemma validate_factors_incomplete st :
  l_Usv st = PNone \/ l_Vsv st = PNone -> raised (validate_factors st).
Proof.
  intros Hmiss. destruct (validate_factors st) as [l [e | []]] eqn:Hv.
  - now exists e.
  - apply validate_factors_value in Hv as (u & v & k & Hu & Hv & _).
    destruct Hmiss; congruence.
Qed.

(** A value returned by [_load_dict] without [X] carries both factors. *)
Lemma _load_dict_without_X dat keys l X Usv Vsv xy :
  _load_dict dat keys = (l, inr (X, Usv, Vsv, xy)) ->
  X = PNone ->
  exists u v, Usv = PArr u /\ Vsv = PArr v.
Proof.
  unfold _load_dict. intros Hrun HX.
  apply bind_inr in Hrun as (l1 & st & l2 & _ & Hrun & _).
  apply bind_inr in Hrun as (l3 & st' & l4 & Hfac & Hrun & _).
  apply bind_inr in Hrun as (l5 & xy' & l6 & _ & Hret & _).
  unfold ret in Hret.
  assert (HX' : l_X st' = PNone) by congruence.
  assert (HU : l_Usv st' = Usv) by congruence.
  assert (HV : l_Vsv st' = Vsv) by congruence.
  clear Hret. subst Usv Vsv.
  destruct (is_none (l_X st)) eqn:Hnone.
  - apply bind_inr in Hfac as (l7 & st1 & l8 & _ & Hfac & _).
    apply bind_inr in Hfac as (l9 & [] & l10 & Hval & Hret & _).
    unfold ret in Hret. assert (st1 = st') by congruence. subst st1.
    apply validate_factors_value in Hval as (u & v & k & Hu & Hv & _).
    exists u, v. auto.
  - unfold ret in Hfac. assert (st = st') by congruence. subst st'.
    rewrite HX' in Hnone. discriminate.
Qed.

(** Without [X], an incomplete pair after the derivation is an error. *)
Lemma _load_dict_incomplete_pair dat keys st :
  for_keys dat keys initial_locals = ret st ->
  l_X st = PNone ->
  (forall l st1, derive_factors st = (l, inr st1) ->
                 l_Usv st1 = PNone \/ l_Vsv st1 = PNone) ->
  raised (_load_dict dat keys).
Proof.
  intros Hloop HX Hpair. unfold _load_dict. rewrite Hloop, bind_ret, HX.
  cbn [is_none]. apply bind_raised_l.
  destruct (derive_factors st) as [l [e | st1]] eqn:Hderive.
  - apply bind_raised_l. now exists e.
  - eapply bind_raised_r; [reflexivity |].
    apply bind_raised_l, validate_factors_incomplete. eauto.
Qed.

(** While [Sv] is unbound, lines 45-58 either raise or change nothing. *)
Lemma derive_factors_without_Sv st l st1 :
  l_Sv st = Unbound ->
  derive_factors st = (l, inr st1) -> st1 = st.
Proof.
  intros HSv. unfold derive_factors. rewrite HSv.
  destruct (l_Usv st) as [| u] eqn:HUsv, (l_U st) as [| [| a]] eqn:HU,
           (l_Vsv st) as [| v] eqn:HVsv, (l_V st) as [| [| b]] eqn:HV;
    repeat first
      [ progress cbn [is_none and_also negb read]
      | progress rewrite ?bind_ret, ?bind_raise
      | progress rewrite ?HUsv, ?HU, ?HVsv, ?HV, ?HSv ];
    intros Heq; try discriminate Heq; unfold ret in Heq; congruence.
Qed.

End Factors.

Lemma shape_eqb_refl (s : list nat) : shape_eqb s s = true.
Proof. induction s as [| n r IH]; simpl; [reflexivity |]. now rewrite Nat.eqb_refl. Qed.

Section Coordinates.
Context {E : Type} `{Scalar E}.
Implicit Types (st : @locals E) (dat : @dict E).

Lemma shape_first_value {A : Type} (a : ndarray A) l n :
  shape_first a = (l, inr n) -> exists r, shape a = n :: r.
Proof.
  unfold shape_first. destruct (shape a) as [| m r]; [discriminate |].
  unfold ret. intros Heq. exists r. congruence.
Qed.

(** Coordinates that survive lines 76-82 have as many rows as [Usv], and
    as [X] when there is one. *)
Lemma resolve_xy_value st l (c : ndarray E) :
  resolve_xy st = (l, inr (PArr c)) ->
  (exists u n ru rc, l_Usv st = PArr u /\ shape u = n :: ru /\ shape c = n :: rc) /\
  (forall x, l_X st = PArr x ->
     exists n rx rc, shape x = n :: rx /\ shape c = n :: rc).
Proof.
  unfold resolve_xy. intros Hrun.
  apply bind_inr in Hrun as (l1 & xy1 & l2 & _ & Hrun & _).
  destruct xy1 as [| c1]; [discriminate |].
  apply bind_inr in Hrun as (l3 & xy2 & l4 & _ & Hrun & _).
  destruct xy2 as [| c2]; [discriminate |].
  apply bind_inr in Hrun as (l5 & differs & l6 & Hd & Hrun & _).
  apply bind_inr in Hrun as (l7 & xy3 & l8 & H3 & Hrun & _).
  destruct xy3 as [| c3]; cbn [is_none] in Hrun; [discriminate |].
  unfold ret in Hrun. assert (c3 = c) by congruence. subst c3. clear Hrun.
  destruct differs; [discriminate |].
  apply bind_inr in H3 as (l9 & u & l10 & Hu & H3 & _).
  apply bind_inr in H3 as (l11 & nu & l12 & Hnu & H3 & _).
  apply bind_inr in H3 as (l13 & nc & l14 & Hnc & H3 & _).
  destruct (Nat.eqb_spec nu nc) as [-> | Hne]; cbn [negb] in H3; [| discriminate].
  unfold ret in H3. assert (c2 = c) by congruence. subst c2. clear H3.
  apply shape_first_value in Hnu as [ru Hru].
  apply shape_first_value in Hnc as [rc Hrc].
  split.
  - destruct (l_Usv st) as [| u']; [discriminate |].
    cbn [as_array] in Hu. unfold ret in Hu. assert (u' = u) by congruence. subst u'.
    exists u, nc, ru, rc. auto.
  - intros x HX. rewrite HX in Hd. cbn [is_none negb and_also as_array] in Hd.
    rewrite bind_ret in Hd.
    apply bind_inr in Hd as (l15 & nx & l16 & Hnx & Hd & _).
    apply bind_inr in Hd as (l17 & nc' & l18 & Hnc' & Hd & _).
    apply shape_first_value in Hnx as [rx Hrx].
    apply shape_first_value in Hnc' as [rc' Hrc'].
    unfold ret in Hd.
    destruct (Nat.eqb_spec nx nc') as [-> | Hne]; [| discriminate].
    exists nc', rx, rc'. auto.
Qed.

(** The same, for the tuple [_load_dict] returns. *)
Lemma retained_coordinates_match dat keys l X Usv Vsv (c : ndarray E) :
  _load_dict dat keys = (l, inr (X, Usv, Vsv, PArr c)) ->
  (exists u n ru rc, Usv = PArr u /\ shape u = n :: ru /\ shape c = n :: rc) /\
  (forall x, X = PArr x -> exists n rx rc, shape x = n :: rx /\ shape c = n :: rc).
Proof.
  unfold _load_dict. intros Hrun.
  apply bind_inr in Hrun as (l1 & st & l2 & _ & Hrun & _).
  apply bind_inr in Hrun as (l3 & st' & l4 & _ & Hrun & _).
  apply bind_inr in Hrun as (l5 & xy' & l6 & Hxy & Hret & _).
  unfold ret in Hret.
  assert (xy' = PArr c) by congruence. subst xy'.
  assert (HX : l_X st' = X) by congruence.
  assert (HU : l_Usv st' = Usv) by congruence.
  subst X Usv. exact (resolve_xy_value _ _ _ Hxy).
Qed.

End Coordinates.

Section Lifting.
Context {E : Type} `{Scalar E}.

(** An error of [_load_dict] is an error of [load_activity]. *)
Lemma load_activity_raised (w : @world E) filename dat keys :
  reads_mapping w filename dat keys ->
  raised (_load_dict dat keys) ->
  raised (load_activity w filename).
Proof.
  intros Hmap Hraised. rewrite (load_activity_mapping _ _ _ _ Hmap).
  apply bind_raised_r with (l := [Stdout (String.append "Loading " filename)]) (a := tt);
    [reflexivity |].
  now apply bind_raised_l.
Qed.

(** The bare [return] of line 123 needs an [X] that is [None] and a
    missing factor. *)
Lemma validate_and_return_none (fr : @frame E) :
  snd (validate_and_return fr) = inr None ->
  obj_is_none (f_X fr) = true /\ (is_none (f_Usv fr) || is_none (f_Vsv fr)) = true.
Proof.
  unfold validate_and_return.
  destruct (obj_is_none (f_X fr) && (is_none (f_Usv fr) || is_none (f_Vsv fr))) eqn:Hg.
  - intros _. now apply andb_prop in Hg.
  - intros Hrun. apply bind_snd_value in Hrun as (l1 & X & _ & Hrun).
    apply bind_snd_value in Hrun as (l2 & xy & _ & Hrun). discriminate.
Qed.

(** No mapping makes [load_activity] take the [return] of line 123. *)
Lemma mapping_never_soft_fails (w : @world E) filename dat keys :
  reads_mapping w filename dat keys ->
  snd (load_activity w filename) <> inr None.
Proof.
  intros Hmap Hrun. rewrite (load_activity_mapping _ _ _ _ Hmap) in Hrun.
  apply bind_snd_value in Hrun as (l1 & [] & _ & Hrun).
  apply bind_snd_value in Hrun as (l2 & [[[X Usv] Vsv] xy] & Hdict & Hrun).
  apply validate_and_return_none in Hrun as [HX Hmiss].
  cbn [frame_of_dict f_X f_Usv f_Vsv obj_is_none] in HX, Hmiss.
  destruct X; [| discriminate].
  destruct (_load_dict_without_X _ _ _ _ _ _ _ Hdict eq_refl) as (u & v & -> & ->).
  discriminate.
Qed.

End Lifting.

(** * The claims *)
Section Claims.
Context {E : Type} `{Scalar E}.
Implicit Types (w : @world E) (filename : string) (dat : @dict E).

(** C6. For every path whose extension is none of [.mat], [.npy], [.npz],
    [load_activity] prints its loading line and raises
    [Exception("Invalid file type")]; no result is produced. *)
Theorem unsupported_extension_raises w filename :
  snd (OsPath.splitext filename) <> ".mat" ->
  snd (OsPath.splitext filename) <> ".npy" ->
  snd (OsPath.splitext filename) <> ".npz" ->
  load_activity w filename =
    ([loading filename], inl (Raise Exception "Invalid file type")).
Proof.
  intros Hmat Hnpy Hnpz. unfold load_activity.
  apply String.eqb_neq in Hmat, Hnpy, Hnpz.
  rewrite Hmat, Hnpy, Hnpz. reflexivity.
Qed.

(** C1 (the code departs from the claim). A file whose payload is a plain
    2-D array with ten rows or more is never returned as [X]: from a
    [.mat] file with one variable the validated array reaches line 148,
    where [xy] is still unbound; from a [.npy] file [X.item()] rejects
    the array at line 111; from a [.npz] archive that stores it under a
    name outside the vocabulary, [U] is read unbound at line 45. *)
Theorem plain_array_is_not_returned w filename (a : ndarray E) (N T : nat) :
  shape a = [N; T] -> 10 <= N -> well_formed a ->
  (forall (d : dict) (name : string),
      snd (OsPath.splitext filename) = ".mat" ->
      sio_loadmat w filename = inr d ->
      filter (fun key => negb (is_reserved key)) (keys_of d) = [name] ->
      getitem d name = ret (PArr a) ->
      load_activity w filename =
        ([loading filename], inl (Raise UnboundLocalError "xy"))) /\
  (snd (OsPath.splitext filename) = ".npy" ->
   np_load w filename true = inr (NpArray a) ->
   load_activity w filename =
     ([loading filename],
      inl (Raise ValueError "can only convert an array of size 1 to a Python scalar"))) /\
  (forall (name : string),
      snd (OsPath.splitext filename) = ".npz" ->
      np_load w filename true = inr (NpzFile [(name, a)]) ->
      (forall s, ~ In name (slot_names s)) ->
      load_activity w filename =
        ([loading filename], inl (Raise UnboundLocalError "U"))).
Proof.
  intros Hshape HN Hwf. split; [| split].
  - intros d name Hext Hsio Hfilter Hget. unfold load_activity, load_mat.
    rewrite Hext, Hsio, lift_value, bind_ret.
    rewrite (pick_payload_single _ _ _ _ Hfilter Hget), bind_ret.
    erewrite try_except_value by reflexivity.
    cbn [String.eqb Ascii.eqb Bool.eqb].
    change (@pair (list event) (exn + @frame E) [] (inr ?fr)) with (ret fr).
    rewrite bind_ret. unfold validate_and_return.
    cbn [f_X f_Usv f_Vsv f_xy obj_is_none andb negb].
    rewrite (check_activity_2d a N T Hshape HN), bind_ret. reflexivity.
  - intros Hext Hload. unfold load_activity, load_npy, item_dict.
    rewrite Hext, Hload, lift_value, bind_ret.
    rewrite (item_not_single a N T Hshape HN Hwf). reflexivity.
  - intros name Hext Hload Hname.
    rewrite (load_activity_mapping w filename _ _ (from_npz w filename _ Hext Hload)).
    assert (Hloop : for_keys (dict_of_record [(name, a)]) (keys_of [(name, a)])
                      initial_locals
                    = ret (append_other_key initial_locals name)).
    { cbn [keys_of map fst for_keys]. unfold assign_key.
      repeat match goal with
      | |- context [String.eqb name ?lit] =>
          destruct (String.eqb_spec name lit) as [Heq | _];
            [exfalso; subst name;
             solve [ apply (Hname SlotUsv); simpl; tauto
                   | apply (Hname SlotVsv); simpl; tauto
                   | apply (Hname SlotU); simpl; tauto
                   | apply (Hname SlotV); simpl; tauto
                   | apply (Hname SlotSv); simpl; tauto
                   | apply (Hname SlotX); simpl; tauto
                   | apply (Hname SlotXpos); simpl; tauto
                   | apply (Hname SlotYpos); simpl; tauto
                   | apply (Hname SlotXy); simpl; tauto ] |]
      end.
      now rewrite bind_ret. }
    unfold _load_dict. rewrite Hloop, bind_ret. reflexivity.
Qed.

(** C2 (the code departs from the claim). Whenever the key loop leaves [X]
    unresolved and the factor derivation does not complete the pair
    [Usv]/[Vsv] (it raises, or it leaves one of them [None]),
    [load_activity] raises: the soft-fail [return] of line 123 is not
    reached. *)
Theorem unresolved_mapping_raises w filename dat keys st :
  reads_mapping w filename dat keys ->
  for_keys dat keys initial_locals = ret st ->
  l_X st = PNone ->
  (forall l st1, derive_factors st = (l, inr st1) ->
                 l_Usv st1 = PNone \/ l_Vsv st1 = PNone) ->
  raised (load_activity w filename).
Proof.
  intros Hmap Hloop HX Hpair.
  apply (load_activity_raised _ _ _ _ Hmap).
  exact (_load_dict_incomplete_pair _ _ _ Hloop HX Hpair).
Qed.

(** C3 (the code departs from the claim). For a mapping that holds [U0]
    and [Vsv] and no [U], [X], [spks], [Usv], [Sv] or [sv], the test of
    line 45 reads [Sv] before any assignment to it: [load_activity]
    raises [UnboundLocalError], and line 47 never derives [Sv] from the
    norms of [Vsv]. *)
Theorem scaling_is_not_derived w filename dat keys (u v : ndarray E) :
  reads_mapping w filename dat keys ->
  In "U0" keys -> getitem dat "U0" = ret (PArr u) ->
  In "Vsv" keys -> getitem dat "Vsv" = ret (PArr v) ->
  ~ In "U" keys -> ~ In "X" keys -> ~ In "spks" keys ->
  ~ In "Usv" keys -> ~ In "Sv" keys -> ~ In "sv" keys ->
  load_activity w filename =
    ([loading filename], inl (Raise UnboundLocalError "Sv")).
Proof.
  intros Hmap HU0 HgetU HVsv HgetV HnU HnX Hnspks HnUsv HnSv Hnsv.
  rewrite (load_activity_mapping _ _ _ _ Hmap).
  destruct (for_keys_succeeds dat keys initial_locals (reads_mapping_keys _ _ _ _ Hmap))
    as [st Hloop].
  assert (HX : slot_value SlotX st = Bound PNone).
  { apply (slot_absent _ _ _ SlotX Hloop).
    intros n [<- | [<- | []]]; assumption. }
  assert (HUsv : slot_value SlotUsv st = Bound PNone).
  { apply (slot_absent _ _ _ SlotUsv Hloop).
    intros n [<- | []]; assumption. }
  assert (HSv : slot_value SlotSv st = Unbound).
  { apply (slot_absent _ _ _ SlotSv Hloop).
    intros n [<- | [<- | []]]; assumption. }
  assert (HU : slot_value SlotU st = Bound (PArr u)).
  { apply (slot_only _ _ _ SlotU "U0" _ Hloop); simpl; auto.
    intros m [<- | [<- | []]] Hne; [assumption | congruence]. }
  cbn [slot_value] in HX, HUsv, HSv, HU.
  injection HX as HX. injection HUsv as HUsv.
  unfold _load_dict. rewrite Hloop, bind_ret, HX. cbn [is_none].
  unfold derive_factors. rewrite HUsv, HU, HSv. reflexivity.
Qed.

(** C4. For a mapping in which no [X] resolves and the derivation leaves
    the factors [Usv] and [Vsv], [load_activity] raises a [ValueError]
    naming the first constraint that fails: the component counts when the
    trailing dimensions differ (in particular for shapes [(N, k)] and
    [(T, k')] with [k <> k']), then the rank of [Usv] when it exceeds 3,
    then the rank of [Vsv] when it is not 2.  Whatever the trailing
    dimensions, a [Usv] of rank above 3 or a [Vsv] of rank other than 2
    makes the call raise. *)
Theorem factor_pair_is_validated w filename dat keys st l st1 (u v : ndarray E) :
  reads_mapping w filename dat keys ->
  for_keys dat keys initial_locals = ret st ->
  l_X st = PNone ->
  derive_factors st = (l, inr st1) ->
  l_Usv st1 = PArr u -> l_Vsv st1 = PArr v ->
  (forall N k T k', shape u = [N; k] -> shape v = [T; k'] -> k <> k' ->
     load_activity w filename =
       ([loading filename],
        inl (Raise ValueError "Usv and Vsv must have the same number of components"))) /\
  (forall ku kv, shape_last u = ret ku -> shape_last v = ret kv -> ku <> kv ->
     load_activity w filename =
       ([loading filename],
        inl (Raise ValueError "Usv and Vsv must have the same number of components"))) /\
  (forall k, shape_last u = ret k -> shape_last v = ret k -> 3 < ndim u ->
     load_activity w filename =
       ([loading filename],
        inl (Raise ValueError "Usv cannot have more than 3 dimensions"))) /\
  (forall k, shape_last u = ret k -> shape_last v = ret k ->
     ndim u <= 3 -> ndim v <> 2 ->
     load_activity w filename =
       ([loading filename], inl (Raise ValueError "Vsv must have 2 dimensions"))) /\
  (3 < ndim u \/ ndim v <> 2 -> raised (load_activity w filename)).
Proof.
  intros Hmap Hloop HX Hderive HU HV.
  assert (l = []) as -> by exact (silent_value _ _ _ (silent_derive_factors st) Hderive).
  assert (Hrun : load_activity w filename =
                 (print (String.append "Loading " filename) ;;;
                  r <- (validate_factors st1 ;;;
                        xy <- resolve_xy st1 ;;
                        ret (l_X st1, l_Usv st1, l_Vsv st1, xy)) ;;
                  validate_and_return (frame_of_dict r))).
  { rewrite (load_activity_mapping _ _ _ _ Hmap). unfold _load_dict.
    rewrite Hloop, bind_ret, HX. cbn [is_none].
    change (derive_factors st = ret st1) in Hderive.
    rewrite Hderive, bind_ret.
    rewrite (bind_map (validate_factors st1) (fun _ => st1)). reflexivity. }
  assert (Hmismatch : forall ku kv, shape_last u = ret ku -> shape_last v = ret kv ->
            ku <> kv ->
            load_activity w filename =
              ([loading filename],
               inl (Raise ValueError "Usv and Vsv must have the same number of components"))).
  { intros ku kv Hku Hkv Hne. rewrite Hrun. unfold validate_factors.
    rewrite HU, HV. cbn [as_array]. rewrite bind_ret, Hku, bind_ret, bind_ret, Hkv, bind_ret.
    apply Nat.eqb_neq in Hne. rewrite Hne. reflexivity. }
  split; [| split; [| split; [| split]]].
  - intros N k T k' Hu Hv Hne. apply (Hmismatch k k'); [| | exact Hne].
    + unfold shape_last. now rewrite Hu.
    + unfold shape_last. now rewrite Hv.
  - exact Hmismatch.
  - intros k Hku Hkv Hrank. rewrite Hrun. unfold validate_factors.
    rewrite HU, HV. cbn [as_array]. rewrite bind_ret, Hku, bind_ret, bind_ret, Hkv, bind_ret.
    rewrite Nat.eqb_refl. cbn [negb].
    apply Nat.ltb_lt in Hrank. rewrite Hrank. reflexivity.
  - intros k Hku Hkv Hrank Hv2. rewrite Hrun. unfold validate_factors.
    rewrite HU, HV. cbn [as_array]. rewrite bind_ret, Hku, bind_ret, bind_ret, Hkv, bind_ret.
    rewrite Nat.eqb_refl. cbn [negb].
    apply Nat.ltb_ge in Hrank. rewrite Hrank.
    apply Nat.eqb_neq in Hv2. rewrite Hv2. reflexivity.
  - intros Hbad. rewrite Hrun.
    apply bind_raised_r with (l := [Stdout (String.append "Loading " filename)]) (a := tt);
      [reflexivity |].
    do 2 apply bind_raised_l.
    destruct (validate_factors st1) as [lv [e | []]] eqn:Hval; [now exists e |].
    apply validate_factors_value in Hval as (u' & v' & k & Hu' & Hv' & _ & _ & Hru & Hrv).
    rewrite HU in Hu'. rewrite HV in Hv'. injection Hu' as <-. injection Hv' as <-.
    lia.
Qed.

(** C5 (the code departs from the claim). A plain 3-D array with ten rows
    or more, read from a [.mat] file with one variable, is announced and
    flattened by lines 133-146, but it is not returned: line 148 reads
    [xy], which this branch never assigns. *)
Theorem plain_3d_array_is_not_returned w filename (d : dict) (name : string)
    (a : ndarray E) (N T C : nat) :
  shape a = [N; T; C] -> 10 <= N ->
  snd (OsPath.splitext filename) = ".mat" ->
  sio_loadmat w filename = inr d ->
  filter (fun key => negb (is_reserved key)) (keys_of d) = [name] ->
  getitem d name = ret (PArr a) ->
  load_activity w filename =
    ([loading filename; Warning flatten_warning; Stdout (flatten_notice N T C)],
     inl (Raise UnboundLocalError "xy")).
Proof.
  intros Hshape HN Hext Hsio Hfilter Hget. unfold load_activity, load_mat.
  rewrite Hext, Hsio, lift_value, bind_ret.
  rewrite (pick_payload_single _ _ _ _ Hfilter Hget), bind_ret.
  erewrite try_except_value by reflexivity.
  cbn [String.eqb Ascii.eqb Bool.eqb].
  change (@pair (list event) (exn + @frame E) [] (inr ?fr)) with (ret fr).
  rewrite bind_ret. unfold validate_and_return.
  cbn [f_X f_Usv f_Vsv f_xy obj_is_none andb negb].
  rewrite (check_activity_3d a N T C Hshape HN). reflexivity.
Qed.

(** C7 (the code departs from the claim). For a mapping that holds [X] of
    shape [(N, T)] with [N >= 10] together with [xpos] and [ypos] of
    length [N] (and no [spks], [xy], [xyz] or [Usv]), the stacked
    coordinates pass the comparison with [X] at line 77, and the [elif]
    of line 79 then reads [Usv.shape] on [None]: [load_activity] raises
    [AttributeError] and returns no coordinates. *)
Theorem matching_coordinates_raise w filename dat keys (x xp yp : ndarray E) (N T : nat) :
  reads_mapping w filename dat keys ->
  In "X" keys -> getitem dat "X" = ret (PArr x) -> shape x = [N; T] ->
  In "xpos" keys -> getitem dat "xpos" = ret (PArr xp) -> shape xp = [N] ->
  In "ypos" keys -> getitem dat "ypos" = ret (PArr yp) -> shape yp = [N] ->
  10 <= N ->
  ~ In "spks" keys -> ~ In "xy" keys -> ~ In "xyz" keys -> ~ In "Usv" keys ->
  load_activity w filename =
    ([loading filename],
     inl (Raise AttributeError "'NoneType' object has no attribute 'shape'")).
Proof.
  intros Hmap HinX HgetX Hsx Hinxp Hgetxp Hsxp Hinyp Hgetyp Hsyp HN
         Hnspks Hnxy Hnxyz HnUsv.
  rewrite (load_activity_mapping _ _ _ _ Hmap).
  destruct (for_keys_succeeds dat keys initial_locals (reads_mapping_keys _ _ _ _ Hmap))
    as [st Hloop].
  assert (HX : slot_value SlotX st = Bound (PArr x)).
  { apply (slot_only _ _ _ SlotX "X" _ Hloop); simpl; auto.
    intros m [<- | [<- | []]] Hne; [congruence | assumption]. }
  assert (Hxp : slot_value SlotXpos st = Bound (PArr xp)).
  { apply (slot_only _ _ _ SlotXpos "xpos" _ Hloop); simpl; auto.
    intros m [<- | []] Hne; congruence. }
  assert (Hyp : slot_value SlotYpos st = Bound (PArr yp)).
  { apply (slot_only _ _ _ SlotYpos "ypos" _ Hloop); simpl; auto.
    intros m [<- | []] Hne; congruence. }
  assert (Hxy : slot_value SlotXy st = Bound PNone).
  { apply (slot_absent _ _ _ SlotXy Hloop).
    intros n [<- | [<- | []]]; assumption. }
  assert (HUsv : slot_value SlotUsv st = Bound PNone).
  { apply (slot_absent _ _ _ SlotUsv Hloop).
    intros n [<- | []]; assumption. }
  cbn [slot_value] in HX, Hxp, Hyp, Hxy, HUsv.
  injection HX as HX. injection Hxp as Hxp. injection Hyp as Hyp.
  injection Hxy as Hxy. injection HUsv as HUsv.
  assert (H2 : (N =? 2) = false) by (apply Nat.eqb_neq; lia).
  assert (H3 : (N =? 3) = false) by (apply Nat.eqb_neq; lia).
  unfold _load_dict. rewrite Hloop, bind_ret, HX. cbn [is_none]. rewrite bind_ret.
  unfold resolve_xy. rewrite Hxp, Hyp, Hxy, HX, HUsv.
  cbn [is_none negb andb stack_operand]. unfold stack_axis1.
  rewrite Hsxp, Hsyp, shape_eqb_refl. cbn [negb]. rewrite !bind_ret.
  unfold ndim, shape_first. cbn [shape List.length Nat.eqb negb].
  rewrite !bind_ret, H2, H3. cbn [orb]. rewrite bind_ret.
  cbn [and_also as_array shape]. rewrite bind_ret, Hsx.
  rewrite !bind_ret, Nat.eqb_refl. reflexivity.
Qed.

(** While [Sv] is unbound, lines 45-58 change nothing or stop at the
    read of a name that was never assigned. *)
Lemma derive_factors_unbound_Sv (st : @locals E) :
  l_Sv st = Unbound ->
  derive_factors st = ret st \/
  exists name, derive_factors st = raise UnboundLocalError name.
Proof.
  intros HSv. unfold derive_factors. rewrite HSv.
  destruct (l_Usv st) as [| u] eqn:HUsv, (l_U st) as [| [| a]] eqn:HU,
           (l_Vsv st) as [| v] eqn:HVsv, (l_V st) as [| [| b]] eqn:HV;
    repeat first
      [ progress cbn [is_none and_also negb read]
      | progress rewrite ?bind_ret, ?bind_raise
      | progress rewrite ?HUsv, ?HU, ?HVsv, ?HV, ?HSv ];
    first [left; reflexivity | right; eexists; reflexivity].
Qed.

(** Lines 60-65 with a factor missing fail at a [.shape] lookup, before
    any of the three checks. *)
Lemma validate_factors_incomplete_error (st : @locals E) :
  l_Usv st = PNone \/ l_Vsv st = PNone ->
  exists e, validate_factors st = ([], inl e) /\ exn_cls e <> ValueError.
Proof.
  intros Hmiss. unfold validate_factors.
  destruct (l_Usv st) as [| u] eqn:HU.
  - cbn [as_array]. rewrite bind_raise.
    eexists. split; [reflexivity | cbn [exn_cls]; discriminate].
  - destruct Hmiss as [Hm | Hm]; [discriminate |]. rewrite Hm.
    cbn [as_array]. rewrite bind_ret. unfold shape_last.
    destruct (rev (shape u)) as [| k rest].
    + rewrite bind_raise. eexists. split; [reflexivity | cbn [exn_cls]; discriminate].
    + rewrite bind_ret, bind_raise.
      eexists. split; [reflexivity | cbn [exn_cls]; discriminate].
Qed.

(** C8 (the code departs from the claim). For a mapping without [X] and
    without an [Sv] or [sv] entry, the [ValueError] of lines 49 and 54
    that reports the missing scaling is never raised: the tests of lines
    45 and 50 read [Sv] (or [U]) before any assignment to it.  With an
    unscaled [U] and no [Usv] the call raises [UnboundLocalError] for
    [Sv]; with an unscaled [V] and neither scaled factor it raises
    [UnboundLocalError] for [U] when the mapping has no [U] entry, and for
    [Sv] otherwise; and whenever a scaled factor is missing the call
    fails with an error that is not a [ValueError]. *)
Theorem missing_scaling_is_not_reported w filename dat keys st :
  reads_mapping w filename dat keys ->
  for_keys dat keys initial_locals = ret st ->
  ~ In "Sv" keys -> ~ In "sv" keys ->
  l_X st = PNone ->
  (forall u0 : ndarray E,
     l_U st = Bound (PArr u0) -> l_Usv st = PNone ->
     load_activity w filename =
       ([loading filename], inl (Raise UnboundLocalError "Sv"))) /\
  (forall v0 : ndarray E,
     l_V st = Bound (PArr v0) -> l_Usv st = PNone -> l_Vsv st = PNone ->
     load_activity w filename =
       ([loading filename],
        inl (Raise UnboundLocalError
               match l_U st with Unbound => "U" | Bound _ => "Sv" end))) /\
  (l_Usv st = PNone \/ l_Vsv st = PNone ->
   exists e, load_activity w filename = ([loading filename], inl e) /\
             exn_cls e <> ValueError).
Proof.
  intros Hmap Hloop HnSv Hnsv HX.
  assert (HSv : l_Sv st = Unbound).
  { change (slot_value SlotSv st = slot_value SlotSv initial_locals).
    apply (slot_absent _ _ _ SlotSv Hloop).
    intros n [<- | [<- | []]]; assumption. }
  assert (Hrun : load_activity w filename =
            (print (String.append "Loading " filename) ;;;
             r <- (st' <- (st1 <- derive_factors st ;; validate_factors st1 ;;; ret st1) ;;
                   xy <- resolve_xy st' ;;
                   ret (l_X st', l_Usv st', l_Vsv st', xy)) ;;
             validate_and_return (frame_of_dict r))).
  { rewrite (load_activity_mapping _ _ _ _ Hmap). unfold _load_dict.
    rewrite Hloop, bind_ret, HX. reflexivity. }
  split; [| split].
  - intros u0 HU HUsv. rewrite Hrun. unfold derive_factors.
    rewrite HUsv, HU, HSv. reflexivity.
  - intros v0 HV HUsv HVsv. rewrite Hrun. unfold derive_factors.
    rewrite HUsv, HVsv, HV, HSv.
    destruct (l_U st) as [| [| a]]; reflexivity.
  - intros Hmiss. rewrite Hrun.
    destruct (derive_factors_unbound_Sv st HSv) as [Hd | [name Hd]]; rewrite Hd.
    + rewrite bind_ret.
      destruct (validate_factors_incomplete_error st Hmiss) as (e & Hv & Hcls).
      rewrite Hv. exists e. split; [reflexivity | exact Hcls].
    + exists (Raise UnboundLocalError name).
      split; [reflexivity | cbn [exn_cls]; discriminate].
Qed.

(** C10. When the key loop resolves [X], lines 45-65 are skipped: the
    result of [_load_dict] is that of the coordinate step with [X] and the
    [Usv] and [Vsv] entries as the loop left them, whatever their shapes;
    without coordinate entries nothing is raised, and [load_activity]
    returns a 2-D [X] of ten rows or more together with those entries. *)
Theorem activity_skips_factor_checks w filename dat keys st (x : ndarray E) :
  reads_mapping w filename dat keys ->
  for_keys dat keys initial_locals = ret st ->
  l_X st = PArr x ->
  _load_dict dat keys =
    (xy <- resolve_xy st ;; ret (PArr x, l_Usv st, l_Vsv st, xy)) /\
  (forall l X Usv Vsv xy,
      _load_dict dat keys = (l, inr (X, Usv, Vsv, xy)) ->
      X = PArr x /\ Usv = l_Usv st /\ Vsv = l_Vsv st) /\
  (l_xpos st = PNone -> l_xy st = PNone ->
   _load_dict dat keys = ret (PArr x, l_Usv st, l_Vsv st, PNone)) /\
  (l_xpos st = PNone -> l_xy st = PNone ->
   forall N T, shape x = [N; T] -> 10 <= N ->
   load_activity w filename =
     ([loading filename], inr (Some (PArr x, l_Usv st, l_Vsv st, PNone)))).
Proof.
  intros Hmap Hloop HX.
  assert (Hskip : _load_dict dat keys =
                  (xy <- resolve_xy st ;; ret (PArr x, l_Usv st, l_Vsv st, xy))).
  { unfold _load_dict. rewrite Hloop, bind_ret, HX. cbn [is_none].
    now rewrite bind_ret, HX. }
  assert (Hplain : l_xpos st = PNone -> l_xy st = PNone ->
                   _load_dict dat keys = ret (PArr x, l_Usv st, l_Vsv st, PNone)).
  { intros Hxpos Hxy. rewrite Hskip. unfold resolve_xy. rewrite Hxpos, Hxy.
    cbn [is_none negb andb]. now rewrite !bind_ret. }
  split; [exact Hskip | split; [| split; [exact Hplain |]]].
  - intros l X Usv Vsv xy Hrun. rewrite Hskip in Hrun.
    apply bind_inr in Hrun as (l1 & xy' & l2 & _ & Hret & _).
    unfold ret in Hret. repeat split; congruence.
  - intros Hxpos Hxy N T Hshape HN.
    rewrite (load_activity_mapping _ _ _ _ Hmap), (Hplain Hxpos Hxy), bind_ret.
    unfold validate_and_return, frame_of_dict.
    cbn [f_X f_Usv f_Vsv f_xy obj_is_none andb negb].
    rewrite (check_activity_2d x N T Hshape HN), bind_ret. reflexivity.
Qed.

(** C9 (as amended). The sibling lookups swallow the errors of the classes
    listed at lines 157 and 168 and answer [(None, None)] for them, in
    particular for the [FileNotFoundError] of a missing sibling file; an
    error of [np.load] outside those classes is passed on, and no
    exception of a listed class ever leaves them.  [_load_iscell] returns
    the mask of column 0 and the path when [iscell.npy] holds an array
    with a second axis of length two or more; [_load_stat] returns the
    stacked [med] fields and the path when [stat.npy] holds a 1-D array
    of records that all carry a [med] of one shape. *)
Theorem sibling_lookups_swallow_listed_errors w filename :
  (forall e,
      np_load w (OsPath.join (fst (OsPath.split filename)) "iscell.npy") false = inl e ->
      _load_iscell w filename =
        if except_matches handled_errors e then ret (None, None) else lift (inl e)) /\
  (forall e,
      np_load w (OsPath.join (fst (OsPath.split filename)) "stat.npy") true = inl e ->
      _load_stat w filename =
        if except_matches handled_errors e then ret (None, None) else lift (inl e)) /\
  (forall msg,
      np_load w (OsPath.join (fst (OsPath.split filename)) "iscell.npy") false
        = inl (Raise FileNotFoundError msg) ->
      np_load w (OsPath.join (fst (OsPath.split filename)) "stat.npy") true
        = inl (Raise FileNotFoundError msg) ->
      _load_iscell w filename = ret (None, None) /\
      _load_stat w filename = ret (None, None)) /\
  (forall (a : ndarray E) n c rest,
      np_load w (OsPath.join (fst (OsPath.split filename)) "iscell.npy") false
        = inr (NpArray a) ->
      shape a = n :: c :: rest -> 2 <= c ->
      exists col,
        take_column 0 a = ret col /\
        _load_iscell w filename =
          ret (Some (astype s_truth col),
               Some (OsPath.join (fst (OsPath.split filename)) "iscell.npy"))) /\
  (forall (a : ndarray record) n meds sh,
      np_load w (OsPath.join (fst (OsPath.split filename)) "stat.npy") true
        = inr (NpRecords a) ->
      shape a = [n] ->
      Forall2 (fun r m => med (ERecord r) = ret m) (data a) meds ->
      meds <> [] ->
      (forall m, In m meds -> shape m = sh) ->
      _load_stat w filename =
        ret (Some (mk_ndarray (List.length meds :: sh) (List.concat (map data meds))),
             Some (OsPath.join (fst (OsPath.split filename)) "stat.npy"))) /\
  (forall l e, _load_iscell w filename = (l, inl e) ->
               except_matches handled_errors e = false) /\
  (forall l e, _load_stat w filename = (l, inl e) ->
               except_matches handled_errors e = false).
Proof.
  assert (Hiscell : forall e,
      np_load w (OsPath.join (fst (OsPath.split filename)) "iscell.npy") false = inl e ->
      _load_iscell w filename =
        if except_matches handled_errors e then ret (None, None) else lift (inl e)).
  { intros e Hload. unfold _load_iscell. cbv zeta. rewrite Hload, bind_error.
    destruct (except_matches handled_errors e) eqn:Hm.
    - now erewrite try_except_handled by (reflexivity || exact Hm).
    - now erewrite try_except_propagates by (reflexivity || exact Hm). }
  assert (Hstat : forall e,
      np_load w (OsPath.join (fst (OsPath.split filename)) "stat.npy") true = inl e ->
      _load_stat w filename =
        if except_matches handled_errors e then ret (None, None) else lift (inl e)).
  { intros e Hload. unfold _load_stat. cbv zeta. rewrite Hload, bind_error.
    destruct (except_matches handled_errors e) eqn:Hm.
    - now erewrite try_except_handled by (reflexivity || exact Hm).
    - now erewrite try_except_propagates by (reflexivity || exact Hm). }
  split; [exact Hiscell |]. split; [exact Hstat |].
  split; [| split; [| split; [| split]]].
  - intros msg Hmissing_iscell Hmissing_stat.
    now rewrite (Hiscell _ Hmissing_iscell), (Hstat _ Hmissing_stat).
  - intros a n c rest Hload Hshape Hc. unfold _load_iscell. cbv zeta.
    rewrite Hload, lift_value, bind_ret. unfold column, take_column.
    rewrite Hshape.
    assert (Hc1 : (1 <? c) = true) by (apply Nat.ltb_lt; lia).
    assert (Hc0 : (0 <? c) = true) by (apply Nat.ltb_lt; lia).
    rewrite Hc1, Hc0, !bind_ret. cbn [astype_bool]. rewrite bind_ret.
    eexists. split; [reflexivity |].
    now erewrite try_except_value by reflexivity.
  - intros a n meds sh Hload Hshape Hmeds Hne Hsh. unfold _load_stat. cbv zeta.
    rewrite Hload, lift_value, bind_ret. unfold iterate. rewrite Hshape.
    rewrite bind_ret, (comprehension_med _ _ Hmeds), bind_ret.
    rewrite (array_of_list_uniform meds sh Hne Hsh), bind_ret.
    now erewrite try_except_value by reflexivity.
  - intros l e. apply try_except_escapes.
  - intros l e. apply try_except_escapes.
Qed.

End Claims.

Lemma unsupported_extension_raises_witness :
  load_activity Sample.empty_world "recording.csv" =
    ([loading "recording.csv"], inl (Raise Exception "Invalid file type")).
Proof.
  apply unsupported_extension_raises; vm_compute; discriminate.
Defined.

Lemma plain_array_is_not_returned_witness :
  load_activity (Sample.mat_world [("A", Sample.matrix [10; 5])]) "session.mat" =
    ([loading "session.mat"], inl (Raise UnboundLocalError "xy")).
Proof.
  refine (proj1 (plain_array_is_not_returned
                   (Sample.mat_world [("A", Sample.matrix [10; 5])])
                   "session.mat" (Sample.matrix [10; 5]) 10 5 _ _ _)
                _ "A" _ _ _ _);
    try reflexivity; vm_compute; lia.
Defined.

Lemma unresolved_mapping_raises_witness :
  raised (load_activity
            (Sample.pickle_world [("Usv", PArr (Sample.matrix [10; 2])); ("V", PNone)])
            "factors.npy").
Proof.
  eapply unresolved_mapping_raises.
  - apply from_npy; reflexivity.
  - reflexivity.
  - reflexivity.
  - intros l st1 Hderive. vm_compute in Hderive.
    injection Hderive as _ <-. right. reflexivity.
Defined.

Lemma scaling_is_not_derived_witness :
  load_activity
    (Sample.npz_world [("U0", Sample.matrix [10; 2]); ("Vsv", Sample.matrix [7; 2])])
    "factors.npz" =
    ([loading "factors.npz"], inl (Raise UnboundLocalError "Sv")).
Proof.
  eapply scaling_is_not_derived.
  - apply from_npz; reflexivity.
  - simpl; tauto.
  - reflexivity.
  - simpl; tauto.
  - reflexivity.
  - simpl. intuition discriminate.
  - simpl. intuition discriminate.
  - simpl. intuition discriminate.
  - simpl. intuition discriminate.
  - simpl. intuition discriminate.
  - simpl. intuition discriminate.
Defined.

Lemma factor_pair_is_validated_witness :
  load_activity
    (Sample.npz_world [("Usv", Sample.matrix [10; 2]); ("Vsv", Sample.matrix [7; 3])])
    "factors.npz" =
    ([loading "factors.npz"],
     inl (Raise ValueError "Usv and Vsv must have the same number of components")).
Proof.
  assert (Hmap : reads_mapping
                   (Sample.npz_world [("Usv", Sample.matrix [10; 2]);
                                      ("Vsv", Sample.matrix [7; 3])])
                   "factors.npz"
                   (dict_of_record [("Usv", Sample.matrix [10; 2]);
                                    ("Vsv", Sample.matrix [7; 3])])
                   ["Usv"; "Vsv"]).
  { apply (from_npz (Sample.npz_world [("Usv", Sample.matrix [10; 2]);
                                       ("Vsv", Sample.matrix [7; 3])])
                    "factors.npz" [("Usv", Sample.matrix [10; 2]);
                                   ("Vsv", Sample.matrix [7; 3])]);
      reflexivity. }
  apply (proj1 (factor_pair_is_validated _ _ _ _
                  (set_Vsv (set_Usv initial_locals (PArr (Sample.matrix [10; 2])))
                           (PArr (Sample.matrix [7; 3])))
                  []
                  (set_Vsv (set_Usv initial_locals (PArr (Sample.matrix [10; 2])))
                           (PArr (Sample.matrix [7; 3])))
                  (Sample.matrix [10; 2]) (Sample.matrix [7; 3])
                  Hmap eq_refl eq_refl eq_refl eq_refl eq_refl)
               10 2 7 3);
    [reflexivity | reflexivity | lia].
Defined.

Lemma plain_3d_array_is_not_returned_witness :
  load_activity (Sample.mat_world [("A", Sample.matrix [10; 4; 3])]) "stack.mat" =
    ([loading "stack.mat"; Warning flatten_warning; Stdout (flatten_notice 10 4 3)],
     inl (Raise UnboundLocalError "xy")).
Proof.
  apply (plain_3d_array_is_not_returned
           (Sample.mat_world [("A", Sample.matrix [10; 4; 3])]) "stack.mat"
           (("__header__", PNone) :: ("__version__", PNone) :: ("__globals__", PNone)
              :: dict_of_record [("A", Sample.matrix [10; 4; 3])])
           "A" (Sample.matrix [10; 4; 3]) 10 4 3);
    first [reflexivity | lia].
Defined.

Lemma matching_coordinates_raise_witness :
  load_activity
    (Sample.npz_world [("X", Sample.matrix [10; 5]); ("xpos", Sample.matrix [10]);
                       ("ypos", Sample.matrix [10])])
    "session.npz" =
    ([loading "session.npz"],
     inl (Raise AttributeError "'NoneType' object has no attribute 'shape'")).
Proof.
  eapply (matching_coordinates_raise _ _ _ _ _ _ _ 10 5).
  - apply from_npz; reflexivity.
  - simpl; tauto.
  - reflexivity.
  - reflexivity.
  - simpl; tauto.
  - reflexivity.
  - reflexivity.
  - simpl; tauto.
  - reflexivity.
  - reflexivity.
  - lia.
  - simpl. intuition discriminate.
  - simpl. intuition discriminate.
  - simpl. intuition discriminate.
  - simpl. intuition discriminate.
Defined.

(** By line 44 the factors are looked at only without [X]: a mapping that
    holds [X] beside an unscaled [U] is loaded. *)
Example unscaled_factor_beside_activity_loads :
  load_activity
    (Sample.npz_world [("X", Sample.matrix [10; 5]); ("U", Sample.matrix [10; 2])])
    "session.npz" =
    ([loading "session.npz"],
     inr (Some (PArr (Sample.matrix [10; 5]), PNone, PNone, PNone))).
Proof. reflexivity. Qed.

(** An unscaled [V] alone: line 45 reads [U], which no key assigned. *)
Example unscaled_V_alone_raises :
  load_activity (Sample.npz_world [("V", Sample.matrix [7; 2])]) "factors.npz" =
    ([loading "factors.npz"], inl (Raise UnboundLocalError "U")).
Proof. reflexivity. Qed.

Lemma missing_scaling_is_not_reported_witness :
  load_activity (Sample.npz_world [("U", Sample.matrix [10; 2])]) "factors.npz" =
    ([loading "factors.npz"], inl (Raise UnboundLocalError "Sv")).
Proof.
  assert (Hmap : reads_mapping
                   (Sample.npz_world [("U", Sample.matrix [10; 2])]) "factors.npz"
                   (dict_of_record [("U", Sample.matrix [10; 2])]) ["U"]).
  { apply (from_npz _ "factors.npz" [("U", Sample.matrix [10; 2])]); reflexivity. }
  refine (proj1 (missing_scaling_is_not_reported _ _ _ _
                   (set_U initial_locals (PArr (Sample.matrix [10; 2])))
                   Hmap eq_refl _ _ eq_refl)
                (Sample.matrix [10; 2]) eq_refl eq_refl);
    simpl; intuition discriminate.
Defined.

Lemma activity_skips_factor_checks_witness :
  load_activity
    (Sample.npz_world [("X", Sample.matrix [10; 5]); ("Usv", Sample.matrix [10; 2]);
                       ("Vsv", Sample.matrix [7; 3])])
    "session.npz" =
    ([loading "session.npz"],
     inr (Some (PArr (Sample.matrix [10; 5]), PArr (Sample.matrix [10; 2]),
                PArr (Sample.matrix [7; 3]), PNone))).
Proof.
  assert (Hmap : reads_mapping
                   (Sample.npz_world [("X", Sample.matrix [10; 5]);
                                      ("Usv", Sample.matrix [10; 2]);
                                      ("Vsv", Sample.matrix [7; 3])])
                   "session.npz"
                   (dict_of_record [("X", Sample.matrix [10; 5]);
                                    ("Usv", Sample.matrix [10; 2]);
                                    ("Vsv", Sample.matrix [7; 3])])
                   ["X"; "Usv"; "Vsv"]).
  { apply (from_npz (Sample.npz_world [("X", Sample.matrix [10; 5]);
                                       ("Usv", Sample.matrix [10; 2]);
                                       ("Vsv", Sample.matrix [7; 3])])
                    "session.npz" [("X", Sample.matrix [10; 5]);
                                   ("Usv", Sample.matrix [10; 2]);
                                   ("Vsv", Sample.matrix [7; 3])]);
      reflexivity. }
  apply (proj2 (proj2 (proj2
           (activity_skips_factor_checks _ _ _ _
              (set_Vsv (set_Usv (set_X initial_locals (PArr (Sample.matrix [10; 5])))
                                (PArr (Sample.matrix [10; 2])))
                       (PArr (Sample.matrix [7; 3])))
              (Sample.matrix [10; 5]) Hmap eq_refl eq_refl)))
           eq_refl eq_refl 10 5 eq_refl);
    lia.
Defined.

(** C9, the claim as stated fails: an [iscell.npy] that holds a vector
    makes [_load_iscell] raise, since [IndexError] is not among the
    classes line 157 lists. *)
Lemma iscell_vector_raises :
  _load_iscell (Sample.npy_world (Sample.matrix [10])) "plane0/F.npy" =
    ([], inl (Raise IndexError "too many indices for array")).
Proof. reflexivity. Qed.

Lemma sibling_lookups_swallow_listed_errors_witness :
  _load_iscell Sample.empty_world "plane0/F.npy" = ret (None, None) /\
  _load_stat Sample.empty_world "plane0/F.npy" = ret (None, None).
Proof.
  apply (proj1 (proj2 (proj2
           (sibling_lookups_swallow_listed_errors Sample.empty_world "plane0/F.npy")))
           "No such file or directory");
    reflexivity.
Defined.

(** ** Further runs of the loader *)

(** Coordinates one unit too long are discarded with a notice, and [X] is
    returned (C7, second sentence, when both vectors have the length). *)
Example longer_coordinates_are_discarded :
  load_activity
    (Sample.npz_world [("X", Sample.matrix [10; 5]); ("xpos", Sample.matrix [11]);
                       ("ypos", Sample.matrix [11])])
    "session.npz" =
    ([loading "session.npz";
      Stdout "cannot use xy from file: x and y positions of neurons are not same size as activity"],
     inr (Some (PArr (Sample.matrix [10; 5]), PNone, PNone, PNone))).
Proof. reflexivity. Qed.

(** With [xpos] alone one unit too long, [np.stack] rejects the pair. *)
Example uneven_coordinates_raise :
  load_activity
    (Sample.npz_world [("X", Sample.matrix [10; 5]); ("xpos", Sample.matrix [11]);
                       ("ypos", Sample.matrix [10])])
    "session.npz" =
    ([loading "session.npz"],
     inl (Raise ValueError "all input arrays must have the same shape")).
Proof. reflexivity. Qed.

(** Coordinates are returned when [Usv] has the rows of [X] as well. *)
Example coordinates_beside_both_are_kept :
  load_activity
    (Sample.npz_world [("X", Sample.matrix [10; 5]); ("Usv", Sample.matrix [10; 2]);
                       ("xpos", Sample.matrix [10]); ("ypos", Sample.matrix [10])])
    "session.npz" =
    ([loading "session.npz"],
     inr (Some (PArr (Sample.matrix [10; 5]), PArr (Sample.matrix [10; 2]), PNone,
                PArr (mk_ndarray [10; 2]
                        [1; 1; 2; 2; 3; 3; 4; 4; 5; 5; 6; 6; 7; 7; 8; 8; 9; 9; 10; 10])))).
Proof. reflexivity. Qed.

(** A 2-D [X] stored under its key in an archive is returned as it is. *)
Example keyed_activity_is_returned :
  load_activity (Sample.npz_world [("X", Sample.matrix [10; 5])]) "session.npz" =
    ([loading "session.npz"],
     inr (Some (PArr (Sample.matrix [10; 5]), PNone, PNone, PNone))).
Proof. reflexivity. Qed.

(** A 3-D [X] stored under its key is flattened and returned. *)
Example keyed_3d_activity_is_flattened :
  load_activity (Sample.npz_world [("X", Sample.matrix [10; 4; 3])]) "stack.npz" =
    ([loading "stack.npz"; Warning flatten_warning; Stdout (flatten_notice 10 4 3)],
     inr (Some (PArr (mk_ndarray [10; 12] (seq 1 120)), PNone, PNone, PNone))).
Proof. reflexivity. Qed.

(** An unscaled factor with explicit singular values is scaled. *)
Example explicit_scaling_is_applied :
  load_activity
    (Sample.npz_world [("U0", mk_ndarray [10; 2] (repeat 1 20));
                       ("Vsv", Sample.matrix [7; 2]); ("Sv", mk_ndarray [2] [3; 5])])
    "factors.npz" =
    ([loading "factors.npz"],
     inr (Some (PNone,
                PArr (mk_ndarray [10; 2]
                        [3; 5; 3; 5; 3; 5; 3; 5; 3; 5; 3; 5; 3; 5; 3; 5; 3; 5; 3; 5]),
                PArr (Sample.matrix [7; 2]), PNone))).
Proof. reflexivity. Qed.

(** An archive without any recognised key (C2). *)
Example unrecognised_archive_raises :
  load_activity (Sample.npz_world [("arr_0", Sample.matrix [10; 5])]) "data.npz" =
    ([loading "data.npz"], inl (Raise UnboundLocalError "U")).
Proof. reflexivity. Qed.

(** A plain array in a [.npy] file (C1). *)
Example plain_npy_raises :
  load_activity (Sample.npy_world (Sample.matrix [10; 5])) "data.npy" =
    ([loading "data.npy"],
     inl (Raise ValueError "can only convert an array of size 1 to a Python scalar")).
Proof. reflexivity. Qed.

(** A well-formed [iscell.npy]: flags in column 0, probabilities in column 1. *)
Example iscell_mask_is_returned :
  _load_iscell (Sample.npy_world (mk_ndarray [3; 2] [1; 9; 0; 2; 1; 7])) "plane0/F.npy" =
    ret (Some (mk_ndarray [3] [true; false; true]), Some "plane0/iscell.npy").
Proof. reflexivity. Qed.

(** A [stat.npy] of two records. *)
Example stat_positions_are_stacked :
  _load_stat
    (Sample.stat_world
       (mk_ndarray [2] [[("med", mk_ndarray [2] [4; 5])];
                        [("npix", mk_ndarray [] [30]); ("med", mk_ndarray [2] [6; 7])]]))
    "plane0/F.npy" =
    ret (Some (mk_ndarray [2; 2] [4; 5; 6; 7]), Some "plane0/stat.npy").
Proof. reflexivity. Qed.

(** A record without [med] makes [_load_stat] raise [KeyError] (C9). *)
Example stat_without_med_raises :
  _load_stat
    (Sample.stat_world (mk_ndarray [1] [[("npix", mk_ndarray [] [30])]]))
    "plane0/F.npy" =
    ([], inl (Raise KeyError "med")).
Proof. reflexivity. Qed.

(** * Further properties of the loader *)

(** ** The dispatch on the extension, lines 90-120 *)
Section DispatchProperties.
Context {E : Type} `{Scalar E}.
Implicit Types (w : @world E) (filename : string) (dat : @dict E).

(** Once [X] is an array, the next key that is not reserved indexes it
    with a string. *)
Lemma pick_payload_array keys (a : ndarray E) key rest :
  filter (fun k => negb (is_reserved k)) keys = key :: rest ->
  pick_payload keys (OVal (PArr a)) = raise IndexError not_subscriptable.
Proof.
  induction keys as [| k keys' IH]; simpl; [discriminate |].
  destruct (is_reserved k); simpl.
  - intros Hf. rewrite bind_ret. now apply IH.
  - intros _. reflexivity.
Qed.

Lemma pick_payload_second keys (d : @dict E) k1 k2 rest (a : ndarray E) :
  filter (fun k => negb (is_reserved k)) keys = k1 :: k2 :: rest ->
  getitem d k1 = ret (PArr a) ->
  pick_payload keys (ODict d) = raise IndexError not_subscriptable.
Proof.
  intros Hf Hget. induction keys as [| k keys' IH]; simpl in *; [discriminate |].
  destruct (is_reserved k); simpl in *.
  - rewrite bind_ret. now apply IH.
  - inversion Hf; subst. rewrite Hget, !bind_ret.
    now apply pick_payload_array with (key := k2) (rest := rest).
Qed.

(** The [scipy] branch hands over whatever the payload loop leaves in [X]. *)
Lemma load_mat_scipy_value w filename (d : dict) (X' : @obj E) :
  sio_loadmat w filename = inr d ->
  pick_payload (keys_of d) (ODict d) = ret X' ->
  load_mat w filename = ret (mk_frame X' PNone PNone Unbound).
Proof.
  intros Hsio Hpick. unfold load_mat.
  rewrite Hsio, lift_value, bind_ret, Hpick, bind_ret.
  now erewrite try_except_value by reflexivity.
Qed.

(** [.mat], read by [scipy]: a file with two variables or more is refused
    at line 96, where the second pass of the loop indexes the array picked
    by the first with a string. *)
Theorem mat_with_several_variables_raises w filename (d : dict) k1 k2 rest
    (a : ndarray E) :
  snd (OsPath.splitext filename) = ".mat" ->
  sio_loadmat w filename = inr d ->
  filter (fun k => negb (is_reserved k)) (keys_of d) = k1 :: k2 :: rest ->
  getitem d k1 = ret (PArr a) ->
  load_activity w filename =
    ([loading filename], inl (Raise IndexError not_subscriptable)).
Proof.
  intros Hext Hsio Hf Hget. unfold load_activity, load_mat.
  rewrite Hext, Hsio, lift_value, bind_ret.
  rewrite (pick_payload_second _ _ _ _ _ _ Hf Hget), bind_raise.
  erewrite try_except_propagates by reflexivity. reflexivity.
Qed.

(** [.mat], read by [scipy]: a file without variables leaves the
    dictionary itself in [X], and line 125 asks it for [ndim]. *)
Theorem mat_without_variables_raises w filename (d : dict) :
  snd (OsPath.splitext filename) = ".mat" ->
  sio_loadmat w filename = inr d ->
  filter (fun k => negb (is_reserved k)) (keys_of d) = [] ->
  load_activity w filename =
    ([loading filename],
     inl (Raise AttributeError "'dict' object has no attribute 'ndim'")).
Proof.
  intros Hext Hsio Hf. unfold load_activity.
  rewrite Hext. cbn [String.eqb Ascii.eqb Bool.eqb].
  rewrite (load_mat_scipy_value _ _ _ _ Hsio (pick_payload_reserved _ _ Hf)), bind_ret.
  reflexivity.
Qed.

(** [.mat], read by [scipy], one variable: the checks of lines 125-140
    reject the array before line 148 is reached. *)
Theorem plain_mat_array_is_checked w filename (d : dict) name (a : ndarray E) :
  snd (OsPath.splitext filename) = ".mat" ->
  sio_loadmat w filename = inr d ->
  filter (fun k => negb (is_reserved k)) (keys_of d) = [name] ->
  getitem d name = ret (PArr a) ->
  (ndim a = 1 ->
   load_activity w filename =
     ([loading filename],
      inl (Raise ValueError "ERROR: 1D array provided, but rastermap requires 2D array"))) /\
  (3 < ndim a ->
   load_activity w filename =
     ([loading filename],
      inl (Raise ValueError
             "ERROR: nD array provided (n>3), but rastermap requires 2D array"))) /\
  (forall N T, shape a = [N; T] -> N < 10 ->
   load_activity w filename =
     ([loading filename],
      inl (Raise ValueError "ERROR: matrix with fewer than 10 neurons provided"))) /\
  (forall N T C, shape a = [N; T; C] -> N < 10 ->
   load_activity w filename =
     ([loading filename; Warning flatten_warning],
      inl (Raise ValueError "ERROR: matrix with fewer than 10 neurons provided"))) /\
  (ndim a = 0 ->
   load_activity w filename =
     ([loading filename], inl (Raise IndexError "tuple index out of range"))).
Proof.
  intros Hext Hsio Hf Hget.
  assert (Hrun : load_activity w filename =
                 (print (String.append "Loading " filename) ;;;
                  X <- check_activity (OVal (PArr a)) ;;
                  xy <- read "xy" (@Unbound (@pyval E)) ;;
                  ret (Some (X, PNone, PNone, xy)))).
  { unfold load_activity. rewrite Hext. cbn [String.eqb Ascii.eqb Bool.eqb].
    rewrite (load_mat_scipy_value _ _ _ _ Hsio (pick_payload_single _ _ _ _ Hf Hget)).
    now rewrite bind_ret. }
  destruct (check_activity_rejects a) as (H1 & H4 & H2 & H3).
  repeat split.
  - intros Hn. now rewrite Hrun, (H1 Hn).
  - intros Hn. now rewrite Hrun, (H4 Hn).
  - intros N T Hs HN. now rewrite Hrun, (H2 N T Hs HN).
  - intros N T C Hs HN. now rewrite Hrun, (H3 N T C Hs HN).
  - intros Hn. rewrite Hrun. unfold check_activity, shape_first.
    unfold ndim in *. destruct (shape a); [| discriminate]. reflexivity.
Qed.

(** The readers' own errors reach the caller as they are, after the
    loading line; [scipy]'s [NotImplementedError] alone starts the
    fallback of lines 98-108. *)
Theorem reader_errors_propagate w filename (e : exn) :
  (snd (OsPath.splitext filename) = ".npy" \/ snd (OsPath.splitext filename) = ".npz" ->
   np_load w filename true = inl e ->
   load_activity w filename = ([loading filename], inl e)) /\
  (snd (OsPath.splitext filename) = ".mat" ->
   sio_loadmat w filename = inl e ->
   issubclass (exn_cls e) NotImplementedError = false ->
   load_activity w filename = ([loading filename], inl e)) /\
  (forall e0,
   snd (OsPath.splitext filename) = ".mat" ->
   sio_loadmat w filename = inl e0 ->
   issubclass (exn_cls e0) NotImplementedError = true ->
   mat73_installed w = true ->
   mat73_loadmat w filename = inl e ->
   load_activity w filename = ([loading filename], inl e)).
Proof.
  repeat split.
  - intros [Hext | Hext] Hload; unfold load_activity, load_npy, load_npz;
      rewrite Hext, Hload; reflexivity.
  - intros Hext Hsio Hsub. unfold load_activity, load_mat.
    rewrite Hext, Hsio, bind_error.
    erewrite (try_except_propagates _ _ _ [] e)
      by (first [reflexivity | unfold except_matches; cbn [existsb]; now rewrite Hsub]).
    reflexivity.
  - intros e0 Hext Hsio Hsub Hinst Hload. unfold load_activity, load_mat.
    rewrite Hext, Hsio, Hinst, Hload, bind_error.
    erewrite (try_except_handled _ _ _ [] e0)
      by (first [reflexivity | unfold except_matches; cbn [existsb]; now rewrite Hsub]).
    reflexivity.
Qed.

(** Lines 98-102: without [mat73] the advice to install it is printed, and
    the call then fails on the unbound name [mat73]. *)
Theorem missing_mat73_is_announced w filename (e : exn) :
  snd (OsPath.splitext filename) = ".mat" ->
  sio_loadmat w filename = inl e ->
  issubclass (exn_cls e) NotImplementedError = true ->
  mat73_installed w = false ->
  load_activity w filename =
    ([loading filename; Stdout "please 'pip install mat73'"],
     inl (Raise UnboundLocalError "mat73")).
Proof.
  intros Hext Hsio Hsub Hinst. unfold load_activity, load_mat.
  rewrite Hext, Hsio, Hinst, bind_error.
  erewrite (try_except_handled _ _ _ [] e)
    by (first [reflexivity | unfold except_matches; cbn [existsb]; now rewrite Hsub]).
  reflexivity.
Qed.

End DispatchProperties.

(** ** Mappings: what [load_activity] returns, lines 44-84 and 122-148 *)
Section MappingProperties.
Context {E : Type} `{Scalar E}.
Implicit Types (w : @world E) (filename : string) (dat : @dict E) (st : @locals E).

Lemma bind_ext {A B : Type} (m : M A) (k k' : A -> M B) :
  (forall a, k a = k' a) -> Py.bind m k = Py.bind m k'.
Proof.
  intros Hk. unfold Py.bind. destruct m as [l [e | a]]; [reflexivity |].
  now rewrite Hk.
Qed.

(** With [X] resolved, the call is the coordinate step followed by the
    checks on [X]. *)
Lemma load_activity_with_X w filename dat keys st (x : ndarray E) :
  reads_mapping w filename dat keys ->
  for_keys dat keys initial_locals = ret st ->
  l_X st = PArr x ->
  load_activity w filename =
    (print (String.append "Loading " filename) ;;;
     xy <- resolve_xy st ;;
     X' <- check_activity (OVal (PArr x)) ;;
     ret (Some (X', l_Usv st, l_Vsv st, xy))).
Proof.
  intros Hmap Hloop HX. rewrite (load_activity_mapping _ _ _ _ Hmap).
  unfold _load_dict. rewrite Hloop, bind_ret, HX. cbn [is_none].
  rewrite bind_ret, HX.
  rewrite (bind_map (resolve_xy st) (fun xy => (PArr x, l_Usv st, l_Vsv st, xy))).
  apply bind_ext. intros []. apply bind_ext. intros xy.
  unfold validate_and_return, frame_of_dict.
  cbn [f_X f_Usv f_Vsv f_xy obj_is_none andb negb read].
  apply bind_ext. intros X'. now rewrite bind_ret.
Qed.

(** Lines 45-58 touch [Sv], [Usv] and [Vsv] only. *)
Lemma derive_factors_frame st l st1 :
  derive_factors st = (l, inr st1) ->
  exists usv vsv sv,
    st1 = mk_locals (l_X st) usv vsv (l_U st) (l_V st) sv
                    (l_xpos st) (l_ypos st) (l_xy st) (l_other_keys st).
Proof.
  unfold derive_factors. intros Hrun.
  apply bind_inr in Hrun as (l1 & c1 & l2 & _ & Hrun & _).
  apply bind_inr in Hrun as (l3 & sta & l4 & Ha & Hrun & _).
  apply bind_inr in Hrun as (l5 & c3 & l6 & _ & Hrun & _).
  apply bind_inr in Hrun as (l7 & stb & l8 & Hb & Hrun & _).
  apply bind_inr in Hrun as (l9 & c4 & l10 & _ & Hc & _).
  assert (Hsta : exists sv, sta = mk_locals (l_X st) (l_Usv st) (l_Vsv st) (l_U st)
                                   (l_V st) sv (l_xpos st) (l_ypos st) (l_xy st)
                                   (l_other_keys st)).
  { destruct c1.
    - destruct (negb (is_none (l_Vsv st))); [| discriminate].
      apply bind_inr in Ha as (? & s & ? & _ & Ha & _).
      unfold ret in Ha. exists (Bound s). unfold set_Sv in Ha. congruence.
    - apply bind_inr in Ha as (? & c2 & ? & _ & Ha & _). destruct c2.
      + destruct (negb (is_none (l_Usv st))); [| discriminate].
        apply bind_inr in Ha as (? & s & ? & _ & Ha & _).
        unfold ret in Ha. exists (Bound s). unfold set_Sv in Ha. congruence.
      + unfold ret in Ha. exists (l_Sv st). destruct st. simpl in *. congruence. }
  destruct Hsta as [sv ->]. cbn [l_X l_Usv l_Vsv l_U l_V l_Sv l_xpos l_ypos l_xy
                                 l_other_keys] in *.
  assert (Hstb : exists usv, stb = mk_locals (l_X st) usv (l_Vsv st) (l_U st)
                                   (l_V st) sv (l_xpos st) (l_ypos st) (l_xy st)
                                   (l_other_keys st)).
  { destruct c3.
    - apply bind_inr in Hb as (? & u & ? & _ & Hb & _).
      apply bind_inr in Hb as (? & s & ? & _ & Hb & _).
      apply bind_inr in Hb as (? & r & ? & _ & Hb & _).
      unfold ret, set_Usv in Hb. cbn in Hb. exists r. congruence.
    - unfold ret in Hb. exists (l_Usv st). congruence. }
  destruct Hstb as [usv ->]. cbn [l_X l_Usv l_Vsv l_U l_V l_Sv l_xpos l_ypos l_xy
                                  l_other_keys] in *.
  destruct c4.
  - apply bind_inr in Hc as (? & v & ? & _ & Hc & _).
    apply bind_inr in Hc as (? & s & ? & _ & Hc & _).
    apply bind_inr in Hc as (? & r & ? & _ & Hc & _).
    unfold ret, set_Vsv in Hc. cbn in Hc. exists usv, r, sv. congruence.
  - unfold ret in Hc. exists usv, (l_Vsv st), sv. congruence.
Qed.

(** With both factors in the mapping, lines 45-58 change nothing and read
    none of [U], [V], [Sv]. *)
Lemma derive_factors_complete st (u v : ndarray E) :
  l_Usv st = PArr u -> l_Vsv st = PArr v -> derive_factors st = ret st.
Proof.
  intros HU HV. unfold derive_factors.
  repeat first
    [ progress cbn [is_none and_also negb]
    | progress rewrite ?bind_ret
    | progress rewrite ?HU, ?HV ].
  reflexivity.
Qed.

(** Without [X], after a derivation and a validation that succeed, the
    call is the coordinate step and the return of line 148. *)
Lemma load_activity_with_factors w filename dat keys st st1 :
  reads_mapping w filename dat keys ->
  for_keys dat keys initial_locals = ret st ->
  l_X st = PNone ->
  derive_factors st = ret st1 ->
  validate_factors st1 = ret tt ->
  load_activity w filename =
    (print (String.append "Loading " filename) ;;;
     xy <- resolve_xy st1 ;;
     ret (Some (PNone, l_Usv st1, l_Vsv st1, xy))).
Proof.
  intros Hmap Hloop HX Hderive Hvalid.
  rewrite (load_activity_mapping _ _ _ _ Hmap).
  unfold _load_dict. rewrite Hloop, bind_ret, HX. cbn [is_none].
  rewrite Hderive, bind_ret, Hvalid, !bind_ret.
  destruct (derive_factors_frame _ _ _ Hderive) as (usv & vsv & sv & Hst1).
  assert (HX1 : l_X st1 = PNone) by (rewrite Hst1; exact HX).
  destruct (validate_factors_value _ _ Hvalid) as (u & v & k & HU & HV & _).
  rewrite HX1, HU, HV.
  rewrite (bind_map (resolve_xy st1) (fun xy => (PNone, PArr u, PArr v, xy))).
  apply bind_ext. intros []. apply bind_ext. intros xy.
  unfold validate_and_return, frame_of_dict.
  cbn [f_X f_Usv f_Vsv f_xy obj_is_none andb negb read is_none orb].
  now rewrite !bind_ret.
Qed.

(** *** The coordinate step, lines 67-82 *)

Lemma resolve_xy_absent st :
  l_xpos st = PNone -> l_xy st = PNone -> resolve_xy st = ret PNone.
Proof.
  intros Hxpos Hxy. unfold resolve_xy. rewrite Hxpos, Hxy.
  cbn [is_none negb andb]. now rewrite bind_ret.
Qed.

Lemma resolve_xy_wrong_rank st (c : ndarray E) :
  l_xy st = PArr c -> ndim c <> 2 ->
  resolve_xy st = ([Stdout xy_rank_notice], inr PNone).
Proof.
  intros Hxy Hrank. unfold resolve_xy. rewrite Hxy.
  cbn [is_none negb andb]. rewrite andb_false_r, bind_ret.
  apply Nat.eqb_neq in Hrank. rewrite Hrank. reflexivity.
Qed.

(** Coordinates given under [xy] or [xyz] win over [xpos]/[ypos]; when
    2-D they are oriented and compared with the activity. *)
Lemma resolve_xy_given st (c : ndarray E) r q :
  l_xy st = PArr c -> shape c = [r; q] ->
  resolve_xy st = rows_agree st (orient c).
Proof.
  intros Hxy Hshape. unfold resolve_xy, rows_agree, orient. rewrite Hxy, Hshape.
  cbn [is_none negb andb]. rewrite andb_false_r, bind_ret.
  unfold ndim, shape_first at 1. rewrite Hshape.
  cbn [List.length Nat.eqb negb]. rewrite bind_ret.
  destruct ((r =? 2) || (r =? 3)); rewrite bind_ret; reflexivity.
Qed.

(** The orientation of a 2-D array and its number of rows. *)
Lemma orient_rows (c : ndarray E) r q :
  shape c = [r; q] ->
  shape_first (orient c) = ret (if (r =? 2) || (r =? 3) then q else r).
Proof.
  intros Hshape. unfold orient, transpose, shape_first. rewrite Hshape.
  destruct ((r =? 2) || (r =? 3)); cbn [shape]; [reflexivity |].
  now rewrite Hshape.
Qed.

Lemma rows_agree_mismatch_with_X st (x c : ndarray E) n rx m :
  l_X st = PArr x -> shape x = n :: rx -> shape_first c = ret m -> n <> m ->
  rows_agree st c = ([Stdout xy_size_notice], inr PNone).
Proof.
  intros HX Hx Hc Hne. unfold rows_agree. rewrite HX.
  cbn [is_none negb and_also as_array]. rewrite bind_ret.
  unfold shape_first at 1. rewrite Hx, bind_ret, Hc, bind_ret.
  apply Nat.eqb_neq in Hne. rewrite Hne. cbn [negb]. rewrite !bind_ret.
  reflexivity.
Qed.

Lemma rows_agree_match st (u c : ndarray E) n ru :
  (l_X st = PNone \/ exists x rx, l_X st = PArr x /\ shape x = n :: rx) ->
  l_Usv st = PArr u -> shape u = n :: ru -> shape_first c = ret n ->
  rows_agree st c = ret (PArr c).
Proof.
  intros HX HU Hu Hc. unfold rows_agree. rewrite HU. cbn [as_array].
  assert (Hd : and_also (negb (is_none (l_X st)))
                 (x <- as_array (l_X st) "'shape'" ;;
                  nx <- shape_first x ;;
                  nc <- shape_first c ;;
                  ret (negb (nx =? nc))) = ret false).
  { destruct HX as [-> | (x & rx & -> & Hx)]; [reflexivity |].
    cbn [is_none negb and_also as_array]. rewrite bind_ret.
    unfold shape_first at 1. rewrite Hx, bind_ret, Hc, bind_ret.
    now rewrite Nat.eqb_refl. }
  rewrite Hd, !bind_ret. unfold shape_first at 1. rewrite Hu, bind_ret, Hc, bind_ret.
  rewrite Nat.eqb_refl. cbn [negb]. now rewrite bind_ret.
Qed.

Lemma rows_agree_mismatch_with_Usv st (u c : ndarray E) n ru m :
  l_X st = PNone -> l_Usv st = PArr u -> shape u = n :: ru ->
  shape_first c = ret m -> n <> m ->
  rows_agree st c = ([Stdout xy_size_notice], inr PNone).
Proof.
  intros HX HU Hu Hc Hne. unfold rows_agree. rewrite HX, HU.
  cbn [is_none negb and_also as_array]. rewrite !bind_ret.
  unfold shape_first at 1. rewrite Hu, bind_ret, Hc, bind_ret.
  apply Nat.eqb_neq in Hne. rewrite Hne. cbn [negb]. rewrite !bind_ret.
  reflexivity.
Qed.

(** [xpos] and [ypos] of one length are stacked into one row per unit. *)
Lemma resolve_xy_stacked st (xp yp : ndarray E) n :
  l_xy st = PNone -> l_xpos st = PArr xp -> l_ypos st = PArr yp ->
  shape xp = [n] -> shape yp = [n] ->
  exists c, stack_axis1 xp yp = ret c /\ shape c = [n; 2] /\
            resolve_xy st = rows_agree st (orient c).
Proof.
  intros Hxy Hxp Hyp Hsx Hsy. unfold resolve_xy. rewrite Hxy, Hxp, Hyp.
  cbn [is_none negb andb stack_operand]. unfold stack_axis1.
  rewrite Hsx, Hsy, shape_eqb_refl. cbn [negb].
  eexists. split; [reflexivity |]. split; [reflexivity |].
  rewrite !bind_ret. unfold ndim, shape_first at 1, rows_agree, orient.
  cbn [shape List.length Nat.eqb negb]. rewrite bind_ret.
  destruct ((n =? 2) || (n =? 3)); rewrite bind_ret; reflexivity.
Qed.

Lemma validate_factors_ok st (u v : ndarray E) k :
  l_Usv st = PArr u -> l_Vsv st = PArr v ->
  shape_last u = ret k -> shape_last v = ret k ->
  ndim u <= 3 -> ndim v = 2 ->
  validate_factors st = ret tt.
Proof.
  intros HU HV Hu Hv Hru Hrv. unfold validate_factors. rewrite HU, HV.
  cbn [as_array]. rewrite bind_ret, Hu, !bind_ret, Hv, bind_ret, Nat.eqb_refl.
  cbn [negb]. apply Nat.ltb_ge in Hru. rewrite Hru, Hrv. reflexivity.
Qed.

(** *** Factor pairs *)

(** A mapping without [X] that holds [Usv] of rank 1 to 3 and a 2-D [Vsv]
    with the same trailing dimension is returned as [(None, Usv, Vsv,
    None)], both factors untouched; no lower bound on the number of units
    applies on this path, and [U], [V], [Sv] are not consulted. *)
Theorem complete_factor_pair_is_returned w filename dat keys st (u v : ndarray E) k :
  reads_mapping w filename dat keys ->
  for_keys dat keys initial_locals = ret st ->
  l_X st = PNone -> l_Usv st = PArr u -> l_Vsv st = PArr v ->
  shape_last u = ret k -> shape_last v = ret k ->
  ndim u <= 3 -> ndim v = 2 ->
  l_xpos st = PNone -> l_xy st = PNone ->
  load_activity w filename =
    ([loading filename], inr (Some (PNone, PArr u, PArr v, PNone))).
Proof.
  intros Hmap Hloop HX HU HV Hu Hv Hru Hrv Hxpos Hxy.
  rewrite (load_activity_with_factors _ _ _ _ st st Hmap Hloop HX
             (derive_factors_complete _ _ _ HU HV)
             (validate_factors_ok _ _ _ _ HU HV Hu Hv Hru Hrv)).
  rewrite (resolve_xy_absent _ Hxpos Hxy), bind_ret, HU, HV. reflexivity.
Qed.

(** Coordinates beside a factor pair: 2-D coordinates are oriented (two
    or three rows are transposed) and returned when they have one row per
    row of [Usv]; otherwise they are dropped with a notice and the factors
    are still returned. *)
Theorem factor_coordinates_follow_Usv w filename dat keys st
    (u v c : ndarray E) k n ru r q :
  reads_mapping w filename dat keys ->
  for_keys dat keys initial_locals = ret st ->
  l_X st = PNone -> l_Usv st = PArr u -> l_Vsv st = PArr v ->
  shape_last u = ret k -> shape_last v = ret k ->
  ndim u <= 3 -> ndim v = 2 ->
  shape u = n :: ru ->
  l_xy st = PArr c -> shape c = [r; q] ->
  ((if (r =? 2) || (r =? 3) then q else r) = n ->
   load_activity w filename =
     ([loading filename], inr (Some (PNone, PArr u, PArr v, PArr (orient c))))) /\
  ((if (r =? 2) || (r =? 3) then q else r) <> n ->
   load_activity w filename =
     ([loading filename; Stdout xy_size_notice],
      inr (Some (PNone, PArr u, PArr v, PNone)))).
Proof.
  intros Hmap Hloop HX HU HV Hu Hv Hru Hrv Hsu Hxy Hsc.
  rewrite (load_activity_with_factors _ _ _ _ st st Hmap Hloop HX
             (derive_factors_complete _ _ _ HU HV)
             (validate_factors_ok _ _ _ _ HU HV Hu Hv Hru Hrv)).
  rewrite (resolve_xy_given _ _ _ _ Hxy Hsc), HU, HV.
  pose proof (orient_rows c r q Hsc) as Hrows.
  split; intros Hn.
  - rewrite Hn in Hrows.
    rewrite (rows_agree_match st u (orient c) n ru (or_introl HX) HU Hsu Hrows).
    now rewrite bind_ret.
  - rewrite (rows_agree_mismatch_with_Usv st u (orient c) n ru _ HX HU Hsu Hrows);
      [reflexivity | congruence].
Qed.

(** *** Activity with coordinates *)

(** Coordinates beside [X] (2-D, ten rows or more): when their rows, after
    orientation, differ from those of [X] they are dropped with a notice
    and [X] is returned, whether or not there is a [Usv]; when they agree
    and a [Usv] with the same rows is there too, they are returned. *)
Theorem activity_coordinates_follow_X w filename dat keys st (x c : ndarray E) N T r q :
  reads_mapping w filename dat keys ->
  for_keys dat keys initial_locals = ret st ->
  l_X st = PArr x -> shape x = [N; T] -> 10 <= N ->
  l_xy st = PArr c -> shape c = [r; q] ->
  ((if (r =? 2) || (r =? 3) then q else r) <> N ->
   load_activity w filename =
     ([loading filename; Stdout xy_size_notice],
      inr (Some (PArr x, l_Usv st, l_Vsv st, PNone)))) /\
  (forall (u : ndarray E) ru,
   (if (r =? 2) || (r =? 3) then q else r) = N ->
   l_Usv st = PArr u -> shape u = N :: ru ->
   load_activity w filename =
     ([loading filename], inr (Some (PArr x, PArr u, l_Vsv st, PArr (orient c))))).
Proof.
  intros Hmap Hloop HX Hsx HN Hxy Hsc.
  rewrite (load_activity_with_X _ _ _ _ _ _ Hmap Hloop HX).
  rewrite (resolve_xy_given _ _ _ _ Hxy Hsc).
  rewrite (check_activity_2d x N T Hsx HN).
  pose proof (orient_rows c r q Hsc) as Hrows.
  split.
  - intros Hn.
    rewrite (rows_agree_mismatch_with_X st x (orient c) N [T] _ HX Hsx Hrows);
      [reflexivity | congruence].
  - intros u ru Hn HU Hsu. rewrite Hn in Hrows.
    rewrite (rows_agree_match st u (orient c) N ru
               (or_intror (ex_intro _ x (ex_intro _ [T] (conj HX Hsx)))) HU Hsu Hrows).
    rewrite !bind_ret, HU. reflexivity.
Qed.

(** [xpos] and [ypos] of one common length other than the rows of [X]
    are dropped with a notice, and [X] is returned. *)
Theorem mismatched_positions_are_dropped w filename dat keys st
    (x xp yp : ndarray E) N T m :
  reads_mapping w filename dat keys ->
  for_keys dat keys initial_locals = ret st ->
  l_X st = PArr x -> shape x = [N; T] -> 10 <= N ->
  l_xy st = PNone -> l_xpos st = PArr xp -> l_ypos st = PArr yp ->
  shape xp = [m] -> shape yp = [m] -> m <> N ->
  load_activity w filename =
    ([loading filename; Stdout xy_size_notice],
     inr (Some (PArr x, l_Usv st, l_Vsv st, PNone))).
Proof.
  intros Hmap Hloop HX Hsx HN Hxy Hxp Hyp Hsxp Hsyp Hne.
  rewrite (load_activity_with_X _ _ _ _ _ _ Hmap Hloop HX).
  destruct (resolve_xy_stacked st xp yp m Hxy Hxp Hyp Hsxp Hsyp) as (c & _ & Hsc & ->).
  rewrite (check_activity_2d x N T Hsx HN).
  pose proof (orient_rows c m 2 Hsc) as Hrows.
  rewrite (rows_agree_mismatch_with_X st x (orient c) N [T] _ HX Hsx Hrows);
    [reflexivity |].
  destruct (Nat.eqb_spec m 2); [simpl; lia |].
  destruct (Nat.eqb_spec m 3); [simpl; lia |]. simpl. congruence.
Qed.

(** Coordinates under [xy]/[xyz] that are not 2-D are dropped with the
    notice of line 72; [X] is returned, and [xpos]/[ypos] are not used in
    their place. *)
Theorem misshapen_coordinates_are_dropped w filename dat keys st (x c : ndarray E) N T :
  reads_mapping w filename dat keys ->
  for_keys dat keys initial_locals = ret st ->
  l_X st = PArr x -> shape x = [N; T] -> 10 <= N ->
  l_xy st = PArr c -> ndim c <> 2 ->
  load_activity w filename =
    ([loading filename; Stdout xy_rank_notice],
     inr (Some (PArr x, l_Usv st, l_Vsv st, PNone))).
Proof.
  intros Hmap Hloop HX Hsx HN Hxy Hrank.
  rewrite (load_activity_with_X _ _ _ _ _ _ Hmap Hloop HX).
  rewrite (resolve_xy_wrong_rank _ _ Hxy Hrank), (check_activity_2d x N T Hsx HN).
  reflexivity.
Qed.

(** [xpos] without [ypos] (and without [xy]) is fatal: [np.stack] refuses
    the pair at line 68.  [ypos] without [xpos] is ignored. *)
Theorem positions_need_both_vectors w filename dat keys st (x : ndarray E) N T :
  reads_mapping w filename dat keys ->
  for_keys dat keys initial_locals = ret st ->
  l_X st = PArr x -> shape x = [N; T] -> 10 <= N ->
  l_xy st = PNone ->
  (forall (xp : ndarray E) n rest,
   l_xpos st = PArr xp -> shape xp = n :: rest -> l_ypos st = PNone ->
   load_activity w filename =
     ([loading filename],
      inl (Raise ValueError "all input arrays must have the same shape"))) /\
  (l_xpos st = PNone ->
   load_activity w filename =
     ([loading filename], inr (Some (PArr x, l_Usv st, l_Vsv st, PNone)))).
Proof.
  intros Hmap Hloop HX Hsx HN Hxy.
  rewrite (load_activity_with_X _ _ _ _ _ _ Hmap Hloop HX).
  split.
  - intros xp n rest Hxp Hsxp Hyp. unfold resolve_xy. rewrite Hxp, Hyp, Hxy.
    cbn [is_none negb andb stack_operand]. unfold stack_axis1. rewrite Hsxp.
    reflexivity.
  - intros Hxp. rewrite (resolve_xy_absent _ Hxp Hxy), (check_activity_2d x N T Hsx HN).
    reflexivity.
Qed.

(** *** Activity stored under a key *)

(** A 3-D [X] of ten rows or more stored under its key is announced,
    flattened row by row to [(N, T*C)] with its elements in the same
    order, and returned with the [Usv]/[Vsv] entries. *)
Theorem keyed_3d_activity_is_returned_flat w filename dat keys st (x : ndarray E) N T C :
  reads_mapping w filename dat keys ->
  for_keys dat keys initial_locals = ret st ->
  l_X st = PArr x -> shape x = [N; T; C] -> 10 <= N ->
  l_xpos st = PNone -> l_xy st = PNone ->
  load_activity w filename =
    ([loading filename; Warning flatten_warning; Stdout (flatten_notice N T C)],
     inr (Some (PArr (mk_ndarray [N; T * C] (data x)), l_Usv st, l_Vsv st, PNone))).
Proof.
  intros Hmap Hloop HX Hsx HN Hxpos Hxy.
  rewrite (load_activity_with_X _ _ _ _ _ _ Hmap Hloop HX).
  rewrite (resolve_xy_absent _ Hxpos Hxy), (check_activity_3d x N T C Hsx HN).
  reflexivity.
Qed.

(** An [X] stored under its key is rejected like a plain one: 1-D, more
    than 3-D, 0-D, or fewer than ten rows. *)
Theorem keyed_activity_is_checked w filename dat keys st (x : ndarray E) :
  reads_mapping w filename dat keys ->
  for_keys dat keys initial_locals = ret st ->
  l_X st = PArr x ->
  l_xpos st = PNone -> l_xy st = PNone ->
  (ndim x = 1 ->
   load_activity w filename =
     ([loading filename],
      inl (Raise ValueError "ERROR: 1D array provided, but rastermap requires 2D array"))) /\
  (3 < ndim x ->
   load_activity w filename =
     ([loading filename],
      inl (Raise ValueError
             "ERROR: nD array provided (n>3), but rastermap requires 2D array"))) /\
  (forall N T, shape x = [N; T] -> N < 10 ->
   load_activity w filename =
     ([loading filename],
      inl (Raise ValueError "ERROR: matrix with fewer than 10 neurons provided"))) /\
  (forall N T C, shape x = [N; T; C] -> N < 10 ->
   load_activity w filename =
     ([loading filename; Warning flatten_warning],
      inl (Raise ValueError "ERROR: matrix with fewer than 10 neurons provided"))) /\
  (ndim x = 0 ->
   load_activity w filename =
     ([loading filename], inl (Raise IndexError "tuple index out of range"))).
Proof.
  intros Hmap Hloop HX Hxpos Hxy.
  rewrite (load_activity_with_X _ _ _ _ _ _ Hmap Hloop HX).
  rewrite (resolve_xy_absent _ Hxpos Hxy), bind_ret.
  destruct (check_activity_rejects x) as (H1 & H4 & H2 & H3).
  repeat split.
  - intros Hn. now rewrite (H1 Hn).
  - intros Hn. now rewrite (H4 Hn).
  - intros N T Hs HN. now rewrite (H2 N T Hs HN).
  - intros N T C Hs HN. now rewrite (H3 N T C Hs HN).
  - intros Hn. unfold check_activity, shape_first.
    unfold ndim in *. destruct (shape x); [| discriminate]. reflexivity.
Qed.

End MappingProperties.

(** ** Broadcasting a vector over the rows of a matrix *)
Section Broadcasting.
Context {E : Type} `{Scalar E}.

Lemma chunks_lengths {A : Type} (n k : nat) : forall (l : list A),
  List.length l = n * k -> Forall (fun c => List.length c = k) (chunks n k l).
Proof.
  induction n as [| n IH]; intros l Hl; simpl; constructor.
  - rewrite length_firstn. simpl in Hl. lia.
  - apply IH. rewrite length_skipn. simpl in Hl. lia.
Qed.

Lemma broadcast_mul_vectors (k : nat) : forall (l1 l2 : list E),
  List.length l1 = k -> List.length l2 = k ->
  broadcast_mul [k] [k] l1 l2 = Some (zip_with s_mul l1 l2).
Proof.
  cbn [broadcast_mul]. rewrite Nat.eqb_refl. cbn [prod fold_right].
  induction k as [| k IH]; intros l1 l2 H1 H2.
  - destruct l1, l2; try discriminate. reflexivity.
  - destruct l1 as [| x l1], l2 as [| y l2]; try discriminate.
    cbn [chunks firstn skipn combine fold_right fst snd zip_with].
    injection H1 as H1. injection H2 as H2. rewrite (IH l1 l2 H1 H2).
    reflexivity.
Qed.

Lemma broadcast_mul_rows (k : nat) (s : list E) (rows : list (list E)) :
  List.length s = k ->
  Forall (fun c => List.length c = k) rows ->
  fold_right (fun p acc =>
                match broadcast_mul [k] [k] (fst p) (snd p), acc with
                | Some x, Some xs => Some (x ++ xs)
                | _, _ => None
                end) (Some []) (map (fun c1 => (c1, s)) rows)
  = Some (List.concat (map (fun row => zip_with s_mul row s) rows)).
Proof.
  intros Hs Hrows. induction Hrows as [| row rows Hrow _ IH]; [reflexivity |].
  cbn [map fold_right fst snd List.concat]. rewrite IH.
  now rewrite (broadcast_mul_vectors k row s Hrow Hs).
Qed.

(** [a * s] for a matrix [a] of shape [(N, k)] and a vector [s] of length
    [k]: column [j] of [a] is multiplied by [s[j]]. *)
Lemma multiply_columns (a s : ndarray E) (N k : nat) :
  shape a = [N; k] -> shape s = [k] ->
  List.length (data a) = N * k -> List.length (data s) = k ->
  multiply a s = ret (mk_ndarray [N; k] (scale_columns N k (data a) (data s))).
Proof.
  intros Ha Hs Hda Hds. unfold multiply, ndim, pad_shape. rewrite Ha, Hs.
  cbn [List.length Nat.max Nat.sub repeat app broadcast_shape].
  rewrite Nat.eqb_refl.
  assert (Hshape : (if N =? 1 then Some [N; k]
                    else if N =? 1 then Some [1; k]
                    else if 1 =? 1 then Some [N; k] else None) = Some [N; k]).
  { destruct (N =? 1); reflexivity. }
  rewrite Hshape. cbn [broadcast_mul prod fold_right]. rewrite Nat.mul_1_r.
  assert (Hblocks : (if N =? 1
                     then Some (combine (chunks N k (data a)) (chunks 1 k (data s)))
                     else if N =? 1
                          then Some (map (fun c2 => (data a, c2)) (chunks 1 k (data s)))
                          else if 1 =? 1
                               then Some (map (fun c1 => (c1, data s))
                                            (chunks N k (data a)))
                               else None)
                    = Some (map (fun c1 => (c1, data s)) (chunks N k (data a)))).
  { destruct (Nat.eqb_spec N 1) as [-> | _]; [| reflexivity].
    cbn [chunks combine map]. rewrite (firstn_all2 (n := k) (data s)) by lia.
    reflexivity. }
  rewrite Hblocks.
  pose proof (broadcast_mul_rows k (data s) (chunks N k (data a)) Hds
                (chunks_lengths N k (data a) Hda)) as Hrows.
  cbn [broadcast_mul prod fold_right] in Hrows. rewrite Hrows. reflexivity.
Qed.

End Broadcasting.

(** ** Scaling the unscaled factors, lines 45-58 *)
Section ScalingProperties.
Context {E : Type} `{Scalar E}.
Implicit Types (w : @world E) (filename : string) (dat : @dict E) (st : @locals E).

Lemma shape_last_matrix {A : Type} (a : ndarray A) N k :
  shape a = [N; k] -> shape_last a = ret k.
Proof. intros Hs. unfold shape_last. now rewrite Hs. Qed.

Lemma zip_with_length (f : E -> E -> E) (k : nat) : forall l1 l2,
  List.length l1 = k -> List.length l2 = k -> List.length (zip_with f l1 l2) = k.
Proof.
  induction k as [| k IH]; intros [| x l1] [| y l2] H1 H2; try discriminate;
    [reflexivity |].
  simpl. f_equal. apply IH; [now injection H1 | now injection H2].
Qed.

(** The sums of the columns of a [(T, k)] matrix: one entry per column. *)
Lemma sum_axis0_matrix (a : ndarray E) T k :
  shape a = [T; k] -> List.length (data a) = T * k ->
  exists d, sum_axis0 a = ret (mk_ndarray [k] d) /\ List.length d = k.
Proof.
  intros Hs Hd. unfold sum_axis0. rewrite Hs. cbn [prod fold_right].
  rewrite Nat.mul_1_r. eexists. split; [reflexivity |].
  pose proof (chunks_lengths T k (data a) Hd) as Hrows.
  destruct (chunks T k (data a)) as [| r rows]; [apply repeat_length |].
  apply Forall_cons_iff in Hrows as [Hr Hrest].
  revert r Hr. induction Hrest as [| row rows Hrow _ IH]; intros r Hr; [exact Hr |].
  cbn [fold_left]. apply IH. now apply zip_with_length.
Qed.

(** [U] (or [U0]) with explicit singular values: [Usv] is [U] with column
    [j] multiplied by [Sv[j]]; [Vsv] is returned as given. *)
Theorem explicit_scaling_scales_U w filename dat keys st (u0 s v : ndarray E) N T k :
  reads_mapping w filename dat keys ->
  for_keys dat keys initial_locals = ret st ->
  l_X st = PNone -> l_Usv st = PNone ->
  l_U st = Bound (PArr u0) -> l_Sv st = Bound (PArr s) -> l_Vsv st = PArr v ->
  shape u0 = [N; k] -> List.length (data u0) = N * k ->
  shape s = [k] -> List.length (data s) = k ->
  shape v = [T; k] ->
  l_xpos st = PNone -> l_xy st = PNone ->
  load_activity w filename =
    ([loading filename],
     inr (Some (PNone,
                PArr (mk_ndarray [N; k] (scale_columns N k (data u0) (data s))),
                PArr v, PNone))).
Proof.
  intros Hmap Hloop HX HUsv HU HSv HVsv Hsu Hdu Hss Hds Hsv Hxpos Hxy.
  assert (Hderive : derive_factors st =
            ret (set_Usv st (PArr (mk_ndarray [N; k]
                                     (scale_columns N k (data u0) (data s)))))).
  { unfold derive_factors.
    repeat first
      [ progress cbn [is_none and_also negb read times l_Usv l_Vsv l_U l_V l_Sv set_Usv]
      | progress rewrite ?bind_ret
      | progress rewrite ?HUsv, ?HU, ?HSv, ?HVsv
      | progress rewrite (multiply_columns u0 s N k Hsu Hss Hdu Hds) ].
    reflexivity. }
  rewrite (load_activity_with_factors _ _ _ _ st _ Hmap Hloop HX Hderive).
  - rewrite resolve_xy_absent by assumption. cbn [l_Usv l_Vsv set_Usv].
    now rewrite bind_ret, HVsv.
  - eapply validate_factors_ok with (k := k); cbn [l_Usv l_Vsv set_Usv];
      try reflexivity; try eassumption.
    + now apply shape_last_matrix with (N := T).
    + unfold ndim. cbn. lia.
    + unfold ndim. now rewrite Hsv.
Qed.

(** [V] (or [V0]) with explicit singular values, beside a given [Usv]:
    [Vsv] is [V] with column [j] multiplied by [Sv[j]]. *)
Theorem explicit_scaling_scales_V w filename dat keys st (u v0 s : ndarray E) N T k :
  reads_mapping w filename dat keys ->
  for_keys dat keys initial_locals = ret st ->
  l_X st = PNone -> l_Vsv st = PNone ->
  l_V st = Bound (PArr v0) -> l_Sv st = Bound (PArr s) -> l_Usv st = PArr u ->
  shape v0 = [T; k] -> List.length (data v0) = T * k ->
  shape s = [k] -> List.length (data s) = k ->
  shape u = [N; k] ->
  l_xpos st = PNone -> l_xy st = PNone ->
  load_activity w filename =
    ([loading filename],
     inr (Some (PNone, PArr u,
                PArr (mk_ndarray [T; k] (scale_columns T k (data v0) (data s))),
                PNone))).
Proof.
  intros Hmap Hloop HX HVsv HV HSv HUsv Hsv Hdv Hss Hds Hsu Hxpos Hxy.
  assert (Hderive : derive_factors st =
            ret (set_Vsv st (PArr (mk_ndarray [T; k]
                                     (scale_columns T k (data v0) (data s)))))).
  { unfold derive_factors.
    repeat first
      [ progress cbn [is_none and_also negb read times l_Usv l_Vsv l_U l_V l_Sv set_Vsv]
      | progress rewrite ?bind_ret
      | progress rewrite ?HUsv, ?HV, ?HSv, ?HVsv
      | progress rewrite (multiply_columns v0 s T k Hsv Hss Hdv Hds) ].
    reflexivity. }
  rewrite (load_activity_with_factors _ _ _ _ st _ Hmap Hloop HX Hderive).
  - rewrite resolve_xy_absent by assumption. cbn [l_Usv l_Vsv set_Vsv].
    now rewrite bind_ret, HUsv.
  - eapply validate_factors_ok with (k := k); cbn [l_Usv l_Vsv set_Vsv];
      try reflexivity; try eassumption.
    + now apply shape_last_matrix with (N := N).
    + unfold ndim. rewrite Hsu. cbn. lia.
Qed.

(** An [Sv] entry that is [None] (a pickled dictionary can hold one)
    stands for "derive it": with [U] and [Vsv], [Sv] becomes the column
    norms of [Vsv] and [Usv] is [U] scaled by them. *)
Theorem null_scaling_is_derived_from_Vsv w filename dat keys st (u0 v : ndarray E) N T k :
  reads_mapping w filename dat keys ->
  for_keys dat keys initial_locals = ret st ->
  l_X st = PNone -> l_Usv st = PNone ->
  l_U st = Bound (PArr u0) -> l_Sv st = Bound PNone -> l_Vsv st = PArr v ->
  shape u0 = [N; k] -> List.length (data u0) = N * k ->
  shape v = [T; k] -> List.length (data v) = T * k ->
  l_xpos st = PNone -> l_xy st = PNone ->
  exists sums,
    sum_axis0 (square v) = ret (mk_ndarray [k] sums) /\
    load_activity w filename =
      ([loading filename],
       inr (Some (PNone,
                  PArr (mk_ndarray [N; k]
                          (scale_columns N k (data u0) (map s_root sums))),
                  PArr v, PNone))).
Proof.
  intros Hmap Hloop HX HUsv HU HSv HVsv Hsu Hdu Hsv Hdv Hxpos Hxy.
  destruct (sum_axis0_matrix (square v) T k) as (sums & Hsums & Hlen).
  { exact Hsv. }
  { unfold square, astype. cbn [data]. now rewrite length_map. }
  exists sums. split; [exact Hsums |].
  assert (Hmul : multiply u0 (root (mk_ndarray [k] sums)) =
                 ret (mk_ndarray [N; k]
                        (scale_columns N k (data u0) (map s_root sums)))).
  { apply multiply_columns; try assumption; try reflexivity.
    unfold root, astype. cbn [data]. now rewrite length_map. }
  assert (Hderive : derive_factors st =
            ret (set_Usv (set_Sv st (PArr (root (mk_ndarray [k] sums))))
                   (PArr (mk_ndarray [N; k]
                            (scale_columns N k (data u0) (map s_root sums)))))).
  { unfold derive_factors.
    repeat first
      [ progress cbn [is_none and_also negb read times column_norms
                      l_Usv l_Vsv l_U l_V l_Sv set_Usv set_Sv]
      | progress rewrite ?bind_ret
      | progress rewrite ?HUsv, ?HU, ?HSv, ?HVsv
      | progress rewrite Hsums
      | progress rewrite Hmul ].
    reflexivity. }
  rewrite (load_activity_with_factors _ _ _ _ st _ Hmap Hloop HX Hderive).
  - rewrite resolve_xy_absent by assumption. cbn [l_Usv l_Vsv set_Usv set_Sv].
    now rewrite bind_ret, HVsv.
  - eapply validate_factors_ok with (k := k); cbn [l_Usv l_Vsv set_Usv set_Sv];
      try reflexivity; try eassumption.
    + now apply shape_last_matrix with (N := T).
    + unfold ndim. cbn. lia.
    + unfold ndim. now rewrite Hsv.
Qed.

(** The error of lines 49 and 54 needs an [Sv] entry that is [None]: with
    it, an unscaled factor whose opposite scaled factor is missing is
    reported as "no Sv scaling for PCs available". *)
Theorem null_scaling_without_opposite_is_reported w filename dat keys st :
  reads_mapping w filename dat keys ->
  for_keys dat keys initial_locals = ret st ->
  l_X st = PNone -> l_Usv st = PNone -> l_Vsv st = PNone ->
  l_Sv st = Bound PNone ->
  (exists u0 : ndarray E, l_U st = Bound (PArr u0)) \/
  (l_U st = Bound PNone /\ exists v0 : ndarray E, l_V st = Bound (PArr v0)) ->
  load_activity w filename =
    ([loading filename], inl (Raise ValueError "no Sv scaling for PCs available")).
Proof.
  intros Hmap Hloop HX HUsv HVsv HSv Hfactor.
  rewrite (load_activity_mapping _ _ _ _ Hmap).
  unfold _load_dict. rewrite Hloop, bind_ret, HX. cbn [is_none].
  assert (Hderive : derive_factors st =
                    raise ValueError "no Sv scaling for PCs available").
  { unfold derive_factors.
    destruct Hfactor as [(u0 & HU) | (HU & v0 & HV)];
      repeat first
        [ progress cbn [is_none and_also negb read]
        | progress rewrite ?bind_ret
        | progress rewrite ?HUsv, ?HU, ?HSv, ?HVsv, ?HV ];
      reflexivity. }
  rewrite Hderive. reflexivity.
Qed.

End ScalingProperties.

(** ** The sibling lookups, lines 150-171 *)
Section SiblingProperties.
Context {E : Type} `{Scalar E}.
Implicit Types (w : @world E) (filename : string).

(** [rfind] does not depend on where the count starts. *)
Lemma rfind_from_none (c : ascii) (p : string) : forall i j,
  OsPath.rfind_from c p i = None -> OsPath.rfind_from c p j = None.
Proof.
  induction p as [| a r IH]; intros i j; simpl; [reflexivity |].
  destruct (OsPath.rfind_from c r (S i)) eqn:Hr; [discriminate |].
  rewrite (IH _ (S j) Hr). now destruct (Ascii.eqb a c).
Qed.

Lemma rfind_from_last (c : ascii) (base : string) : forall (dir : string) i,
  OsPath.rfind c base = None ->
  OsPath.rfind_from c (String.append dir (String c base)) i
  = Some (i + String.length dir).
Proof.
  intros dir i Hbase. revert i. induction dir as [| a r IH]; intros i; simpl.
  - rewrite (rfind_from_none c base 0 (S i) Hbase), Ascii.eqb_refl.
    f_equal. lia.
  - rewrite IH. f_equal. lia.
Qed.

Lemma rstrip_separator (dir : string) :
  dir <> EmptyString -> OsPath.ends_with "/" dir = false ->
  OsPath.rstrip "/" (String.append dir "/") = dir.
Proof.
  induction dir as [| a r IH]; intros Hne Hend; [congruence |].
  destruct r as [| b r'].
  - simpl in *. now rewrite Hend.
  - change (String.append (String a (String b r')) "/")
      with (String a (String.append (String b r') "/")).
    cbn [OsPath.rstrip]. rewrite IH; [reflexivity | discriminate | exact Hend].
Qed.

Lemma all_char_separator (dir : string) :
  dir <> EmptyString -> OsPath.ends_with "/" dir = false ->
  OsPath.all_char "/" (String.append dir "/") = false.
Proof.
  induction dir as [| a r IH]; intros Hne Hend; [congruence |].
  destruct r as [| b r'].
  - simpl in *. now rewrite Hend.
  - change (String.append (String a (String b r')) "/")
      with (String a (String.append (String b r') "/")).
    cbn [OsPath.all_char]. rewrite IH; [apply andb_false_r | discriminate | exact Hend].
Qed.

(** The directory part of [dir/base]. *)
Lemma split_directory (dir base : string) :
  dir <> EmptyString -> OsPath.ends_with "/" dir = false ->
  OsPath.rfind "/" base = None ->
  fst (OsPath.split (String.append dir (String "/" base))) = dir.
Proof.
  intros Hne Hend Hbase. unfold OsPath.split, OsPath.rfind.
  rewrite (rfind_from_last "/" base dir 0 Hbase). cbn [fst Nat.add].
  assert (Htake : OsPath.take (S (String.length dir))
                    (String.append dir (String "/" base))
                  = String.append dir "/").
  { clear. induction dir as [| a r IH].
    - now destruct base.
    - cbn [String.length String.append OsPath.take]. f_equal. exact IH. }
  rewrite Htake, (all_char_separator dir Hne Hend), andb_true_r.
  assert (Hnonempty : String.eqb (String.append dir "/") "" = false).
  { destruct dir; [congruence | reflexivity]. }
  rewrite Hnonempty. cbn [negb]. now apply rstrip_separator.
Qed.

Lemma join_directory (dir leaf : string) :
  dir <> EmptyString -> OsPath.ends_with "/" dir = false ->
  String.prefix "/" leaf = false ->
  OsPath.join dir leaf = String.append dir (String "/" leaf).
Proof.
  intros Hne Hend Hleaf. unfold OsPath.join. rewrite Hleaf, Hend.
  destruct dir; [congruence | reflexivity].
Qed.

Lemma split_bare (base : string) :
  OsPath.rfind "/" base = None -> fst (OsPath.split base) = EmptyString.
Proof. intros Hbase. unfold OsPath.split. rewrite Hbase. reflexivity. Qed.

(** The siblings are looked up beside the activity file: for [dir/base]
    they are [dir/iscell.npy] and [dir/stat.npy], and for a bare file
    name they are [iscell.npy] and [stat.npy] of the working directory.
    Absent there, both lookups answer [(None, None)]. *)
Theorem siblings_are_looked_up_beside_the_file w (dir base : string) msg :
  OsPath.rfind "/" base = None ->
  (dir <> EmptyString -> OsPath.ends_with "/" dir = false ->
   np_load w (String.append dir "/iscell.npy") false = inl (Raise FileNotFoundError msg) ->
   np_load w (String.append dir "/stat.npy") true = inl (Raise FileNotFoundError msg) ->
   _load_iscell w (String.append dir (String "/" base)) = ret (None, None) /\
   _load_stat w (String.append dir (String "/" base)) = ret (None, None)) /\
  (np_load w "iscell.npy" false = inl (Raise FileNotFoundError msg) ->
   np_load w "stat.npy" true = inl (Raise FileNotFoundError msg) ->
   _load_iscell w base = ret (None, None) /\
   _load_stat w base = ret (None, None)).
Proof.
  intros Hbase. split.
  - intros Hne Hend Hiscell Hstat.
    unfold _load_iscell, _load_stat. cbv zeta.
    rewrite (split_directory dir base Hne Hend Hbase).
    rewrite !(join_directory dir _ Hne Hend) by reflexivity.
    rewrite Hiscell, Hstat, !bind_error.
    split; now erewrite try_except_handled by reflexivity.
  - intros Hiscell Hstat. unfold _load_iscell, _load_stat. cbv zeta.
    rewrite (split_bare base Hbase).
    change (OsPath.join "" "iscell.npy") with "iscell.npy".
    change (OsPath.join "" "stat.npy") with "stat.npy".
    rewrite Hiscell, Hstat, !bind_error.
    split; now erewrite try_except_handled by reflexivity.
Qed.

(** An [iscell.npy] whose array has fewer than two axes, or fewer than
    two columns, makes [_load_iscell] raise [IndexError]: line 155 reads
    column 1 before anything is returned. *)
Theorem iscell_needs_two_columns w filename (a : ndarray E) :
  np_load w (OsPath.join (fst (OsPath.split filename)) "iscell.npy") false
    = inr (NpArray a) ->
  (ndim a < 2 ->
   _load_iscell w filename = raise IndexError "too many indices for array") /\
  (forall n c rest, shape a = n :: c :: rest -> c < 2 ->
   _load_iscell w filename = raise IndexError "index is out of bounds for axis 1").
Proof.
  intros Hload. split.
  - intros Hrank. unfold _load_iscell. cbv zeta.
    rewrite Hload, lift_value, bind_ret. unfold column, take_column.
    unfold ndim in Hrank.
    destruct (shape a) as [| n [| c rest]]; simpl in Hrank; try lia;
      rewrite !bind_raise; now erewrite try_except_propagates by reflexivity.
  - intros n c rest Hshape Hc. unfold _load_iscell. cbv zeta.
    rewrite Hload, lift_value, bind_ret. unfold column, take_column.
    rewrite Hshape.
    assert (Hlt : (1 <? c) = false) by (apply Nat.ltb_ge; lia).
    rewrite Hlt, !bind_raise. now erewrite try_except_propagates by reflexivity.
Qed.

Lemma comprehension_stops (rs : list (@record E)) : forall pre r post,
  rs = pre ++ r :: post ->
  Forall (fun r' => exists m, med (ERecord r') = ret m) pre ->
  med (ERecord r) = raise KeyError "med" ->
  comprehension med (map ERecord rs) = raise KeyError "med".
Proof.
  intros pre r post -> Hpre Hr.
  induction Hpre as [| r' pre' [m Hm] _ IH]; cbn [app map comprehension].
  - now rewrite Hr.
  - now rewrite Hm, bind_ret, IH.
Qed.

(** A [stat.npy] record that has no [med] entry is not tolerated:
    [KeyError] is not among the classes of line 168 and leaves
    [_load_stat]. *)
Theorem stat_record_without_med_raises w filename (a : ndarray record) n pre r post :
  np_load w (OsPath.join (fst (OsPath.split filename)) "stat.npy") true
    = inr (NpRecords a) ->
  shape a = [n] ->
  data a = pre ++ r :: post ->
  Forall (fun r' => exists m, med (ERecord r') = ret m) pre ->
  find (fun kv => String.eqb (fst kv) "med") r = None ->
  _load_stat w filename = raise KeyError "med".
Proof.
  intros Hload Hshape Hdata Hpre Hr. unfold _load_stat. cbv zeta.
  rewrite Hload, lift_value, bind_ret. unfold iterate. rewrite Hshape, bind_ret.
  rewrite (comprehension_stops (data a) pre r post Hdata Hpre).
  - rewrite bind_raise. now erewrite try_except_propagates by reflexivity.
  - cbn [med]. now rewrite Hr.
Qed.

(** Content of [stat.npy] that cannot be stacked is answered with
    [(None, None)]: positions of different shapes ([ValueError]), and an
    object that is not iterable as an array of records ([TypeError]). *)
Theorem unusable_stat_is_swallowed w filename :
  (forall (a : ndarray record) n m0 rest,
      np_load w (OsPath.join (fst (OsPath.split filename)) "stat.npy") true
        = inr (NpRecords a) ->
      shape a = [n] ->
      Forall2 (fun r m => med (ERecord r) = ret m) (data a) (m0 :: rest) ->
      (exists m, In m rest /\ shape m <> shape m0) ->
      _load_stat w filename = ret (None, None)) /\
  (forall (d : dict),
      np_load w (OsPath.join (fst (OsPath.split filename)) "stat.npy") true
        = inr (NpDict d) ->
      _load_stat w filename = ret (None, None)) /\
  (forall (a : ndarray E),
      np_load w (OsPath.join (fst (OsPath.split filename)) "stat.npy") true
        = inr (NpArray a) ->
      ndim a = 0 ->
      _load_stat w filename = ret (None, None)).
Proof.
  repeat split.
  - intros a n m0 rest Hload Hshape Hmeds (m & Hin & Hne).
    unfold _load_stat. cbv zeta.
    rewrite Hload, lift_value, bind_ret. unfold iterate. rewrite Hshape, bind_ret.
    rewrite (comprehension_med _ _ Hmeds), bind_ret. unfold array_of_list.
    assert (Hall : forallb (fun b => shape_eqb (shape b) (shape m0)) rest = false).
    { destruct (forallb _ rest) eqn:Hf; [| reflexivity].
      exfalso. apply Hne. rewrite forallb_forall in Hf.
      specialize (Hf m Hin). revert Hf. generalize (shape m) (shape m0).
      induction l as [| x l IH]; intros [| y l']; simpl; try discriminate; auto.
      intros Hb. apply andb_prop in Hb as [Hx Hl]. apply Nat.eqb_eq in Hx.
      f_equal; auto. }
    rewrite Hall, bind_raise.
    now erewrite try_except_handled by reflexivity.
  - intros d Hload. unfold _load_stat. cbv zeta.
    rewrite Hload, lift_value, bind_ret. unfold iterate. rewrite bind_raise.
    now erewrite try_except_handled by reflexivity.
  - intros a Hload Hrank. unfold _load_stat. cbv zeta.
    rewrite Hload, lift_value, bind_ret. unfold iterate.
    unfold ndim in Hrank. destruct (shape a); [| discriminate].
    rewrite bind_raise. now erewrite try_except_handled by reflexivity.
Qed.

End SiblingProperties.

(** ** Keys, lines 12-42 *)
Section KeyProperties.
Context {E : Type} `{Scalar E}.
Implicit Types (dat : @dict E) (st : @locals E) (keys : list string).

Lemma last_assigned_app dat names (k1 k2 : list string) : forall init,
  last_assigned dat names (k1 ++ k2) init
  = last_assigned dat names k2 (last_assigned dat names k1 init).
Proof. induction k1 as [| k k1' IH]; intros init; simpl; [reflexivity | apply IH]. Qed.

(** Among the keys that feed one name ([X]/[spks], [U]/[U0], [V]/[V0],
    [Sv]/[sv], [xy]/[xyz]), the one met last in the iteration decides. *)
Theorem later_key_overrides dat (pre post : list string) st (s : slot) n v :
  for_keys dat (pre ++ n :: post) initial_locals = ret st ->
  In n (slot_names s) ->
  (forall m, In m (slot_names s) -> ~ In m post) ->
  getitem dat n = ret v ->
  slot_value s st = Bound v.
Proof.
  intros Hloop Hn Hpost Hget.
  destruct (for_keys_slot _ _ _ _ _ s Hloop) as [_ ->].
  rewrite last_assigned_app. cbn [last_assigned].
  rewrite (proj2 (existsb_eqb_In n (slot_names s)) Hn), Hget. cbn [snd].
  now apply last_assigned_absent.
Qed.

(** Lines 45-58 neither read nor change the list of unrecognised keys. *)
Lemma derive_factors_other_keys st (o : list string) :
  derive_factors (with_other_keys st o) =
    match derive_factors st with
    | (l, inl e) => (l, inl e)
    | (l, inr s) => (l, inr (with_other_keys s o))
    end.
Proof.
  destruct st as [X Usv Vsv U V Sv xpos ypos xy other].
  unfold derive_factors, with_other_keys, read, and_also, Py.bind, ret, raise.
  destruct Usv as [| u], U as [| [| a]], Vsv as [| v], V as [| [| b]], Sv as [| [| s]];
    cbn -[column_norms times];
    repeat match goal with
    | |- context [column_norms ?x] =>
        destruct (column_norms x) as [? [? | [| ?]]]; cbn -[column_norms times]
    | |- context [times ?x ?y] =>
        destruct (times x y) as [? [? | ?]]; cbn -[column_norms times]
    end;
    reflexivity.
Qed.

Ltac cases_of_key key :=
  repeat match goal with
  | |- context [String.eqb ?k ?lit] =>
      constr_eq k key; destruct (String.eqb_spec k lit); [subst k |]
  end.

Lemma assign_key_unrecognised dat st key :
  recognised key = false -> assign_key dat st key = ret (append_other_key st key).
Proof.
  unfold recognised, assign_key. cbn [existsb].
  cases_of_key key; cbn [orb]; try discriminate. reflexivity.
Qed.

Lemma assign_key_recognised dat st key (o : list string) :
  recognised key = true ->
  assign_key dat (with_other_keys st o) key = rebase (assign_key dat st key) o /\
  (forall l s, assign_key dat st key = (l, inr s) -> l_other_keys s = l_other_keys st).
Proof.
  unfold recognised, assign_key. cbn [existsb].
  cases_of_key key; cbn [orb]; try discriminate; intros _;
    match goal with
    | |- context [getitem dat ?k] =>
        destruct (getitem_cases dat k) as [[v Hv] | Hv]; rewrite Hv
    end;
    rewrite ?bind_ret, ?bind_raise;
    (split; [reflexivity | intros l s Heq; inversion Heq; reflexivity]).
Qed.

Lemma rebase_rebase (m : M (@locals E)) (o o' : list string) :
  rebase (rebase m o) o' = rebase m o'.
Proof. destruct m as [l [e | s]]; reflexivity. Qed.

Lemma for_keys_rebase dat keys : forall st (o : list string),
  forallb recognised keys = true ->
  for_keys dat keys (with_other_keys st o) = rebase (for_keys dat keys st) o.
Proof.
  induction keys as [| key rest IH]; intros st o Hall; [reflexivity |].
  cbn [forallb] in Hall. apply andb_prop in Hall as [Hkey Hrest].
  cbn [for_keys]. rewrite (proj1 (assign_key_recognised dat st key o Hkey)).
  destruct (assign_key dat st key) as [l [e | s1]]; [reflexivity |].
  unfold rebase at 1. unfold Py.bind. rewrite (IH s1 o Hrest).
  destruct (for_keys dat rest s1) as [l2 [e | s2]]; reflexivity.
Qed.

Lemma forallb_filter_recognised keys :
  forallb recognised (filter recognised keys) = true.
Proof.
  induction keys as [| key rest IH]; [reflexivity |]. cbn [filter].
  destruct (recognised key) eqn:Hk; [| exact IH]. cbn [forallb]. now rewrite Hk.
Qed.

(** The loop over all keys is the loop over the recognised ones, with the
    others collected in order. *)
Lemma for_keys_filter dat keys : forall st,
  for_keys dat keys st =
    rebase (for_keys dat (filter recognised keys) st)
           (l_other_keys st ++ filter (fun k => negb (recognised k)) keys).
Proof.
  induction keys as [| key rest IH]; intros st.
  - cbn [filter for_keys]. rewrite app_nil_r. now destruct st.
  - cbn [filter for_keys]. destruct (recognised key) eqn:Hkey; cbn [negb].
    + cbn [for_keys].
      destruct (assign_key_recognised dat st key [] Hkey) as [_ Hkeeps].
      destruct (assign_key dat st key) as [l [e | s1]] eqn:Hstep; [reflexivity |].
      unfold Py.bind. rewrite (IH s1), (Hkeeps l s1 eq_refl).
      destruct (for_keys dat (filter recognised rest) s1) as [l2 [e | s2]];
        reflexivity.
    + rewrite (assign_key_unrecognised dat st key Hkey), bind_ret, (IH _).
      change (append_other_key st key)
        with (with_other_keys st (l_other_keys st ++ [key])).
      rewrite (for_keys_rebase dat _ st _ (forallb_filter_recognised rest)).
      rewrite rebase_rebase. cbn [with_other_keys l_other_keys].
      now rewrite <- app_assoc.
Qed.

(** Lines 44-84 do not look at the unrecognised keys. *)
Lemma after_keys_other_keys st (o : list string) :
  after_keys (with_other_keys st o) = after_keys st.
Proof.
  unfold after_keys.
  change (l_X (with_other_keys st o)) with (l_X st).
  destruct (is_none (l_X st)); [| reflexivity].
  rewrite derive_factors_other_keys.
  destruct (derive_factors st) as [l [e | s1]]; [reflexivity |].
  unfold Py.bind. cbv beta iota.
  change (validate_factors (with_other_keys s1 o)) with (validate_factors s1).
  destruct (validate_factors s1) as [lv [e | []]]; reflexivity.
Qed.

(** Keys outside the vocabulary are never looked up and never change
    what [_load_dict] returns or raises; the loop only collects them, in
    order. *)
Theorem unrecognised_keys_are_ignored dat keys :
  _load_dict dat keys = _load_dict dat (filter recognised keys) /\
  (forall st, for_keys dat keys initial_locals = ret st ->
              l_other_keys st = filter (fun k => negb (recognised k)) keys).
Proof.
  split.
  - change (_load_dict dat keys)
      with (Py.bind (for_keys dat keys initial_locals) after_keys).
    change (_load_dict dat (filter recognised keys))
      with (Py.bind (for_keys dat (filter recognised keys) initial_locals) after_keys).
    rewrite for_keys_filter.
    destruct (for_keys dat (filter recognised keys) initial_locals) as [l [e | s]];
      [reflexivity |].
    unfold rebase, Py.bind. now rewrite after_keys_other_keys.
  - intros st Hloop. rewrite for_keys_filter in Hloop.
    destruct (for_keys dat (filter recognised keys) initial_locals) as [l [e | s]];
      [discriminate |].
    unfold rebase, ret in Hloop. injection Hloop as _ <-. reflexivity.
Qed.

End KeyProperties.

(** ** What a successful call returns *)
Section ReturnedTuple.
Context {E : Type} `{Scalar E}.
Implicit Types (w : @world E) (filename : string) (dat : @dict E) (st : @locals E).

(** An activity matrix that passes lines 125-146 comes out 2-D, with its
    rows and its elements, and has ten rows or more. *)
Lemma check_activity_value (x : ndarray E) l X' :
  check_activity (OVal (PArr x)) = (l, inr X') ->
  exists x' n t rx,
    X' = PArr x' /\ shape x' = [n; t] /\ 10 <= n /\
    shape x = n :: rx /\ data x' = data x.
Proof.
  unfold check_activity, ndim, shape_first, shape_last, shape_second, reshape_rows.
  destruct (shape x) as [| n [| t [| c [| e rest]]]] eqn:Hshape;
    cbn [List.length Nat.eqb]; try discriminate.
  - change (3 <? 2) with false. cbv iota. rewrite !bind_ret.
    destruct (Nat.ltb_spec n 10); [discriminate |]. rewrite bind_ret.
    unfold ret. intros Heq. exists x, n, t, [t]. repeat split; congruence || assumption.
  - change (3 <? 3) with false. cbv iota. intros Hrun.
    apply bind_inr in Hrun as (? & [] & ? & _ & Hrun & _).
    rewrite bind_ret in Hrun.
    destruct (Nat.ltb_spec n 10); [discriminate |]. rewrite bind_ret in Hrun.
    cbn [rev app] in Hrun. rewrite !bind_ret in Hrun.
    apply bind_inr in Hrun as (? & [] & ? & _ & Hrun & _).
    destruct ((n =? 0) || negb (size x mod n =? 0)); [discriminate |].
    rewrite bind_ret in Hrun. unfold ret in Hrun.
    exists (mk_ndarray [n; size x / n] (data x)), n, (size x / n), [t; c].
    repeat split; congruence || assumption.
Qed.

(** Coordinates that [resolve_xy] returns are 2-D. *)
Lemma resolve_xy_rank st l (c : ndarray E) :
  resolve_xy st = (l, inr (PArr c)) -> ndim c = 2.
Proof.
  unfold resolve_xy. intros Hrun.
  apply bind_inr in Hrun as (l1 & xy1 & l2 & _ & Hrun & _).
  destruct xy1 as [| c1]; [discriminate |].
  apply bind_inr in Hrun as (l3 & xy2 & l4 & H2 & Hrun & _).
  destruct xy2 as [| c2]; [discriminate |].
  apply bind_inr in Hrun as (l5 & differs & l6 & _ & Hrun & _).
  apply bind_inr in Hrun as (l7 & xy3 & l8 & H3 & Hrun & _).
  destruct xy3 as [| c3]; cbn [is_none] in Hrun; [discriminate |].
  unfold ret in Hrun. assert (c3 = c) by congruence. subst c3. clear Hrun.
  assert (c2 = c).
  { destruct differs; [discriminate |].
    apply bind_inr in H3 as (? & u & ? & _ & H3 & _).
    apply bind_inr in H3 as (? & nu & ? & _ & H3 & _).
    apply bind_inr in H3 as (? & nc & ? & _ & H3 & _).
    destruct (negb (nu =? nc)); [discriminate |]. unfold ret in H3. congruence. }
  subst c2.
  destruct (Nat.eqb_spec (ndim c1) 2) as [Hrank | _]; cbn [negb] in H2;
    [| apply bind_inr in H2 as (? & ? & ? & _ & H2 & _); discriminate].
  apply bind_inr in H2 as (? & n0 & ? & _ & H2 & _).
  unfold ret in H2.
  destruct ((n0 =? 2) || (n0 =? 3)).
  - assert (c = transpose c1) by congruence. subst c.
    unfold ndim, transpose in *.
    destruct (shape c1) as [| r [| q [| ? ?]]]; try discriminate. reflexivity.
  - assert (c = c1) by congruence. now subst c.
Qed.

(** The state behind a tuple returned by [_load_dict]. *)
Lemma _load_dict_value dat keys l X Usv Vsv xy :
  _load_dict dat keys = (l, inr (X, Usv, Vsv, xy)) ->
  exists st' lx,
    resolve_xy st' = (lx, inr xy) /\
    l_X st' = X /\ l_Usv st' = Usv /\ l_Vsv st' = Vsv /\
    (X = PNone -> exists lv, validate_factors st' = (lv, inr tt)).
Proof.
  unfold _load_dict. intros Hrun.
  apply bind_inr in Hrun as (l1 & st & l2 & _ & Hrun & _).
  apply bind_inr in Hrun as (l3 & st' & l4 & Hfac & Hrun & _).
  apply bind_inr in Hrun as (l5 & xy' & l6 & Hxy & Hret & _).
  unfold ret in Hret.
  assert (xy' = xy) by congruence. subst xy'.
  exists st', l5. repeat split; try congruence.
  intros HX. assert (HX' : l_X st' = PNone) by congruence.
  destruct (is_none (l_X st)) eqn:Hnone.
  - apply bind_inr in Hfac as (l7 & st1 & l8 & _ & Hfac & _).
    apply bind_inr in Hfac as (l9 & [] & l10 & Hval & Hret' & _).
    unfold ret in Hret'. assert (st1 = st') by congruence. subst st1.
    now exists l9.
  - unfold ret in Hfac. assert (st = st') by congruence. subst st'.
    rewrite HX' in Hnone. discriminate.
Qed.

(** Whatever mapping is read, a call that returns hands back a 4-tuple
    of one of two kinds: a 2-D [X] with ten rows or more, or no [X] and a
    validated pair ([Usv] of rank at most 3, 2-D [Vsv], same trailing
    dimension).  Coordinates, when returned, are 2-D with one row per row
    of [Usv], and per row of [X] when there is one. *)
Theorem returned_tuple_is_well_formed w filename dat keys l r :
  reads_mapping w filename dat keys ->
  load_activity w filename = (l, inr r) ->
  exists X Usv Vsv xy,
    r = Some (X, Usv, Vsv, xy) /\
    ((exists x n t, X = PArr x /\ shape x = [n; t] /\ 10 <= n /\
        (forall c, xy = PArr c ->
           exists q u ru, shape c = [n; q] /\ Usv = PArr u /\ shape u = n :: ru)) \/
     (X = PNone /\
      exists u v k, Usv = PArr u /\ Vsv = PArr v /\
        shape_last u = ret k /\ shape_last v = ret k /\
        ndim u <= 3 /\ ndim v = 2 /\
        (forall c, xy = PArr c ->
           exists n q ru, shape c = [n; q] /\ shape u = n :: ru))).
Proof.
  intros Hmap Hrun. rewrite (load_activity_mapping _ _ _ _ Hmap) in Hrun.
  apply bind_inr in Hrun as (l1 & [] & l2 & _ & Hrun & _).
  apply bind_inr in Hrun as (l3 & [[[X Usv] Vsv] xy] & l4 & Hdict & Hrun & _).
  destruct (_load_dict_value _ _ _ _ _ _ _ Hdict)
    as (st' & lx & Hxy & HX & HU & HV & Hvalid).
  assert (Hcoords : forall c, xy = PArr c ->
            ndim c = 2 /\
            (exists u n ru rc, Usv = PArr u /\ shape u = n :: ru /\ shape c = n :: rc) /\
            (forall x, X = PArr x -> exists n rx rc, shape x = n :: rx /\ shape c = n :: rc)).
  { intros c ->. split; [exact (resolve_xy_rank _ _ _ Hxy) |].
    destruct (resolve_xy_value _ _ _ Hxy) as [HwithU HwithX].
    rewrite HU in HwithU. rewrite HX in HwithX. auto. }
  unfold validate_and_return, frame_of_dict in Hrun.
  cbn [f_X f_Usv f_Vsv f_xy obj_is_none] in Hrun.
  destruct X as [| x].
  - destruct (Hvalid eq_refl) as [lv Hval].
    apply validate_factors_value in Hval as (u & v & k & Hu & Hv & Hku & Hkv & Hru & Hrv).
    subst Usv Vsv. rewrite Hu, Hv in Hrun.
    cbn [is_none orb andb negb read] in Hrun. rewrite !bind_ret in Hrun.
    unfold ret in Hrun. exists PNone, (l_Usv st'), (l_Vsv st'), xy.
    split; [congruence |]. right. split; [reflexivity |].
    exists u, v, k. repeat split; try assumption.
    intros c Hc. destruct (Hcoords c Hc) as (Hrank & (u' & n & ru & rc & Hu' & Hsu & Hsc) & _).
    rewrite Hu in Hu'. injection Hu' as <-. unfold ndim in Hrank.
    destruct rc as [| q [| ? ?]]; rewrite Hsc in Hrank; try discriminate.
    exists n, q, ru. auto.
  - cbn [andb negb] in Hrun.
    apply bind_inr in Hrun as (l5 & X' & l6 & Hcheck & Hrun & _).
    cbn [read] in Hrun. rewrite bind_ret in Hrun. unfold ret in Hrun.
    destruct (check_activity_value _ _ _ Hcheck) as (x' & n & t & rx & -> & Hsx' & Hn & Hsx & _).
    exists (PArr x'), Usv, Vsv, xy. split; [congruence |]. left.
    exists x', n, t. repeat split; try assumption.
    intros c Hc.
    destruct (Hcoords c Hc) as (Hrank & (u & n' & ru & rc & Hu & Hsu & Hsc) & HwithX).
    destruct (HwithX x eq_refl) as (n'' & rx' & rc' & Hsx2 & Hsc2).
    rewrite Hsx in Hsx2. injection Hsx2 as <- <-.
    rewrite Hsc in Hsc2. injection Hsc2 as -> <-.
    unfold ndim in Hrank.
    destruct rc as [| q [| ? ?]]; rewrite Hsc in Hrank; try discriminate.
    exists q, u, ru. auto.
Qed.

End ReturnedTuple.

(** ** The properties above on sample files *)

Lemma mat_with_several_variables_raises_witness :
  load_activity
    (Sample.mat_world [("A", Sample.matrix [10; 5]); ("B", Sample.matrix [10; 5])])
    "session.mat" =
    ([loading "session.mat"], inl (Raise IndexError not_subscriptable)).
Proof.
  eapply (mat_with_several_variables_raises _ _ _ "A" "B" [] (Sample.matrix [10; 5]));
    reflexivity.
Defined.

Lemma mat_without_variables_raises_witness :
  load_activity (Sample.mat_world []) "empty.mat" =
    ([loading "empty.mat"],
     inl (Raise AttributeError "'dict' object has no attribute 'ndim'")).
Proof.
  eapply mat_without_variables_raises; reflexivity.
Defined.

Lemma plain_mat_array_is_checked_witness :
  load_activity (Sample.mat_world [("A", Sample.matrix [4; 5])]) "short.mat" =
    ([loading "short.mat"],
     inl (Raise ValueError "ERROR: matrix with fewer than 10 neurons provided")).
Proof.
  eapply (proj1 (proj2 (proj2
            (plain_mat_array_is_checked
               (Sample.mat_world [("A", Sample.matrix [4; 5])])
               "short.mat" _ "A" (Sample.matrix [4; 5])
               eq_refl eq_refl eq_refl eq_refl))) 4 5);
    [reflexivity | lia].
Defined.

Lemma reader_errors_propagate_witness :
  load_activity Sample.empty_world "data.npy" =
    ([loading "data.npy"], inl (Raise FileNotFoundError "No such file or directory")).
Proof.
  apply (proj1 (reader_errors_propagate Sample.empty_world "data.npy" _));
    [left; reflexivity | reflexivity].
Defined.

Lemma missing_mat73_is_announced_witness :
  load_activity Sample.mat73_missing_world "big.mat" =
    ([loading "big.mat"; Stdout "please 'pip install mat73'"],
     inl (Raise UnboundLocalError "mat73")).
Proof.
  eapply missing_mat73_is_announced; reflexivity.
Defined.

Lemma complete_factor_pair_is_returned_witness :
  load_activity
    (Sample.npz_world [("Usv", Sample.matrix [10; 2]); ("Vsv", Sample.matrix [7; 2])])
    "factors.npz" =
    ([loading "factors.npz"],
     inr (Some (PNone, PArr (Sample.matrix [10; 2]), PArr (Sample.matrix [7; 2]), PNone))).
Proof.
  eapply (complete_factor_pair_is_returned _ _ _ _ _ _ _ 2).
  - apply from_npz; reflexivity.
  - reflexivity.
  - reflexivity.
  - reflexivity.
  - reflexivity.
  - reflexivity.
  - reflexivity.
  - vm_compute; lia.
  - reflexivity.
  - reflexivity.
  - reflexivity.
Defined.

Lemma factor_coordinates_follow_Usv_witness :
  load_activity
    (Sample.npz_world [("Usv", Sample.matrix [10; 2]); ("Vsv", Sample.matrix [7; 2]);
                       ("xy", Sample.matrix [2; 10])])
    "factors.npz" =
    ([loading "factors.npz"],
     inr (Some (PNone, PArr (Sample.matrix [10; 2]), PArr (Sample.matrix [7; 2]),
                PArr (orient (Sample.matrix [2; 10]))))).
Proof.
  refine (proj1 (factor_coordinates_follow_Usv
                   (Sample.npz_world [("Usv", Sample.matrix [10; 2]);
                                      ("Vsv", Sample.matrix [7; 2]);
                                      ("xy", Sample.matrix [2; 10])])
                   "factors.npz"
                   (dict_of_record [("Usv", Sample.matrix [10; 2]);
                                    ("Vsv", Sample.matrix [7; 2]);
                                    ("xy", Sample.matrix [2; 10])])
                   ["Usv"; "Vsv"; "xy"]
                   (set_xy (set_Vsv (set_Usv initial_locals (PArr (Sample.matrix [10; 2])))
                                    (PArr (Sample.matrix [7; 2])))
                           (PArr (Sample.matrix [2; 10])))
                   (Sample.matrix [10; 2]) (Sample.matrix [7; 2]) (Sample.matrix [2; 10])
                   2 10 [2] 2 10
                   _ eq_refl eq_refl eq_refl eq_refl eq_refl eq_refl _ eq_refl eq_refl
                   eq_refl eq_refl) eq_refl).
  - apply (from_npz _ "factors.npz" [("Usv", Sample.matrix [10; 2]);
                                     ("Vsv", Sample.matrix [7; 2]);
                                     ("xy", Sample.matrix [2; 10])]);
      reflexivity.
  - vm_compute; lia.
Defined.

Lemma activity_coordinates_follow_X_witness :
  load_activity
    (Sample.npz_world [("X", Sample.matrix [10; 5]); ("xy", Sample.matrix [11; 2])])
    "session.npz" =
    ([loading "session.npz"; Stdout xy_size_notice],
     inr (Some (PArr (Sample.matrix [10; 5]), PNone, PNone, PNone))).
Proof.
  assert (Hmap : reads_mapping
                   (Sample.npz_world [("X", Sample.matrix [10; 5]);
                                      ("xy", Sample.matrix [11; 2])])
                   "session.npz"
                   (dict_of_record [("X", Sample.matrix [10; 5]);
                                    ("xy", Sample.matrix [11; 2])])
                   ["X"; "xy"]).
  { apply (from_npz _ "session.npz" [("X", Sample.matrix [10; 5]);
                                     ("xy", Sample.matrix [11; 2])]);
      reflexivity. }
  apply (proj1 (activity_coordinates_follow_X _ _ _ _
                  (set_xy (set_X initial_locals (PArr (Sample.matrix [10; 5])))
                          (PArr (Sample.matrix [11; 2])))
                  (Sample.matrix [10; 5]) (Sample.matrix [11; 2]) 10 5 11 2
                  Hmap eq_refl eq_refl eq_refl (le_n 10) eq_refl eq_refl)).
  vm_compute. discriminate.
Defined.

Lemma mismatched_positions_are_dropped_witness :
  load_activity
    (Sample.npz_world [("X", Sample.matrix [10; 5]); ("xpos", Sample.matrix [12]);
                       ("ypos", Sample.matrix [12])])
    "session.npz" =
    ([loading "session.npz"; Stdout xy_size_notice],
     inr (Some (PArr (Sample.matrix [10; 5]), PNone, PNone, PNone))).
Proof.
  assert (Hmap : reads_mapping
                   (Sample.npz_world [("X", Sample.matrix [10; 5]);
                                      ("xpos", Sample.matrix [12]);
                                      ("ypos", Sample.matrix [12])])
                   "session.npz"
                   (dict_of_record [("X", Sample.matrix [10; 5]);
                                    ("xpos", Sample.matrix [12]);
                                    ("ypos", Sample.matrix [12])])
                   ["X"; "xpos"; "ypos"]).
  { apply (from_npz _ "session.npz" [("X", Sample.matrix [10; 5]);
                                     ("xpos", Sample.matrix [12]);
                                     ("ypos", Sample.matrix [12])]);
      reflexivity. }
  apply (mismatched_positions_are_dropped _ _ _ _
           (set_ypos (set_xpos (set_X initial_locals (PArr (Sample.matrix [10; 5])))
                               (PArr (Sample.matrix [12])))
                     (PArr (Sample.matrix [12])))
           (Sample.matrix [10; 5]) (Sample.matrix [12]) (Sample.matrix [12]) 10 5 12
           Hmap eq_refl eq_refl eq_refl (le_n 10) eq_refl eq_refl eq_refl eq_refl eq_refl).
  lia.
Defined.

Lemma misshapen_coordinates_are_dropped_witness :
  load_activity
    (Sample.npz_world [("X", Sample.matrix [10; 5]); ("xy", Sample.matrix [10])])
    "session.npz" =
    ([loading "session.npz"; Stdout xy_rank_notice],
     inr (Some (PArr (Sample.matrix [10; 5]), PNone, PNone, PNone))).
Proof.
  assert (Hmap : reads_mapping
                   (Sample.npz_world [("X", Sample.matrix [10; 5]);
                                      ("xy", Sample.matrix [10])])
                   "session.npz"
                   (dict_of_record [("X", Sample.matrix [10; 5]);
                                    ("xy", Sample.matrix [10])])
                   ["X"; "xy"]).
  { apply (from_npz _ "session.npz" [("X", Sample.matrix [10; 5]);
                                     ("xy", Sample.matrix [10])]);
      reflexivity. }
  apply (misshapen_coordinates_are_dropped _ _ _ _
           (set_xy (set_X initial_locals (PArr (Sample.matrix [10; 5])))
                   (PArr (Sample.matrix [10])))
           (Sample.matrix [10; 5]) (Sample.matrix [10]) 10 5
           Hmap eq_refl eq_refl eq_refl (le_n 10) eq_refl).
  vm_compute. discriminate.
Defined.

Lemma positions_need_both_vectors_witness :
  load_activity
    (Sample.npz_world [("X", Sample.matrix [10; 5]); ("xpos", Sample.matrix [10])])
    "session.npz" =
    ([loading "session.npz"],
     inl (Raise ValueError "all input arrays must have the same shape")).
Proof.
  refine (proj1 (positions_need_both_vectors
                   (Sample.npz_world [("X", Sample.matrix [10; 5]);
                                      ("xpos", Sample.matrix [10])])
                   "session.npz"
                   (dict_of_record [("X", Sample.matrix [10; 5]);
                                    ("xpos", Sample.matrix [10])])
                   ["X"; "xpos"]
                   (set_xpos (set_X initial_locals (PArr (Sample.matrix [10; 5])))
                             (PArr (Sample.matrix [10])))
                   (Sample.matrix [10; 5]) 10 5
                   _ eq_refl eq_refl eq_refl (le_n 10) eq_refl)
                (Sample.matrix [10]) 10 [] eq_refl eq_refl eq_refl).
  apply (from_npz _ "session.npz" [("X", Sample.matrix [10; 5]);
                                   ("xpos", Sample.matrix [10])]);
    reflexivity.
Defined.

Lemma keyed_3d_activity_is_returned_flat_witness :
  load_activity (Sample.npz_world [("X", Sample.matrix [10; 4; 3])]) "stack.npz" =
    ([loading "stack.npz"; Warning flatten_warning; Stdout (flatten_notice 10 4 3)],
     inr (Some (PArr (mk_ndarray [10; 12] (seq 1 120)), PNone, PNone, PNone))).
Proof.
  assert (Hmap : reads_mapping
                   (Sample.npz_world [("X", Sample.matrix [10; 4; 3])]) "stack.npz"
                   (dict_of_record [("X", Sample.matrix [10; 4; 3])]) ["X"]).
  { apply (from_npz _ "stack.npz" [("X", Sample.matrix [10; 4; 3])]); reflexivity. }
  apply (keyed_3d_activity_is_returned_flat _ _ _ _
           (set_X initial_locals (PArr (Sample.matrix [10; 4; 3])))
           (Sample.matrix [10; 4; 3]) 10 4 3
           Hmap eq_refl eq_refl eq_refl (le_n 10) eq_refl eq_refl).
Defined.

Lemma keyed_activity_is_checked_witness :
  load_activity (Sample.npz_world [("X", Sample.matrix [4; 5])]) "short.npz" =
    ([loading "short.npz"],
     inl (Raise ValueError "ERROR: matrix with fewer than 10 neurons provided")).
Proof.
  assert (Hmap : reads_mapping
                   (Sample.npz_world [("X", Sample.matrix [4; 5])]) "short.npz"
                   (dict_of_record [("X", Sample.matrix [4; 5])]) ["X"]).
  { apply (from_npz _ "short.npz" [("X", Sample.matrix [4; 5])]); reflexivity. }
  apply (proj1 (proj2 (proj2
           (keyed_activity_is_checked _ _ _ _
              (set_X initial_locals (PArr (Sample.matrix [4; 5])))
              (Sample.matrix [4; 5]) Hmap eq_refl eq_refl eq_refl eq_refl))) 4 5 eq_refl).
  lia.
Defined.

Lemma explicit_scaling_scales_U_witness :
  load_activity
    (Sample.npz_world [("U0", Sample.matrix [10; 2]); ("Vsv", Sample.matrix [7; 2]);
                       ("Sv", mk_ndarray [2] [3; 5])])
    "factors.npz" =
    ([loading "factors.npz"],
     inr (Some (PNone,
                PArr (mk_ndarray [10; 2]
                        (scale_columns 10 2 (data (Sample.matrix [10; 2])) [3; 5])),
                PArr (Sample.matrix [7; 2]), PNone))).
Proof.
  eapply (explicit_scaling_scales_U _ _ _ _ _ (Sample.matrix [10; 2])
            (mk_ndarray [2] [3; 5]) (Sample.matrix [7; 2]) 10 7 2).
  - apply from_npz; reflexivity.
  - reflexivity.
  - reflexivity.
  - reflexivity.
  - reflexivity.
  - reflexivity.
  - reflexivity.
  - reflexivity.
  - reflexivity.
  - reflexivity.
  - reflexivity.
  - reflexivity.
  - reflexivity.
  - reflexivity.
Defined.

Lemma explicit_scaling_scales_V_witness :
  load_activity
    (Sample.npz_world [("Usv", Sample.matrix [10; 2]); ("V", Sample.matrix [7; 2]);
                       ("sv", mk_ndarray [2] [3; 5])])
    "factors.npz" =
    ([loading "factors.npz"],
     inr (Some (PNone, PArr (Sample.matrix [10; 2]),
                PArr (mk_ndarray [7; 2]
                        (scale_columns 7 2 (data (Sample.matrix [7; 2])) [3; 5])),
                PNone))).
Proof.
  eapply (explicit_scaling_scales_V _ _ _ _ _ (Sample.matrix [10; 2])
            (Sample.matrix [7; 2]) (mk_ndarray [2] [3; 5]) 10 7 2).
  - apply from_npz; reflexivity.
  - reflexivity.
  - reflexivity.
  - reflexivity.
  - reflexivity.
  - reflexivity.
  - reflexivity.
  - reflexivity.
  - reflexivity.
  - reflexivity.
  - reflexivity.
  - reflexivity.
  - reflexivity.
  - reflexivity.
Defined.

Lemma null_scaling_is_derived_from_Vsv_witness :
  exists sums,
    sum_axis0 (square (mk_ndarray [2; 2] [3; 0; 4; 5])) = ret (mk_ndarray [2] sums) /\
    load_activity
      (Sample.pickle_world [("U", PArr (Sample.matrix [10; 2]));
                            ("Vsv", PArr (mk_ndarray [2; 2] [3; 0; 4; 5]));
                            ("Sv", PNone)])
      "factors.npy" =
      ([loading "factors.npy"],
       inr (Some (PNone,
                  PArr (mk_ndarray [10; 2]
                          (scale_columns 10 2 (data (Sample.matrix [10; 2]))
                             (map s_root sums))),
                  PArr (mk_ndarray [2; 2] [3; 0; 4; 5]), PNone))).
Proof.
  eapply (null_scaling_is_derived_from_Vsv _ _ _ _ _ (Sample.matrix [10; 2])
            (mk_ndarray [2; 2] [3; 0; 4; 5]) 10 2 2).
  - apply from_npy; reflexivity.
  - reflexivity.
  - reflexivity.
  - reflexivity.
  - reflexivity.
  - reflexivity.
  - reflexivity.
  - reflexivity.
  - reflexivity.
  - reflexivity.
  - reflexivity.
  - reflexivity.
  - reflexivity.
Defined.

Lemma null_scaling_without_opposite_is_reported_witness :
  load_activity
    (Sample.pickle_world [("U", PArr (Sample.matrix [10; 2])); ("Sv", PNone)])
    "factors.npy" =
    ([loading "factors.npy"], inl (Raise ValueError "no Sv scaling for PCs available")).
Proof.
  eapply null_scaling_without_opposite_is_reported.
  - apply from_npy; reflexivity.
  - reflexivity.
  - reflexivity.
  - reflexivity.
  - reflexivity.
  - reflexivity.
  - left. eexists. reflexivity.
Defined.

Lemma siblings_are_looked_up_beside_the_file_witness :
  _load_iscell (Sample.elsewhere_world "plane0/iscell.npy" "plane0/stat.npy")
    "plane0/F.npy" = ret (None, None) /\
  _load_stat (Sample.elsewhere_world "plane0/iscell.npy" "plane0/stat.npy")
    "plane0/F.npy" = ret (None, None).
Proof.
  apply (proj1 (siblings_are_looked_up_beside_the_file
                  (Sample.elsewhere_world "plane0/iscell.npy" "plane0/stat.npy")
                  "plane0" "F.npy" "No such file or directory" eq_refl));
    [discriminate | reflexivity | reflexivity | reflexivity].
Defined.

Lemma iscell_needs_two_columns_witness :
  _load_iscell (Sample.npy_world (Sample.matrix [10; 1])) "plane0/F.npy" =
    raise IndexError "index is out of bounds for axis 1".
Proof.
  apply (proj2 (iscell_needs_two_columns
                  (Sample.npy_world (Sample.matrix [10; 1])) "plane0/F.npy"
                  (Sample.matrix [10; 1]) eq_refl) 10 1 [] eq_refl).
  lia.
Defined.

Lemma stat_record_without_med_raises_witness :
  _load_stat
    (Sample.stat_world
       (mk_ndarray [2] [[("med", mk_ndarray [2] [4; 5])];
                        [("npix", mk_ndarray [] [30])]]))
    "plane0/F.npy" =
    raise KeyError "med".
Proof.
  apply (stat_record_without_med_raises _ "plane0/F.npy"
           (mk_ndarray [2] [[("med", mk_ndarray [2] [4; 5])];
                            [("npix", mk_ndarray [] [30])]])
           2 [[("med", mk_ndarray [2] [4; 5])]] [("npix", mk_ndarray [] [30])] []);
    try reflexivity.
  constructor; [| constructor]. eexists. reflexivity.
Defined.

Lemma unusable_stat_is_swallowed_witness :
  _load_stat
    (Sample.stat_world
       (mk_ndarray [2] [[("med", mk_ndarray [2] [4; 5])];
                        [("med", mk_ndarray [3] [6; 7; 8])]]))
    "plane0/F.npy" =
    ret (None, None).
Proof.
  apply (proj1 (unusable_stat_is_swallowed _ "plane0/F.npy")
           (mk_ndarray [2] [[("med", mk_ndarray [2] [4; 5])];
                            [("med", mk_ndarray [3] [6; 7; 8])]])
           2 (mk_ndarray [2] [4; 5]) [mk_ndarray [3] [6; 7; 8]]).
  - reflexivity.
  - reflexivity.
  - constructor; [reflexivity |]. constructor; [reflexivity | constructor].
  - exists (mk_ndarray [3] [6; 7; 8]). split; [left; reflexivity | discriminate].
Defined.

Lemma later_key_overrides_witness :
  exists st,
    for_keys (dict_of_record [("U", Sample.matrix [10; 2]); ("U0", Sample.matrix [10; 3])])
             ["U"; "U0"] initial_locals = ret st /\
    slot_value SlotU st = Bound (PArr (Sample.matrix [10; 3])).
Proof.
  eexists. split; [reflexivity |].
  apply (later_key_overrides
           (dict_of_record [("U", Sample.matrix [10; 2]); ("U0", Sample.matrix [10; 3])])
           ["U"] [] _ SlotU "U0" (PArr (Sample.matrix [10; 3])));
    [reflexivity | simpl; tauto | intros m _ [] | reflexivity].
Defined.

Lemma unrecognised_keys_are_ignored_witness :
  _load_dict (dict_of_record [("note", Sample.matrix [1]); ("Usv", Sample.matrix [10; 2]);
                              ("Vsv", Sample.matrix [7; 2])])
             ["note"; "Usv"; "Vsv"] =
  _load_dict (dict_of_record [("note", Sample.matrix [1]); ("Usv", Sample.matrix [10; 2]);
                              ("Vsv", Sample.matrix [7; 2])])
             ["Usv"; "Vsv"].
Proof.
  apply (proj1 (unrecognised_keys_are_ignored
                  (dict_of_record [("note", Sample.matrix [1]);
                                   ("Usv", Sample.matrix [10; 2]);
                                   ("Vsv", Sample.matrix [7; 2])])
                  ["note"; "Usv"; "Vsv"])).
Defined.

Lemma returned_tuple_is_well_formed_witness :
  exists X Usv Vsv xy,
    Some (PArr (Sample.matrix [10; 5]), PArr (Sample.matrix [10; 2]), PNone,
          PArr (mk_ndarray [10; 2]
                  [1; 1; 2; 2; 3; 3; 4; 4; 5; 5; 6; 6; 7; 7; 8; 8; 9; 9; 10; 10]))
      = Some (X, Usv, Vsv, xy) /\
    ((exists (x : ndarray nat) n t, X = PArr x /\ shape x = [n; t] /\ 10 <= n /\
        (forall c : ndarray nat, xy = PArr c ->
           exists q (u : ndarray nat) ru, shape c = [n; q] /\ Usv = PArr u /\ shape u = n :: ru)) \/
     (X = PNone /\
      exists (u v : ndarray nat) k, Usv = PArr u /\ Vsv = PArr v /\
        shape_last u = ret k /\ shape_last v = ret k /\
        ndim u <= 3 /\ ndim v = 2 /\
        (forall c : ndarray nat, xy = PArr c ->
           exists n q ru, shape c = [n; q] /\ shape u = n :: ru))).
Proof.
  eapply (returned_tuple_is_well_formed
            (Sample.npz_world [("X", Sample.matrix [10; 5]); ("Usv", Sample.matrix [10; 2]);
                               ("xpos", Sample.matrix [10]); ("ypos", Sample.matrix [10])])
            "session.npz").
  - apply from_npz; reflexivity.
  - reflexivity.
Defined.
